(** * Staged survey-generation pipeline: a shallow embedding

    The Python sources (title.py, outline.py, abstract.py,
    referenceselection.py, CoTreferenceselection.py, content.py,
    subsectionagent.py, outputxml.py, main.py) are embedded function by
    function.  Python strings are lists of characters, the language-model
    client is an oracle threaded through an explicit world, exceptions are
    an explicit result type, and the artifact directories are association
    lists keyed by paper identifier. *)

From Stdlib Require Import String Ascii DecimalString.
From Stdlib Require Import List Arith Bool Lia.
Import ListNotations.

Set Implicit Arguments.

(* ------------------------------------------------------------------ *)
(** ** Python string primitives *)

Module Py.

Definition str := list ascii.

Definition py (s : string) : str := list_ascii_of_string s.

Definition str_eqb (a b : str) : bool :=
  if list_eq_dec ascii_dec a b then true else false.

(** [str.isspace] on the code points below 256. *)
Definition isspace (c : ascii) : bool :=
  let n := nat_of_ascii c in
  ((9 <=? n) && (n <=? 13)) || ((28 <=? n) && (n <=? 32))
  || (n =? 133) || (n =? 160).

Definition isdigit (c : ascii) : bool :=
  let n := nat_of_ascii c in (48 <=? n) && (n <=? 57).

Fixpoint lstrip (s : str) : str :=
  match s with
  | [] => []
  | c :: s' => if isspace c then lstrip s' else s
  end.

Fixpoint rstrip (s : str) : str :=
  match s with
  | [] => []
  | c :: s' =>
      match rstrip s' with
      | [] => if isspace c then [] else [c]
      | r => c :: r
      end
  end.

(** [s.strip()] *)
Definition strip (s : str) : str := rstrip (lstrip s).

(** [s.startswith(p)] *)
Fixpoint startswith (s p : str) : bool :=
  match p, s with
  | [], _ => true
  | _ :: _, [] => false
  | a :: p', b :: s' => Ascii.eqb a b && startswith s' p'
  end.

(** [s.endswith(p)] *)
Definition endswith (s p : str) : bool := startswith (rev s) (rev p).

(** [s[i:-j]] for literal offsets [i >= 0] and [j > 0]: the stop index is
    [len(s) - j], clamped at 0. *)
Definition slice (i j : nat) (s : str) : str :=
  skipn i (firstn (length s - j) s).

Definition cons_head (c : ascii) (l : list str) : list str :=
  match l with
  | w :: ws => (c :: w) :: ws
  | [] => [[c]]
  end.

(** [s.split(sep)] for a non-empty separator: leftmost, non-overlapping
    occurrences; [skip] counts the characters of a separator still to be
    consumed. *)
Fixpoint split_aux (sep : str) (skip : nat) (s : str) : list str :=
  match s with
  | [] => [[]]
  | c :: s' =>
      match skip with
      | S k => split_aux sep k s'
      | O => if startswith s sep
             then [] :: split_aux sep (length sep - 1) s'
             else cons_head c (split_aux sep 0 s')
      end
  end.

Definition split (sep : str) (s : str) : list str := split_aux sep 0 s.

(** [s.split()]: maximal runs of non-whitespace characters. *)
Fixpoint split_ws (s : str) : list str :=
  match s with
  | [] => []
  | c :: s' =>
      if isspace c then split_ws s'
      else match s' with
           | [] => [[c]]
           | d :: _ => if isspace d then [c] :: split_ws s'
                       else cons_head c (split_ws s')
           end
  end.

(** [sep.join(l)] *)
Fixpoint join (sep : str) (l : list str) : str :=
  match l with
  | [] => []
  | [x] => x
  | x :: l' => x ++ sep ++ join sep l'
  end.

(** [re.sub(p1|p2|..., '', s)] for literal, non-empty alternatives: at each
    position the first alternative that matches is deleted, and scanning
    resumes after it. *)
Fixpoint re_sub_aux (pats : list str) (skip : nat) (s : str) : str :=
  match s with
  | [] => []
  | c :: s' =>
      match skip with
      | S k => re_sub_aux pats k s'
      | O => match find (startswith s) pats with
             | Some p => re_sub_aux pats (length p - 1) s'
             | None => c :: re_sub_aux pats 0 s'
             end
      end
  end.

Definition re_sub (pats : list str) (s : str) : str := re_sub_aux pats 0 s.

(** Some alternative occurs somewhere in [s]. *)
Fixpoint contains_any (pats : list str) (s : str) : bool :=
  match s with
  | [] => false
  | _ :: s' => existsb (startswith s) pats || contains_any pats s'
  end.

(** [re.search(r'\[\d+\]', s)] as a boolean. *)
Fixpoint digits_close (s : str) : bool :=
  match s with
  | [] => false
  | c :: s' => if isdigit c then digits_close s' else Ascii.eqb c "]"
  end.

Definition citation_here (s : str) : bool :=
  match s with
  | c :: d :: s' => Ascii.eqb c "[" && isdigit d && digits_close s'
  | _ => false
  end.

Fixpoint has_citation (s : str) : bool :=
  match s with
  | [] => false
  | _ :: s' => citation_here s || has_citation s'
  end.

(** [s.find(p)]: the text before and after the leftmost occurrence. *)
Fixpoint partition (p : str) (s : str) : option (str * str) :=
  if startswith s p then Some ([], skipn (length p) s)
  else match s with
       | [] => None
       | c :: s' => match partition p s' with
                    | Some (a, b) => Some (c :: a, b)
                    | None => None
                    end
       end.

(** [f"{n}"] for a non-negative integer. *)
Definition str_of_nat (n : nat) : str :=
  py (NilEmpty.string_of_uint (Nat.to_uint n)).

Definition nl : ascii := "010".

End Py.

Import Py.

(* ------------------------------------------------------------------ *)
(** ** Exceptions, the model client and the artifact store *)

(** A computation that may raise: [try: ... except Exception] is [catch]. *)
Inductive exc (A : Type) : Type :=
| Ok (a : A)
| Raise.

Arguments Raise {A}.

Definition catch {A} (m : exc A) (handler : A) : A :=
  match m with
  | Ok a => a
  | Raise => handler
  end.

(** The unbounded [while True] loops take fuel; [None] is a run that has
    not returned within the fuel given. *)
Definition obind {A B} (m : option A) (f : A -> option B) : option B :=
  match m with
  | Some a => f a
  | None => None
  end.

Notation "'let?' x := m 'in' k" := (obind m (fun x => k))
  (at level 10, x pattern, m at level 100, k at level 200).

Inductive role := user | assistant.

Record message := Message { msg_role : role; msg_content : str }.

(** [config.client]: [client.chat.completions.create(model=..., messages=...,
    temperature=0.7[, max_tokens=...])] followed by
    [response.choices[0].message.content].  The collaborator is sampled, so it
    is an oracle over an explicit world; [Raise] is any exception of the
    call. *)
Class Client := {
  World : Type;
  create : World -> list message -> option nat -> exc str * World
}.

(** The counting client: it answers as [base] does and counts the calls. *)
Definition counting (base : Client) : Client :=
  {| World := (@World base * nat)%type;
     create := fun w messages max_tokens =>
       let '(r, w') := @create base (fst w) messages max_tokens in
       (r, (w', S (snd w))) |}.

(** A scripted client answers with the next entry of its script, and raises
    once the script is used up. *)
Definition scripted : Client :=
  {| World := list (exc str);
     create := fun w _ _ =>
       match w with
       | r :: w' => (r, w')
       | [] => (Raise, [])
       end |}.

(** [prompts.yaml] is not part of the sources: [self.prompt.format(...)] of
    each stage is a parameter; it raises on a template whose placeholders
    do not fit. *)
Class Prompts := {
  title_prompt : str -> str -> exc str;
  outline_prompt : str -> str -> exc str;
  abstract_prompt : str -> str -> str -> exc str;
  reference_selection_prompt : str -> str -> str -> str -> str -> exc str;
  content_prompt : str -> str -> str -> str -> str -> str -> exc str
}.

(** Python dictionaries keep insertion order and unique keys. *)
Module Dict.

Definition dict (V : Type) := list (str * V).

Fixpoint get {V} (d : dict V) (k : str) : option V :=
  match d with
  | [] => None
  | (k', v) :: d' => if str_eqb k' k then Some v else get d' k
  end.

(** [d[k] = v] *)
Fixpoint set {V} (d : dict V) (k : str) (v : V) : dict V :=
  match d with
  | [] => [(k, v)]
  | (k', v') :: d' =>
      if str_eqb k' k then (k', v) :: d' else (k', v') :: set d' k v
  end.

End Dict.

Import Dict.

(** The JSON documents of the artifact directories. *)
Record TitleArtifact := { t_paper_id : str; title : str }.
Record OutlineArtifact := { o_paper_id : str; sections : list str }.
Record AbstractArtifact := { a_paper_id : str; abstract : str }.
Record SubsectionArtifact :=
  { s_paper_id : str; s_sections : dict (list str) }.
Record ContentArtifact :=
  { c_paper_id : str; c_sections : dict (dict str) }.

(** An entry of [reference_content] in a corpus record; either key may be
    missing. *)
Record RefContent :=
  { reference_num : option str; reference_abstract : option str }.
Record TrainRecord :=
  { reference : option (list str);
    reference_content : option (list RefContent) }.

(** The directories under the base directory.  Each maps a paper identifier
    to the parsed content of its file ([<id>.txt], [<id>.json],
    [train<id>.content.ref.json], [<id>.xml]); the order of a directory is
    the order [os.listdir] yields. *)
Record FS := {
  test_dir : dict str;
  title_dir : dict TitleArtifact;
  outline_dir : dict OutlineArtifact;
  abstract_dir : dict AbstractArtifact;
  references_dir : dict (dict (list str));
  subsections_dir : dict SubsectionArtifact;
  content_dir : dict ContentArtifact;
  train_dir : dict TrainRecord;
  final_dir : dict str
}.

(** [open(path)] raises when the file does not exist. *)
Definition open_file {V} (d : dict V) (paper_id : str) : exc V :=
  match get d paper_id with
  | Some v => Ok v
  | None => Raise
  end.

Definition write_title (fs : FS) (k : str) (v : TitleArtifact) : FS :=
  {| test_dir := test_dir fs; title_dir := set (title_dir fs) k v;
     outline_dir := outline_dir fs; abstract_dir := abstract_dir fs;
     references_dir := references_dir fs;
     subsections_dir := subsections_dir fs; content_dir := content_dir fs;
     train_dir := train_dir fs; final_dir := final_dir fs |}.

Definition write_outline (fs : FS) (k : str) (v : OutlineArtifact) : FS :=
  {| test_dir := test_dir fs; title_dir := title_dir fs;
     outline_dir := set (outline_dir fs) k v; abstract_dir := abstract_dir fs;
     references_dir := references_dir fs;
     subsections_dir := subsections_dir fs; content_dir := content_dir fs;
     train_dir := train_dir fs; final_dir := final_dir fs |}.

Definition write_abstract (fs : FS) (k : str) (v : AbstractArtifact) : FS :=
  {| test_dir := test_dir fs; title_dir := title_dir fs;
     outline_dir := outline_dir fs; abstract_dir := set (abstract_dir fs) k v;
     references_dir := references_dir fs;
     subsections_dir := subsections_dir fs; content_dir := content_dir fs;
     train_dir := train_dir fs; final_dir := final_dir fs |}.

Definition write_content (fs : FS) (k : str) (v : ContentArtifact) : FS :=
  {| test_dir := test_dir fs; title_dir := title_dir fs;
     outline_dir := outline_dir fs; abstract_dir := abstract_dir fs;
     references_dir := references_dir fs;
     subsections_dir := subsections_dir fs;
     content_dir := set (content_dir fs) k v;
     train_dir := train_dir fs; final_dir := final_dir fs |}.

Definition write_final (fs : FS) (k : str) (v : str) : FS :=
  {| test_dir := test_dir fs; title_dir := title_dir fs;
     outline_dir := outline_dir fs; abstract_dir := abstract_dir fs;
     references_dir := references_dir fs;
     subsections_dir := subsections_dir fs; content_dir := content_dir fs;
     train_dir := train_dir fs; final_dir := set (final_dir fs) k v |}.

(** ** The correction loop shared by the unbounded stages

    [while True: response = create(messages); x = response.strip();
     if verify(x): return x; messages.extend([assistant x, user correction])].
    [Raise] propagates to the [except] of the enclosing function. *)
Section WhileTrue.
Context {client : Client}.
Variable verify : str -> bool.
Variable correction_message : str.
Variable max_tokens : option nat.

Fixpoint while_true (fuel : nat) (w : World) (messages : list message)
  : option (exc str * World) :=
  match fuel with
  | O => None
  | S fuel' =>
      match create w messages max_tokens with
      | (Raise, w') => Some (Raise, w')
      | (Ok response, w') =>
          let x := strip response in
          if verify x then Some (Ok x, w')
          else while_true fuel' w'
                 (messages ++ [Message assistant x;
                               Message user correction_message])
      end
  end.

(** The runs of the loop that return, without fuel: [returns w messages r w'
    n] is the run that makes [n] calls, the first [n - 1] of them answered by
    responses the verifier rejects, and leaves the loop with [r]. *)
Inductive returns : World -> list message -> exc str -> World -> nat -> Prop :=
| returns_verified w messages response w' :
    create w messages max_tokens = (Ok response, w') ->
    verify (strip response) = true ->
    returns w messages (Ok (strip response)) w' 1
| returns_raised w messages w' :
    create w messages max_tokens = (Raise, w') ->
    returns w messages Raise w' 1
| returns_corrected w messages response w1 r w' n :
    create w messages max_tokens = (Ok response, w1) ->
    verify (strip response) = false ->
    returns w1 (messages ++ [Message assistant (strip response);
                             Message user correction_message]) r w' n ->
    returns w messages r w' (S n).
End WhileTrue.
(* ------------------------------------------------------------------ *)
(** ** title.py *)

Module TitleAgent.

Inductive current_section := no_section | in_subjects | in_references.

(** The loop state of [_extract_content]. *)
Record scan := { cur : current_section; subject : str; refs : list str }.

Definition is_subjects (s : current_section) : bool :=
  match s with in_subjects => true | _ => false end.

Definition is_references (s : current_section) : bool :=
  match s with in_references => true | _ => false end.

Definition nonempty (s : str) : bool :=
  match s with [] => false | _ => true end.

Definition _extract_line (st : scan) (line0 : str) : scan :=
  let line := strip line0 in
  if str_eqb line (py "Subjects:") then
    {| cur := in_subjects; subject := subject st; refs := refs st |}
  else if str_eqb line (py "References:") then
    {| cur := in_references; subject := subject st; refs := refs st |}
  else if nonempty line && is_subjects (cur st)
          && negb (str_eqb line (py "Subjects:")) then
    {| cur := cur st; subject := line; refs := refs st |}
  else if nonempty line && is_references (cur st) then
    if startswith line (py "Title:") then
      {| cur := cur st; subject := subject st;
         refs := refs st ++ [strip (skipn 6 line)] |}
    else st
  else st.

Definition _extract_content (file_content : str) : str * str :=
  let lines := split [nl] file_content in
  let st := fold_left _extract_line lines
              {| cur := no_section; subject := []; refs := [] |} in
  (subject st, join [nl] (refs st)).

(** The dictionary [_read_reference_file] returns. *)
Record ref_data := { rd_id : str; rd_subject : str; rd_references : str }.

Definition _read_reference_file (paper_id : str) (content : str) : ref_data :=
  let '(subject, references) := _extract_content content in
  {| rd_id := paper_id; rd_subject := subject; rd_references := references |}.

Definition no_newline (s : str) : bool :=
  forallb (fun c => negb (Ascii.eqb c nl)) s.

(** [re.match(r'^<title>.*</title>$', s)]: [.] does not match a newline and
    [$] also matches just before a final newline. *)
Definition re_match_title (s : str) : bool :=
  startswith s (py "<title>")
  && (let r := skipn 7 s in
      let body := if endswith r [nl] then removelast r else r in
      no_newline body && endswith body (py "</title>")).

Definition _verify_title_format (title : str) : bool :=
  re_match_title (strip title).

Definition correction_message : str :=
  py "The response format is incorrect. Please wrap your title in <title> tags. For example: <title>Your Title Here</title>".

Section Agent.
Context {client : Client} {prompts : Prompts}.

(** The body of the [try] block of [_get_title_from_gpt]. *)
Definition _get_title_try (fuel : nat) (w : World) (subject references : str)
  : option (exc str * World) :=
  match title_prompt subject references with
  | Raise => Some (Raise, w)
  | Ok formatted_prompt =>
      while_true _verify_title_format correction_message None fuel w
        [Message user formatted_prompt]
  end.

Definition _get_title_from_gpt (fuel : nat) (w : World)
    (subject references : str) : option (str * World) :=
  let? (r, w') := _get_title_try fuel w subject references in
  Some (catch r [], w').

Definition _save_title (fs : FS) (paper_id title : str) : FS :=
  write_title fs paper_id {| t_paper_id := paper_id; title := title |}.

(** The state threaded through the files of [process_folder]. *)
Definition run_state := (list TitleArtifact * World * FS)%type.

(** One iteration of the [for file_name in os.listdir(test_folder)] loop,
    for a [.txt] file. *)
Definition process_file (fuel : nat) (st : run_state) (file : str * str)
  : option run_state :=
  let '(results, w, fs) := st in
  let ref_data := _read_reference_file (fst file) (snd file) in
  if nonempty (rd_subject ref_data) && nonempty (rd_references ref_data)
  then
    let? (title, w') :=
      _get_title_from_gpt fuel w (rd_subject ref_data)
        (rd_references ref_data) in
    let result := {| t_paper_id := rd_id ref_data; title := title |} in
    Some (results ++ [result], w', _save_title fs (rd_id ref_data) title)
  else Some st.

Fixpoint process_files (fuel : nat) (st : run_state) (files : list (str * str))
  : option run_state :=
  match files with
  | [] => Some st
  | file :: files' =>
      let? st' := process_file fuel st file in
      process_files fuel st' files'
  end.

Definition process_folder (fuel : nat) (w : World) (fs : FS)
  : option run_state :=
  process_files fuel ([], w, fs) (test_dir fs).
End Agent.

End TitleAgent.
(* ------------------------------------------------------------------ *)
(** ** abstract.py *)

Module AbstractAgent.

Definition nonempty {A} (s : list A) : bool :=
  match s with [] => false | _ => true end.

(** [line.startswith((p1, p2, ...))] *)
Definition startswith_any (line : str) (prefixes : list str) : bool :=
  existsb (startswith line) prefixes.

(** The [for line in content.split('\n')] loop of
    [_read_subject_from_test]. *)
Fixpoint first_subject_line (lines : list str) : str :=
  match lines with
  | [] => []
  | line :: rest =>
      if nonempty (strip line) && negb (str_eqb (strip line) (py "Subjects:"))
      then
        if negb (startswith_any line
                   [py "References:"; py "Number:"; py "Title:";
                    py "Abstract:"])
        then strip line
        else first_subject_line rest
      else first_subject_line rest
  end.

Definition _read_subject_from_test (fs : FS) (paper_id : str) : str :=
  catch
    (match open_file (test_dir fs) paper_id with
     | Ok content => Ok (first_subject_line (split [nl] content))
     | Raise => Raise
     end) [].

Definition _read_title_from_file (fs : FS) (paper_id : str) : str :=
  catch
    (match open_file (title_dir fs) paper_id with
     | Ok data =>
         Ok (strip (re_sub [py "<title>"; py "</title>"] (title data)))
     | Raise => Raise
     end) [].

Definition _read_outline_from_file (fs : FS) (paper_id : str) : list str :=
  catch
    (match open_file (outline_dir fs) paper_id with
     | Ok data => Ok (sections data)
     | Raise => Raise
     end) [].

Definition abstract_tags : list str := [py "<abstract>"; py "</abstract>"].

(** [len(re.sub(r'<abstract>|</abstract>', '', abstract).strip().split())] *)
Definition word_count (abstract : str) : nat :=
  length (split_ws (strip (re_sub abstract_tags abstract))).

Definition _verify_abstract_format (abstract : str) : bool :=
  if negb (startswith abstract (py "<abstract>")
           && endswith abstract (py "</abstract>"))
  then false
  else
    if negb ((200 <=? word_count abstract) && (word_count abstract <=? 500))
    then false
    else true.

Definition correction_message : str :=
  join [nl]
    [py "Please format your response properly:";
     py "1. Wrap the abstract in <abstract> tags";
     py "2. Ensure length is between 200-500 words";
     py "3. Write as a single paragraph";
     py "4. Include only the abstract content"].

Section Agent.
Context {client : Client} {prompts : Prompts}.

(** The body of the [try] block of [_get_abstract_from_gpt]. *)
Definition _get_abstract_try (fuel : nat) (w : World)
    (subject title : str) (outline : list str)
  : option (exc str * World) :=
  let outline_text := join [nl] outline in
  match abstract_prompt subject title outline_text with
  | Raise => Some (Raise, w)
  | Ok formatted_prompt =>
      while_true _verify_abstract_format correction_message (Some 1000)
        fuel w [Message user formatted_prompt]
  end.

Definition _get_abstract_from_gpt (fuel : nat) (w : World)
    (subject title : str) (outline : list str) : option (str * World) :=
  let? (r, w') := _get_abstract_try fuel w subject title outline in
  Some (catch r [], w').

Definition _save_abstract (fs : FS) (paper_id abstract : str) : FS :=
  write_abstract fs paper_id
    {| a_paper_id := paper_id; abstract := abstract |}.

Definition run_state := (list AbstractArtifact * World * FS)%type.

(** One iteration of the [for file_name in os.listdir(title_dir)] loop. *)
Definition process_paper (fuel : nat) (st : run_state) (paper_id : str)
  : option run_state :=
  let '(results, w, fs) := st in
  let subject := _read_subject_from_test fs paper_id in
  let title := _read_title_from_file fs paper_id in
  let outline := _read_outline_from_file fs paper_id in
  if nonempty subject && nonempty title && nonempty outline then
    let? (abstract, w') :=
      _get_abstract_from_gpt fuel w subject title outline in
    if nonempty abstract then
      let result := {| a_paper_id := paper_id; abstract := abstract |} in
      Some (results ++ [result], w', _save_abstract fs paper_id abstract)
    else Some (results, w', fs)
  else Some st.

Fixpoint process_list (fuel : nat) (st : run_state) (ids : list str)
  : option run_state :=
  match ids with
  | [] => Some st
  | paper_id :: ids' =>
      let? st' := process_paper fuel st paper_id in
      process_list fuel st' ids'
  end.

Definition process_papers (fuel : nat) (w : World) (fs : FS)
  : option run_state :=
  process_list fuel ([], w, fs) (map fst (title_dir fs)).
End Agent.

End AbstractAgent.
(* ------------------------------------------------------------------ *)
(** ** outline.py *)

Module OutlineAgent.

Import TitleAgent (current_section, no_section, in_subjects, in_references,
                   is_subjects, is_references, nonempty).

Record scan := { cur : current_section; subject : str; refs : list str }.

(** [references[-1] += suffix]; an [IndexError] on the empty list. *)
Fixpoint append_to_last (l : list str) (suffix : str) : exc (list str) :=
  match l with
  | [] => Raise
  | [x] => Ok [x ++ suffix]
  | x :: l' => match append_to_last l' suffix with
               | Ok r => Ok (x :: r)
               | Raise => Raise
               end
  end.

Definition _extract_line (st : scan) (line0 : str) : exc scan :=
  let line := strip line0 in
  if str_eqb line (py "Subjects:") then
    Ok {| cur := in_subjects; subject := subject st; refs := refs st |}
  else if str_eqb line (py "References:") then
    Ok {| cur := in_references; subject := subject st; refs := refs st |}
  else if nonempty line && is_subjects (cur st)
          && negb (str_eqb line (py "Subjects:")) then
    Ok {| cur := cur st; subject := line; refs := refs st |}
  else if nonempty line && is_references (cur st) then
    if startswith line (py "Title:") then
      Ok {| cur := cur st; subject := subject st;
            refs := refs st ++ [strip (skipn 6 line)] |}
    else if startswith line (py "Abstract:") then
      match append_to_last (refs st)
              ([nl] ++ py "Abstract: " ++ strip (skipn 9 line)) with
      | Ok refs' =>
          Ok {| cur := cur st; subject := subject st; refs := refs' |}
      | Raise => Raise
      end
    else Ok st
  else Ok st.

Fixpoint _extract_lines (st : scan) (lines : list str) : exc scan :=
  match lines with
  | [] => Ok st
  | line :: lines' =>
      match _extract_line st line with
      | Ok st' => _extract_lines st' lines'
      | Raise => Raise
      end
  end.

Definition _extract_content (file_content : str) : exc (str * str) :=
  match _extract_lines {| cur := no_section; subject := []; refs := [] |}
          (split [nl] file_content) with
  | Ok st => Ok (subject st, join [nl] (refs st))
  | Raise => Raise
  end.

Record ref_data := { rd_id : str; rd_subject : str; rd_references : str }.

(** [None] is the empty dictionary of the [except] branch. *)
Definition _read_reference_file (paper_id : str) (content : str)
  : option ref_data :=
  match _extract_content content with
  | Ok (subject, references) =>
      Some {| rd_id := paper_id; rd_subject := subject;
              rd_references := references |}
  | Raise => None
  end.

(** [[s.strip() for s in outline.split('\n') if s.strip()]] *)
Definition section_lines (outline : str) : list str :=
  map strip (filter (fun s => nonempty (strip s)) (split [nl] outline)).

Definition in_range (n : nat) : bool := (6 <=? n) && (n <=? 10).

(** Defined by the class and called nowhere. *)
Definition _verify_outline_format (outline : str) : bool :=
  in_range (length (section_lines (strip outline))).

Definition correction_message : str :=
  py "Please provide between 6 and 10 sections (excluding Introduction and Conclusion). Each section should be on a new line.".

Section Agent.
Context {client : Client} {prompts : Prompts}.

(** The body of the [try] block of [_get_outline_from_gpt]: one call,
    one check, at most one corrected call. *)
Definition _get_outline_try (w : World) (subject references : str)
  : exc str * World :=
  match outline_prompt subject references with
  | Raise => (Raise, w)
  | Ok formatted_prompt =>
      let messages := [Message user formatted_prompt] in
      match create w messages None with
      | (Raise, w1) => (Raise, w1)
      | (Ok response, w1) =>
          let outline := strip response in
          let sections := section_lines outline in
          if negb (in_range (length sections)) then
            let messages' :=
              messages ++ [Message assistant outline;
                           Message user correction_message] in
            match create w1 messages' None with
            | (Raise, w2) => (Raise, w2)
            | (Ok response2, w2) => (Ok (strip response2), w2)
            end
          else (Ok outline, w1)
      end
  end.

Definition _get_outline_from_gpt (w : World) (subject references : str)
  : str * World :=
  let '(r, w') := _get_outline_try w subject references in
  (catch r [], w').

Definition _save_outline (fs : FS) (paper_id outline : str) : FS :=
  let sections := section_lines outline in
  write_outline fs paper_id
    {| o_paper_id := paper_id; sections := sections |}.

Definition run_state := (list OutlineArtifact * World * FS)%type.

(** One iteration of the loop of [process_folder], for a [.txt] file. *)
Definition process_file (st : run_state) (file : str * str) : run_state :=
  let '(results, w, fs) := st in
  match _read_reference_file (fst file) (snd file) with
  | Some ref_data =>
      if nonempty (rd_subject ref_data) && nonempty (rd_references ref_data)
      then
        let '(outline, w') :=
          _get_outline_from_gpt w (rd_subject ref_data)
            (rd_references ref_data) in
        let sections := section_lines outline in
        let result :=
          {| o_paper_id := rd_id ref_data; sections := sections |} in
        (results ++ [result], w',
         _save_outline fs (rd_id ref_data) outline)
      else st
  | None => st
  end.

Definition process_folder (w : World) (fs : FS) : run_state :=
  fold_left process_file (test_dir fs) ([], w, fs).
End Agent.

End OutlineAgent.
(* ------------------------------------------------------------------ *)
(** ** referenceselection.py and CoTreferenceselection.py *)

(** What [_read_paper_info] of the reference-selection agents returns. *)
Record ref_paper_info := {
  ri_subject : str;
  ri_title : str;
  ri_outline : list str;
  ri_references : str
}.

Definition nonblank_lines (content : str) : list str :=
  map strip (filter (fun l => AbstractAgent.nonempty (strip l))
               (split [nl] content)).

(** The per-line check of both [_verify_refs_format]. *)
Definition ref_line_ok (line : str) : bool :=
  startswith line (py "*") && has_citation line.

Definition reserved (section : str) : bool :=
  str_eqb section (py "Introduction") || str_eqb section (py "Conclusion").

(** The agent [main.py] imports and runs. *)
Module ReferenceSelectionAgent.

Definition _verify_refs_format (refs : str) : bool :=
  if negb (startswith refs (py "<refs>") && endswith refs (py "</refs>"))
  then false
  else
    let content := strip (slice 6 7 refs) in
    forallb ref_line_ok (nonblank_lines content).

(** The extraction of [process_papers]: [refs[6:-7].strip()]. *)
Definition extract_content (refs : str) : str := strip (slice 6 7 refs).

(** [[line.strip() for line in content.split('\n') if line.strip()]] *)
Definition ref_list (refs : str) : list str :=
  nonblank_lines (extract_content refs).

Definition correction_message : str :=
  join [nl]
    [py "Please format your response properly. Each reference should:";
     py "1. Be wrapped in <refs> tags";
     py "2. Start with '*'";
     py "3. Include the original reference number in square brackets";
     py "4. Be on a new line"].

Section Agent.
Context {client : Client} {prompts : Prompts}.

Definition _get_refs_try (fuel : nat) (w : World)
    (paper_info : ref_paper_info) (section : str)
  : option (exc str * World) :=
  match reference_selection_prompt (ri_subject paper_info)
          (ri_title paper_info) (join [nl] (ri_outline paper_info))
          section (ri_references paper_info) with
  | Raise => Some (Raise, w)
  | Ok formatted_prompt =>
      while_true _verify_refs_format correction_message None fuel w
        [Message user formatted_prompt]
  end.

Definition _get_refs_for_section (fuel : nat) (w : World)
    (paper_info : ref_paper_info) (section : str)
  : option (str * World) :=
  let? (r, w') := _get_refs_try fuel w paper_info section in
  Some (catch r [], w').
End Agent.

End ReferenceSelectionAgent.

(** The sibling agent with the analysis prompt; no module imports it. *)
Module CoTReferenceSelectionAgent.

(** [re.search(r'<refs>(.*?)</refs>', response, re.DOTALL)]: the text
    between the first [<refs>] and the first [</refs>] after it. *)
Definition _extract_final_refs (response : str) : str :=
  match partition (py "<refs>") response with
  | Some (_, rest) =>
      match partition (py "</refs>") rest with
      | Some (refs_content, _) =>
          py "<refs>" ++ [nl] ++ strip refs_content ++ [nl] ++ py "</refs>"
      | None => []
      end
  | None => []
  end.

Definition _verify_refs_format (refs : str) : bool :=
  if negb (AbstractAgent.nonempty refs) then false
  else if negb (startswith refs (py "<refs>") && endswith refs (py "</refs>"))
  then false
  else
    let content := strip (slice 6 7 refs) in
    forallb ref_line_ok (nonblank_lines content).

Definition correction_message : str :=
  join [nl]
    [py "Please ensure your final selection is properly formatted:";
     py "1. Wrap the reference list in <refs> tags";
     py "2. Start each reference with '*'";
     py "3. Include the original reference numbers [n]";
     py "4. List each reference on a new line";
     py "Provide your analysis first, then the properly formatted reference list."].

Definition max_retries : nat := 3.

Section Agent.
Context {client : Client} {prompts : Prompts}.

(** [while retry_count < max_retries]: [remaining] is
    [max_retries - retry_count], [full_response] the local variable, not
    bound before the first response. *)
Fixpoint retry_loop (remaining : nat) (w : World)
    (messages : list message) (full_response : option str)
  : exc str * World :=
  match remaining with
  | O =>
      match full_response with
      | Some last => (Ok (_extract_final_refs last), w)
      | None => (Raise, w)
      end
  | S remaining' =>
      match create w messages None with
      | (Raise, w') => (Raise, w')
      | (Ok response, w') =>
          let full := strip response in
          let refs := _extract_final_refs full in
          if _verify_refs_format refs then (Ok refs, w')
          else retry_loop remaining' w'
                 (messages ++ [Message assistant full;
                               Message user correction_message])
                 (Some full)
      end
  end.

Definition _get_refs_try (w : World) (paper_info : ref_paper_info)
    (section : str) : exc str * World :=
  match reference_selection_prompt (ri_subject paper_info)
          (ri_title paper_info) (join [nl] (ri_outline paper_info))
          section (ri_references paper_info) with
  | Raise => (Raise, w)
  | Ok formatted_prompt =>
      retry_loop max_retries w [Message user formatted_prompt] None
  end.

Definition _get_refs_for_section (w : World) (paper_info : ref_paper_info)
    (section : str) : str * World :=
  let '(r, w') := _get_refs_try w paper_info section in
  (catch r [], w').
End Agent.

End CoTReferenceSelectionAgent.

(* ------------------------------------------------------------------ *)
(** ** subsectionagent.py: verification and extraction *)

Module SubsectionAgent.

Definition _verify_subsections_format (subsections : str) : bool :=
  if negb (startswith subsections (py "<subsections>")
           && endswith subsections (py "</subsections>"))
  then false
  else
    let lines := nonblank_lines (strip (slice 13 14 subsections)) in
    if negb ((3 <=? length lines) && (length lines <=? 5)) then false
    else if negb (forallb (fun line => startswith line (py "* ")) lines)
    then false
    else true.

(** The extraction of [process_papers]: [subsections[13:-14].strip()]. *)
Definition extract_content (subsections : str) : str :=
  strip (slice 13 14 subsections).

(** [[line.strip()[2:].strip() for line in content.split('\n')
      if line.strip()]] *)
Definition subsection_list (subsections : str) : list str :=
  map (fun line => strip (skipn 2 (strip line)))
    (filter (fun line => AbstractAgent.nonempty (strip line))
       (split [nl] (extract_content subsections))).

End SubsectionAgent.
(* ------------------------------------------------------------------ *)
(** ** content.py *)

Module ContentAgent.

Import AbstractAgent (nonempty, startswith_any).

(** The dictionary [_read_paper_info] builds.  [subject] is a key that is
    missing when no line of the corpus file qualifies. *)
Record paper_info := {
  pi_subject : option str;
  pi_title : str;
  pi_outline : list str;
  pi_section_refs : dict (list str);
  pi_subsections : dict (list str)
}.

(** The subject loop ends at the first qualifying line ([break]). *)
Fixpoint find_subject (lines : list str) : option str :=
  match lines with
  | [] => None
  | line :: rest =>
      if nonempty (strip line) && negb (str_eqb (strip line) (py "Subjects:"))
      then
        if negb (startswith_any line
                   [py "References:"; py "Number:"; py "Title:";
                    py "Abstract:"])
        then Some (strip line)
        else find_subject rest
      else find_subject rest
  end.

Definition clean_outline (sections : list str) : list str :=
  filter (fun s => negb (startswith s (py "<outline>")
                         || startswith s (py "</outline>")
                         || str_eqb s []))
    sections.

(** [None] is the empty dictionary returned when any file cannot be
    read. *)
Definition _read_paper_info (fs : FS) (paper_id : str) : option paper_info :=
  match open_file (test_dir fs) paper_id,
        open_file (title_dir fs) paper_id,
        open_file (outline_dir fs) paper_id,
        open_file (references_dir fs) paper_id,
        open_file (subsections_dir fs) paper_id with
  | Ok content, Ok title_data, Ok outline_data, Ok refs, Ok subsections_data =>
      Some {| pi_subject := find_subject (split [nl] content);
              pi_title :=
                strip (re_sub [py "<title>"; py "</title>"]
                         (title title_data));
              pi_outline := clean_outline (sections outline_data);
              pi_section_refs := refs;
              pi_subsections := s_sections subsections_data |}
  | _, _, _, _, _ => None
  end.

(** [content[9:-10].strip()] *)
Definition extract_content (content : str) : str :=
  strip (slice 9 10 content).

Definition paragraphs (text : str) : list str :=
  map strip (filter (fun p => nonempty (strip p))
               (split [nl; nl] text)).

Definition _verify_content_format (content : str) : bool :=
  if negb (startswith content (py "<content>")
           && endswith content (py "</content>"))
  then false
  else
    let text := extract_content content in
    if length (paragraphs text) <? 3 then false
    else if length (split_ws text) <? 500 then false
    else if negb (has_citation text) then false
    else true.

Definition correction_message : str :=
  join [nl]
    [py "Please format your response properly:";
     py "1. Wrap content in <content> tags";
     py "2. Write at least 3 paragraphs";
     py "3. Include at least 500 words";
     py "4. Use proper citations [n]";
     py "5. Don't include any headings";
     py "6. Maintain academic style"].

(** [self.max_retries] *)
Definition max_retries : nat := 3.

Section Agent.
Context {client : Client} {prompts : Prompts}.

(** [while retry_count < self.max_retries]: [remaining] is
    [max_retries - retry_count], [content] the local variable, not bound
    before the first response. *)
Fixpoint retry_loop (remaining : nat) (w : World)
    (messages : list message) (content : option str) : exc str * World :=
  match remaining with
  | O =>
      match content with
      | Some last => (Ok last, w)
      | None => (Raise, w)
      end
  | S remaining' =>
      match create w messages (Some 2000) with
      | (Raise, w') => (Raise, w')
      | (Ok response, w') =>
          let content' := strip response in
          if _verify_content_format content' then (Ok content', w')
          else retry_loop remaining' w'
                 (messages ++ [Message assistant content';
                               Message user correction_message])
                 (Some content')
      end
  end.

Definition default {A} (d : A) (o : option A) : A :=
  match o with Some a => a | None => d end.

Definition _get_content_try (w : World) (info : paper_info)
    (section subsection : str) : exc str * World :=
  let section_refs := default [] (get (pi_section_refs info) section) in
  match pi_subject info with
  | None => (Raise, w)
  | Some subject =>
      match content_prompt subject (pi_title info)
              (join [nl] (pi_outline info)) section subsection
              (join [nl] section_refs) with
      | Raise => (Raise, w)
      | Ok formatted_prompt =>
          retry_loop max_retries w [Message user formatted_prompt] None
      end
  end.

Definition _get_content (w : World) (info : paper_info)
    (section subsection : str) : str * World :=
  let '(r, w') := _get_content_try w info section subsection in
  (catch r [], w').

Definition _save_content (fs : FS) (paper_id : str)
    (content_data : dict (dict str)) : FS :=
  write_content fs paper_id
    {| c_paper_id := paper_id; c_sections := content_data |}.

(** The body of [for subsection in subsections]. *)
Definition process_subsection (info : paper_info) (section : str)
    (st : dict str * World) (subsection : str) : dict str * World :=
  let '(section_content, w) := st in
  let '(content, w') := _get_content w info section subsection in
  if nonempty content
  then (set section_content subsection (extract_content content), w')
  else (section_content, w').

(** The body of [for section, subsections in ...items()]. *)
Definition process_section (info : paper_info)
    (st : dict (dict str) * World) (item : str * list str)
  : dict (dict str) * World :=
  let '(content_data, w) := st in
  let '(section, subsections) := item in
  if negb (reserved section) then
    let '(section_content, w') :=
      fold_left (process_subsection info section) subsections ([], w) in
    if nonempty section_content
    then (set content_data section section_content, w')
    else (content_data, w')
  else st.

(** One iteration of the loop of [process_papers]. *)
Definition process_paper (st : World * FS) (paper_id : str) : World * FS :=
  let '(w, fs) := st in
  match _read_paper_info fs paper_id with
  | None => st
  | Some info =>
      let '(content_data, w') :=
        fold_left (process_section info) (pi_subsections info) ([], w) in
      (w', _save_content fs paper_id content_data)
  end.

Definition process_papers (w : World) (fs : FS) : World * FS :=
  fold_left process_paper (map fst (title_dir fs)) (w, fs).
End Agent.

End ContentAgent.
(* ------------------------------------------------------------------ *)
(** ** outputxml.py *)

Module XMLPaperGenerator.

Import AbstractAgent (nonempty).

Definition dq : ascii := "034".

Definition _read_title (fs : FS) (paper_id : str) : str :=
  catch
    (match open_file (title_dir fs) paper_id with
     | Ok data =>
         Ok (strip (re_sub [py "<title>"; py "</title>"] (title data)))
     | Raise => Raise
     end) [].

Definition _read_abstract (fs : FS) (paper_id : str) : str :=
  catch
    (match open_file (abstract_dir fs) paper_id with
     | Ok data =>
         Ok (strip (re_sub [py "<abstract>"; py "</abstract>"]
                      (abstract data)))
     | Raise => Raise
     end) [].

Definition _read_sections (fs : FS) (paper_id : str) : list str :=
  catch
    (match open_file (outline_dir fs) paper_id with
     | Ok data =>
         Ok (filter (fun s => negb (startswith s (py "<outline>")
                                    || startswith s (py "</outline>")))
               (sections data))
     | Raise => Raise
     end) [].

Definition _read_subsections (fs : FS) (paper_id : str) : dict (list str) :=
  catch
    (match open_file (subsections_dir fs) paper_id with
     | Ok data => Ok (s_sections data)
     | Raise => Raise
     end) [].

Definition _read_content (fs : FS) (paper_id : str) : dict (dict str) :=
  catch
    (match open_file (content_dir fs) paper_id with
     | Ok data => Ok (c_sections data)
     | Raise => Raise
     end) [].

Definition default {A} (d : A) (o : option A) : A :=
  match o with Some a => a | None => d end.

(** [{item['reference_num']: item.get('reference_abstract', '') for item in
    reference_contents}]; a [KeyError] when an item has no number. *)
Fixpoint content_map_of (items : list RefContent) (acc : dict str)
  : exc (dict str) :=
  match items with
  | [] => Ok acc
  | item :: items' =>
      match reference_num item with
      | None => Raise
      | Some num =>
          content_map_of items'
            (set acc num (default [] (reference_abstract item)))
      end
  end.

(** The body of [for ref in references]. *)
Definition add_reference (content_map : dict str)
    (ref_list_with_abstracts : list str) (ref : str) : list str :=
  let ref_num :=
    py "[" ++ str_of_nat (length ref_list_with_abstracts + 1) ++ py "]" in
  match get content_map ref_num with
  | Some a =>
      if nonempty a
      then ref_list_with_abstracts ++ [ref ++ [nl] ++ py "Abstract: " ++ a]
      else ref_list_with_abstracts ++ [ref]
  | None => ref_list_with_abstracts ++ [ref]
  end.

Definition _read_references (fs : FS) (paper_id : str) : str :=
  catch
    (match open_file (train_dir fs) paper_id with
     | Ok data =>
         let references := default [] (reference data) in
         let reference_contents := default [] (reference_content data) in
         if nonempty reference_contents then
           match content_map_of reference_contents [] with
           | Ok content_map =>
               Ok (join [nl; nl]
                     (fold_left (add_reference content_map) references []))
           | Raise => Raise
           end
         else Ok (join [nl; nl] references)
     | Raise => Raise
     end) [].

Definition reserved (section : str) : bool :=
  str_eqb section (py "Introduction") || str_eqb section (py "Conclusion").

(** [f'<Section_{i}_title>{section}</Section_{i}_title>'] *)
Definition section_title (i : nat) (section : str) : str :=
  py "<Section_" ++ str_of_nat i ++ py "_title>" ++ section
  ++ py "</Section_" ++ str_of_nat i ++ py "_title>".

Definition subsection_title (i j : nat) (subsection : str) : str :=
  py "<Section_" ++ str_of_nat i ++ py "." ++ str_of_nat j ++ py "_title>"
  ++ subsection
  ++ py "</Section_" ++ str_of_nat i ++ py "." ++ str_of_nat j
  ++ py "_title>".

Definition subsection_text (i j : nat) (body : str) : str :=
  py "<Section_" ++ str_of_nat i ++ py "." ++ str_of_nat j ++ py "_text>"
  ++ body
  ++ py "</Section_" ++ str_of_nat i ++ py "." ++ str_of_nat j
  ++ py "_text>".

(** [content[section][subsection]] under its guard
    [section in content and subsection in content[section]]. *)
Definition lookup_body (content : dict (dict str)) (section subsection : str)
  : option str :=
  match get content section with
  | Some bodies => get bodies subsection
  | None => None
  end.

(** The body of [for subsection in subsections[section]]; the state is
    [xml_content] and [subsection_num]. *)
Definition add_subsection (content : dict (dict str)) (section : str)
    (section_num : nat) (st : list str * nat) (subsection : str)
  : list str * nat :=
  let '(xml_content, subsection_num) := st in
  let xml_content :=
    xml_content ++ [subsection_title section_num subsection_num subsection] in
  let xml_content :=
    match lookup_body content section subsection with
    | Some body =>
        xml_content ++ [subsection_text section_num subsection_num body]
    | None => xml_content
    end in
  (xml_content, subsection_num + 1).

(** The body of [for section in sections]; the state is [xml_content] and
    [section_num]. *)
Definition add_section (subsections : dict (list str))
    (content : dict (dict str)) (st : list str * nat) (section : str)
  : list str * nat :=
  let '(xml_content, section_num) := st in
  if negb (reserved section) then
    let xml_content := xml_content ++ [section_title section_num section] in
    let xml_content :=
      match get subsections section with
      | Some subs =>
          fst (fold_left (add_subsection content section section_num) subs
                 (xml_content, 1))
      | None => xml_content
      end in
    (xml_content, section_num + 1)
  else st.

Definition xml_header : str :=
  py "<?xml version=" ++ [dq] ++ py "1.0" ++ [dq] ++ py " encoding="
  ++ [dq] ++ py "UTF-8" ++ [dq] ++ py "?>".

(** The list [xml_content] at the [return] of [_generate_xml]. *)
Definition xml_lines (fs : FS) (paper_id : str) : list str :=
  let title := _read_title fs paper_id in
  let abstract := _read_abstract fs paper_id in
  let sections := _read_sections fs paper_id in
  let subsections := _read_subsections fs paper_id in
  let content := _read_content fs paper_id in
  let references := _read_references fs paper_id in
  let xml_content := [xml_header] in
  let xml_content := xml_content ++ [py "<Literature>"] in
  let xml_content :=
    xml_content ++ [py "<Title>" ++ title ++ py "</Title>"] in
  let xml_content :=
    xml_content ++ [py "<Abstract>" ++ abstract ++ py "</Abstract>"] in
  let '(xml_content, _) :=
    fold_left (add_section subsections content) sections (xml_content, 1) in
  let xml_content := xml_content ++ [py "<References>"] in
  let xml_content := xml_content ++ [references] in
  let xml_content := xml_content ++ [py "</References>"] in
  let xml_content := xml_content ++ [py "</Literature>"] in
  xml_content.

Definition _generate_xml (fs : FS) (paper_id : str) : str :=
  join [nl] (xml_lines fs paper_id).

Definition _save_xml (fs : FS) (paper_id xml_content : str) : FS :=
  write_final fs paper_id xml_content.

(** One iteration of the loop of [process_papers]. *)
Definition process_paper (fs : FS) (paper_id : str) : FS :=
  let xml_content := _generate_xml fs paper_id in
  _save_xml fs paper_id xml_content.

Definition process_papers (fs : FS) : FS :=
  fold_left process_paper (map fst (title_dir fs)) fs.

(** *** The numbering, as the specification words it

    The sections are numbered 1..k in outline order, reserved headings skipped;
    subsections 1..m within a section in SubsectionMap order; a subsection
    without an entry in the ContentMap has its heading and no body. *)

Definition numbered {A} (l : list A) : list (nat * A) :=
  combine (seq 1 (length l)) l.

Definition spec_subsection_block (content : dict (dict str)) (section : str)
    (i : nat) (item : nat * str) : list str :=
  let '(j, subsection) := item in
  subsection_title i j subsection ::
  match lookup_body content section subsection with
  | Some body => [subsection_text i j body]
  | None => []
  end.

Definition spec_section_block (subsections : dict (list str))
    (content : dict (dict str)) (item : nat * str) : list str :=
  let '(i, section) := item in
  section_title i section ::
  match get subsections section with
  | Some subs =>
      flat_map (spec_subsection_block content section i) (numbered subs)
  | None => []
  end.

Definition spec_body (sections : list str) (subsections : dict (list str))
    (content : dict (dict str)) : list str :=
  flat_map (spec_section_block subsections content)
    (numbered (filter (fun s => negb (reserved s)) sections)).

(** Two stores with the same directories of input artifacts. *)
Definition same_inputs (fs1 fs2 : FS) : Prop :=
  title_dir fs1 = title_dir fs2
  /\ abstract_dir fs1 = abstract_dir fs2
  /\ outline_dir fs1 = outline_dir fs2
  /\ subsections_dir fs1 = subsections_dir fs2
  /\ content_dir fs1 = content_dir fs2
  /\ train_dir fs1 = train_dir fs2.

End XMLPaperGenerator.
(* ------------------------------------------------------------------ *)
(** ** Concrete collaborators used by the examples *)

(** Templates that lay their arguments out one per line. *)
Definition plain_prompts : Prompts :=
  {| title_prompt := fun subject references =>
       Ok (join [nl] [subject; references]);
     outline_prompt := fun subject references =>
       Ok (join [nl] [subject; references]);
     abstract_prompt := fun subject title outline =>
       Ok (join [nl] [subject; title; outline]);
     reference_selection_prompt := fun subject title outline section refs =>
       Ok (join [nl] [subject; title; outline; section; refs]);
     content_prompt := fun subject title outline section subsection refs =>
       Ok (join [nl] [subject; title; outline; section; subsection; refs]) |}.

(** A corpus text file with one subject and two reference titles. *)
Definition sample_test_file : str :=
  join [nl] [py "Subjects:"; py "cs.CL"; py "References:";
             py "Number: [1]"; py "Title: Attention"; py "Abstract: a";
             py "Number: [2]"; py "Title: Transformers"].

Definition sample_fs : FS :=
  {| test_dir := [(py "9901.001", sample_test_file)];
     title_dir := []; outline_dir := []; abstract_dir := [];
     references_dir := []; subsections_dir := []; content_dir := [];
     train_dir := []; final_dir := [] |}.

Definition sample_outline : list str :=
  [py "Introduction"; py "Background"; py "Methods"; py "Models";
   py "Training"; py "Evaluation"; py "Applications"; py "Conclusion"].

(** The store after the Title and Outline stages ran for paper 9901.001. *)
Definition titled_fs : FS :=
  {| test_dir := [(py "9901.001", sample_test_file)];
     title_dir :=
       [(py "9901.001",
         {| t_paper_id := py "9901.001";
            title := py "<title>A Survey of X</title>" |})];
     outline_dir :=
       [(py "9901.001",
         {| o_paper_id := py "9901.001"; sections := sample_outline |})];
     abstract_dir := []; references_dir := []; subsections_dir := [];
     content_dir := []; train_dir := []; final_dir := [] |}.

(** [n] copies of a word, each followed by a space. *)
Definition words (n : nat) : str := concat (repeat (py "word ") n).

(** A response of 500 words between markers set off by spaces. *)
Definition spaced_abstract : str :=
  py "<abstract> " ++ words 500 ++ py "</abstract>".

Definition sample_info : ref_paper_info :=
  {| ri_subject := py "cs.CL"; ri_title := py "A Survey of X";
     ri_outline := sample_outline;
     ri_references := join [nl] [py "Attention"; py "Transformers"] |}.

(** A response without the [<refs>] markers, and a well-formed one. *)
Definition bad_refs : str := py "I would pick [1] and [2].".

Definition good_refs : str :=
  join [nl] [py "<refs>"; py "* [1] Attention"; py "* [2] Transformers";
             py "</refs>"].

(** An outline response of five headings, none of them reserved. *)
Definition five_headings : str :=
  join [nl] [py "Background"; py "Methods"; py "Models"; py "Training";
             py "Evaluation"].

Definition six_headings : str :=
  join [nl] [py "Background"; py "Methods"; py "Models"; py "Training";
             py "Evaluation"; py "Applications"].

(** The store after the Reference-Selection and Subsection stages ran, with
    one section of one subsection. *)
Definition sectioned_fs : FS :=
  {| test_dir := test_dir titled_fs;
     title_dir := title_dir titled_fs;
     outline_dir := outline_dir titled_fs;
     abstract_dir := [];
     references_dir :=
       [(py "9901.001", [(py "Methods", [py "* [1] Attention"])])];
     subsections_dir :=
       [(py "9901.001",
         {| s_paper_id := py "9901.001";
            s_sections := [(py "Methods", [py "Attention Heads"])] |})];
     content_dir := []; train_dir := []; final_dir := [] |}.

(** A well-formed [<content>] block: three paragraphs, a citation, and 400
    words. *)
Definition short_content : str :=
  py "<content>" ++ words 200 ++ [nl; nl] ++ words 98 ++ py "cited [1]"
  ++ [nl; nl] ++ words 100 ++ py "</content>".

(** A store in which paper 9901.001 has every artifact but the abstract;
    the section "Methods" has two subsections and text for the first. *)
Definition assembled_fs : FS :=
  {| test_dir := test_dir titled_fs;
     title_dir := title_dir titled_fs;
     outline_dir := outline_dir titled_fs;
     abstract_dir := [];
     references_dir := [];
     subsections_dir :=
       [(py "9901.001",
         {| s_paper_id := py "9901.001";
            s_sections :=
              [(py "Methods", [py "Attention Heads"; py "Positional Codes"])]
         |})];
     content_dir :=
       [(py "9901.001",
         {| c_paper_id := py "9901.001";
            c_sections :=
              [(py "Methods", [(py "Attention Heads", py "Body [1].")])] |})];
     train_dir :=
       [(py "9901.001",
         {| reference := Some [py "[1] Attention"; py "[2] Transformers"];
            reference_content :=
              Some [{| reference_num := Some (py "[2]");
                       reference_abstract := Some (py "On transformers.") |}]
         |})];
     final_dir := [] |}.
(* ------------------------------------------------------------------ *)
(** ** traintestsplit.py *)

Module TrainTestSplit.

Import XMLPaperGenerator (default, content_map_of).

(** An entry of [reference] in a raw corpus record: a string, or an object
    whose title is under [reference_title]. *)
Inductive RawReference :=
| ref_str (s : str)
| ref_obj (reference_title : option str).

Record RawRecord := {
  raw_subject : option (list str);
  raw_reference : option (list RawReference);
  raw_reference_content : option (list RefContent)
}.

(** The dictionaries [extract_references_and_subject] appends. *)
Record ref_entry := { num : str; ref_title : str; ref_abstract : str }.

Definition title_of (ref : RawReference) : str :=
  match ref with
  | ref_str s => s
  | ref_obj t => default [] t
  end.

(** [for i, ref in enumerate(reference_list)], from index [i]. *)
Fixpoint enumerate_refs (i : nat) (reference_list : list RawReference)
    (reference_content_dict : dict str) : list ref_entry :=
  match reference_list with
  | [] => []
  | ref :: rest =>
      let reference_num := py "[" ++ str_of_nat (i + 1) ++ py "]" in
      {| num := reference_num;
         ref_title := title_of ref;
         ref_abstract := default [] (get reference_content_dict reference_num)
      |} :: enumerate_refs (S i) rest reference_content_dict
  end.

(** The function has no [try]: the [KeyError] of an entry of
    [reference_content] without [reference_num] leaves it. *)
Definition extract_references_and_subject (data : RawRecord)
  : exc (list str * list ref_entry) :=
  let subjects := default [] (raw_subject data) in
  let reference_list := default [] (raw_reference data) in
  let reference_content_list := default [] (raw_reference_content data) in
  match content_map_of reference_content_list [] with
  | Ok reference_content_dict =>
      Ok (subjects, enumerate_refs 0 reference_list reference_content_dict)
  | Raise => Raise
  end.

(** Lines written one after the other, each closed by a newline. *)
Definition unlines (lines : list str) : str :=
  concat (map (fun line => line ++ [nl]) lines).

(** The four [f.write] calls for one reference. *)
Definition reference_block (ref : ref_entry) : str :=
  py "Number: " ++ num ref ++ [nl]
  ++ py "Title: " ++ ref_title ref ++ [nl]
  ++ py "Abstract: " ++ ref_abstract ref ++ [nl]
  ++ [nl].

(** The text [save_references_and_subject_as_txt] writes. *)
Definition save_references_and_subject_as_txt (subjects : list str)
    (references : list ref_entry) : str :=
  py "Subjects:" ++ [nl]
  ++ concat (map (fun subject => subject ++ [nl]) subjects)
  ++ [nl]
  ++ py "References:" ++ [nl]
  ++ concat (map reference_block references).

(** The lines of the file, in the order they are written. *)
Definition reference_lines (ref : ref_entry) : list str :=
  [py "Number: " ++ num ref; py "Title: " ++ ref_title ref;
   py "Abstract: " ++ ref_abstract ref; []].

Definition corpus_lines (subjects : list str) (references : list ref_entry)
  : list str :=
  [py "Subjects:"] ++ subjects ++ [[]] ++ [py "References:"]
  ++ flat_map reference_lines references.

(** The carriage return, [chr(13)]. *)
Definition cr : ascii := "013"%char.

(** What [f.read()] returns for a file opened with [open(path, 'r')]: in
    text mode a carriage return followed by a newline, and a carriage
    return on its own, are read as one newline.  (The text is written on a
    system whose line separator is the newline, so that [f.write] puts it
    into the file as it is.) *)
Fixpoint read_text (s : str) : str :=
  match s with
  | [] => []
  | c :: s' =>
      if Ascii.eqb c cr then
        match s' with
        | c' :: s'' =>
            if Ascii.eqb c' nl then nl :: read_text s''
            else nl :: read_text s'
        | [] => [nl]
        end
      else c :: read_text s'
  end.

Definition no_return (s : str) : bool :=
  forallb (fun c => negb (Ascii.eqb c cr)) s.

(** A string that is read back as one line: it holds neither a newline nor
    a carriage return. *)
Definition one_line (s : str) : bool :=
  TitleAgent.no_newline s && no_return s.

(** A subject that fills one line and is not read as a section marker. *)
Definition plain_subject (s : str) : bool :=
  one_line s
  && TitleAgent.nonempty (strip s)
  && negb (str_eqb (strip s) (py "Subjects:"))
  && negb (str_eqb (strip s) (py "References:")).

(** A reference whose fields fill one line each. *)
Definition plain_reference (ref : ref_entry) : bool :=
  one_line (num ref)
  && one_line (ref_title ref)
  && one_line (ref_abstract ref).

(** The longest prefix of digits, and what follows it. *)
Fixpoint span_digits (s : str) : str * str :=
  match s with
  | [] => ([], [])
  | c :: s' =>
      if isdigit c
      then let '(d, r) := span_digits s' in (c :: d, r)
      else ([], s)
  end.

(** A match of [\d+\.\d+] that begins at the head of [s]. *)
Definition match_id_here (s : str) : option str :=
  match span_digits s with
  | ((_ :: _) as d1, c :: r) =>
      if Ascii.eqb c "."
      then match span_digits r with
           | ((_ :: _) as d2, _) => Some (d1 ++ py "." ++ d2)
           | ([], _) => None
           end
      else None
  | _ => None
  end.

(** [re.search(r'(\d+\.\d+)', file_name)]: the leftmost match. *)
Fixpoint search_paper_id (file_name : str) : option str :=
  match match_id_here file_name with
  | Some paper_id => Some paper_id
  | None =>
      match file_name with
      | [] => None
      | _ :: rest => search_paper_id rest
      end
  end.

(** One iteration of the loop of [process_all_json_files_and_save_txt]
    over the listing of the train folder; the state is the output folder.
    An exception of [extract_references_and_subject] ends the run. *)
Definition process_json_file (test : dict str) (file : str * RawRecord)
  : exc (dict str) :=
  let '(file_name, data) := file in
  if endswith file_name (py ".json") then
    match extract_references_and_subject data with
    | Ok (subjects, references) =>
        match search_paper_id file_name with
        | Some paper_id =>
            Ok (set test paper_id
                  (save_references_and_subject_as_txt subjects references))
        | None => Ok test
        end
    | Raise => Raise
    end
  else Ok test.

Fixpoint process_json_files (test : dict str) (files : list (str * RawRecord))
  : dict str * exc unit :=
  match files with
  | [] => (test, Ok tt)
  | file :: files' =>
      match process_json_file test file with
      | Ok test' => process_json_files test' files'
      | Raise => (test, Raise)
      end
  end.

(** The path [_read_references] of the assembler opens for a paper. *)
Definition train_file_name (paper_id : str) : str :=
  py "train" ++ paper_id ++ py ".content.ref.json".

End TrainTestSplit.
(* ------------------------------------------------------------------ *)
(** ** referenceselection.py: reading and the paper loop *)

Definition write_references (fs : FS) (k : str) (v : dict (list str)) : FS :=
  {| test_dir := test_dir fs; title_dir := title_dir fs;
     outline_dir := outline_dir fs; abstract_dir := abstract_dir fs;
     references_dir := set (references_dir fs) k v;
     subsections_dir := subsections_dir fs; content_dir := content_dir fs;
     train_dir := train_dir fs; final_dir := final_dir fs |}.

Definition write_subsections (fs : FS) (k : str) (v : SubsectionArtifact)
  : FS :=
  {| test_dir := test_dir fs; title_dir := title_dir fs;
     outline_dir := outline_dir fs; abstract_dir := abstract_dir fs;
     references_dir := references_dir fs;
     subsections_dir := set (subsections_dir fs) k v;
     content_dir := content_dir fs;
     train_dir := train_dir fs; final_dir := final_dir fs |}.

Module ReferenceSelectionStage.

Import TitleAgent (current_section, no_section, in_subjects, in_references,
                   is_subjects, is_references, scan, cur, subject, refs).
Import AbstractAgent (nonempty, startswith_any).
Import ContentAgent (clean_outline).
Import ReferenceSelectionAgent.

(** The body of the loop over the lines of the corpus file in
    [_read_paper_info]. *)
Definition read_line (st : scan) (line0 : str) : scan :=
  let line := strip line0 in
  if str_eqb line (py "Subjects:") then
    {| cur := in_subjects; subject := subject st; refs := refs st |}
  else if str_eqb line (py "References:") then
    {| cur := in_references; subject := subject st; refs := refs st |}
  else if nonempty line && is_subjects (cur st)
          && negb (str_eqb line (py "Subjects:")) then
    if negb (startswith_any line
               [py "References:"; py "Number:"; py "Title:"; py "Abstract:"])
    then {| cur := cur st; subject := line; refs := refs st |}
    else st
  else if nonempty line && is_references (cur st) then
    if startswith line (py "Title:") then
      {| cur := cur st; subject := subject st;
         refs := refs st ++ [strip (skipn 6 line)] |}
    else st
  else st.

(** [None] is the empty dictionary of the [except] branch. *)
Definition _read_paper_info (fs : FS) (paper_id : str)
  : option ref_paper_info :=
  match open_file (test_dir fs) paper_id,
        open_file (title_dir fs) paper_id,
        open_file (outline_dir fs) paper_id with
  | Ok content, Ok title_data, Ok outline_data =>
      let st := fold_left read_line (split [nl] content)
                  {| cur := no_section; subject := []; refs := [] |} in
      Some {| ri_subject := subject st;
              ri_title :=
                strip (re_sub [py "<title>"; py "</title>"]
                         (title title_data));
              ri_outline := clean_outline (sections outline_data);
              ri_references := join [nl] (refs st) |}
  | _, _, _ => None
  end.

Section Agent.
Context {client : Client} {prompts : Prompts}.

Definition _save_refs (fs : FS) (paper_id : str)
    (section_refs : dict (list str)) : FS :=
  write_references fs paper_id section_refs.

(** The body of [for section in paper_info['outline']]. *)
Definition process_section (fuel : nat) (paper_info : ref_paper_info)
    (st : dict (list str) * World) (section : str)
  : option (dict (list str) * World) :=
  let '(section_refs, w) := st in
  if negb (reserved section) then
    let? (refs, w') := _get_refs_for_section fuel w paper_info section in
    if nonempty refs
    then Some (set section_refs section (ref_list refs), w')
    else Some (section_refs, w')
  else Some st.

Fixpoint process_sections (fuel : nat) (paper_info : ref_paper_info)
    (st : dict (list str) * World) (outline : list str)
  : option (dict (list str) * World) :=
  match outline with
  | [] => Some st
  | section :: rest =>
      let? st' := process_section fuel paper_info st section in
      process_sections fuel paper_info st' rest
  end.

(** One iteration of the loop of [process_papers]. *)
Definition process_paper (fuel : nat) (st : World * FS) (paper_id : str)
  : option (World * FS) :=
  let '(w, fs) := st in
  match _read_paper_info fs paper_id with
  | None => Some st
  | Some paper_info =>
      let? (section_refs, w') :=
        process_sections fuel paper_info ([], w) (ri_outline paper_info) in
      Some (w', _save_refs fs paper_id section_refs)
  end.

Fixpoint process_list (fuel : nat) (st : World * FS) (ids : list str)
  : option (World * FS) :=
  match ids with
  | [] => Some st
  | paper_id :: ids' =>
      let? st' := process_paper fuel st paper_id in
      process_list fuel st' ids'
  end.

Definition process_papers (fuel : nat) (w : World) (fs : FS)
  : option (World * FS) :=
  process_list fuel (w, fs) (map fst (title_dir fs)).
End Agent.

End ReferenceSelectionStage.

(* ------------------------------------------------------------------ *)
(** ** subsectionagent.py: reading, the correction loop, the paper loop *)

Module SubsectionStage.

Import AbstractAgent (nonempty).
Import ContentAgent (clean_outline, find_subject).
Import SubsectionAgent.

Record paper_info := {
  pi_subject : str;
  pi_title : str;
  pi_outline : list str;
  pi_section_refs : dict (list str)
}.

(** [None] is the empty dictionary of the [except] branch; a corpus file
    without a subject line leaves the local [subject] unbound, which raises
    at the [return]. *)
Definition _read_paper_info (fs : FS) (paper_id : str) : option paper_info :=
  match open_file (test_dir fs) paper_id,
        open_file (title_dir fs) paper_id,
        open_file (outline_dir fs) paper_id,
        open_file (references_dir fs) paper_id with
  | Ok content, Ok title_data, Ok outline_data, Ok section_refs =>
      match find_subject (split [nl] content) with
      | Some subject =>
          Some {| pi_subject := subject;
                  pi_title :=
                    strip (re_sub [py "<title>"; py "</title>"]
                             (title title_data));
                  pi_outline := clean_outline (sections outline_data);
                  pi_section_refs := section_refs |}
      | None => None
      end
  | _, _, _, _ => None
  end.

Definition correction_message : str :=
  join [nl]
    [py "Please format your response properly:";
     py "1. Wrap subsections in <subsections> tags";
     py "2. Include 3-5 subsections";
     py "3. Start each subsection with '* '";
     py "4. Put each subsection on a new line"].

Section Agent.
Context {client : Client}.

(** [self.prompt.format(subject=..., title=..., outline=..., section=...,
    section_refs=...)], with the template of [prompts.yaml] a parameter. *)
Variable subsection_prompt : str -> str -> str -> str -> str -> exc str.

Definition _get_subsections_try (fuel : nat) (w : World)
    (info : paper_info) (section : str) (section_refs : list str)
  : option (exc str * World) :=
  match subsection_prompt (pi_subject info) (pi_title info)
          (join [nl] (pi_outline info)) section (join [nl] section_refs) with
  | Raise => Some (Raise, w)
  | Ok formatted_prompt =>
      while_true _verify_subsections_format correction_message None fuel w
        [Message user formatted_prompt]
  end.

Definition _get_subsections_for_section (fuel : nat) (w : World)
    (info : paper_info) (section : str) (section_refs : list str)
  : option (str * World) :=
  let? (r, w') := _get_subsections_try fuel w info section section_refs in
  Some (catch r [], w').

Definition _save_subsections (fs : FS) (paper_id : str)
    (section_subsections : dict (list str)) : FS :=
  write_subsections fs paper_id
    {| s_paper_id := paper_id; s_sections := section_subsections |}.

(** The body of [for section in paper_info['outline']]. *)
Definition process_section (fuel : nat) (info : paper_info)
    (st : dict (list str) * World) (section : str)
  : option (dict (list str) * World) :=
  let '(section_subsections, w) := st in
  if negb (reserved section) then
    let section_refs :=
      ContentAgent.default [] (get (pi_section_refs info) section) in
    if nonempty section_refs then
      let? (subsections, w') :=
        _get_subsections_for_section fuel w info section section_refs in
      if nonempty subsections
      then Some (set section_subsections section
                   (subsection_list subsections), w')
      else Some (section_subsections, w')
    else Some st
  else Some st.

Fixpoint process_sections (fuel : nat) (info : paper_info)
    (st : dict (list str) * World) (outline : list str)
  : option (dict (list str) * World) :=
  match outline with
  | [] => Some st
  | section :: rest =>
      let? st' := process_section fuel info st section in
      process_sections fuel info st' rest
  end.

(** One iteration of the loop of [process_papers]. *)
Definition process_paper (fuel : nat) (st : World * FS) (paper_id : str)
  : option (World * FS) :=
  let '(w, fs) := st in
  match _read_paper_info fs paper_id with
  | None => Some st
  | Some info =>
      let? (section_subsections, w') :=
        process_sections fuel info ([], w) (pi_outline info) in
      Some (w', _save_subsections fs paper_id section_subsections)
  end.
End Agent.

End SubsectionStage.
(* ------------------------------------------------------------------ *)
(** ** Further collaborators of the examples *)

Definition plain_subsection_prompt
    (subject title outline section section_refs : str) : exc str :=
  Ok (join [nl] [subject; title; outline; section; section_refs]).

Definition good_subsections : str :=
  join [nl] [py "<subsections>"; py "* Attention Heads";
             py "* Positional Codes"; py "* Residual Paths";
             py "</subsections>"].

(** The subsections of a paper the Content stage asks the model about:
    those of the sections that are not reserved. *)
Definition subsections_to_write (subsections : dict (list str)) : nat :=
  list_sum
    (map (fun item : str * list str =>
            if reserved (fst item) then 0 else length (snd item))
       subsections).

(** The bibliography entry of the reference at position [i], as the
    specification words it: the reference, followed by an abstract line
    when [reference_content] has a non-empty abstract under the tag
    [[i]]. *)
Definition spec_bibliography_entry (content_map : dict str)
    (item : nat * str) : str :=
  let '(i, ref) := item in
  match get content_map (py "[" ++ str_of_nat i ++ py "]") with
  | Some a =>
      if AbstractAgent.nonempty a
      then ref ++ [nl] ++ py "Abstract: " ++ a
      else ref
  | None => ref
  end.

(** An entry of [reference_content] without the key [reference_num]. *)
Definition unnumbered (item : RefContent) : bool :=
  match reference_num item with
  | None => true
  | Some _ => false
  end.

(** A corpus record whose only content entry has no number. *)
Definition unnumbered_record : TrainRecord :=
  {| reference := Some [py "[1] Attention"];
     reference_content :=
       Some [{| reference_num := None;
                reference_abstract := Some (py "On attention.") |}] |}.

Definition unnumbered_fs : FS :=
  {| test_dir := []; title_dir := []; outline_dir := [];
     abstract_dir := []; references_dir := []; subsections_dir := [];
     content_dir := [];
     train_dir := [(py "9901.001", unnumbered_record)];
     final_dir := [] |}.

(** The store after a list of artifacts has been written, each under its
    own paper identifier. *)
Definition written_titles (fs : FS) (results : list TitleArtifact) : FS :=
  fold_left (fun fs r => write_title fs (t_paper_id r) r) results fs.

Definition written_outlines (fs : FS) (results : list OutlineArtifact) : FS :=
  fold_left (fun fs r => write_outline fs (o_paper_id r) r) results fs.

Definition written_abstracts (fs : FS) (results : list AbstractArtifact)
  : FS :=
  fold_left (fun fs r => write_abstract fs (a_paper_id r) r) results fs.

(** The store after the Reference-Selection and Subsection stages ran for
    two papers; paper 9901.001 has a reserved section, a section of two
    subsections and a section of one. *)
Definition two_paper_fs : FS :=
  {| test_dir :=
       [(py "9812.007", sample_test_file); (py "9901.001", sample_test_file)];
     title_dir :=
       [(py "9812.007",
         {| t_paper_id := py "9812.007";
            title := py "<title>A Survey of Y</title>" |});
        (py "9901.001",
         {| t_paper_id := py "9901.001";
            title := py "<title>A Survey of X</title>" |})];
     outline_dir :=
       [(py "9901.001",
         {| o_paper_id := py "9901.001"; sections := sample_outline |})];
     abstract_dir := [];
     references_dir :=
       [(py "9901.001", [(py "Methods", [py "* [1] Attention"])])];
     subsections_dir :=
       [(py "9901.001",
         {| s_paper_id := py "9901.001";
            s_sections :=
              [(py "Introduction", [py "Scope"]);
               (py "Methods", [py "Attention Heads"; py "Positional Codes"]);
               (py "Models", [py "Encoders"])] |})];
     content_dir := []; train_dir := []; final_dir := [] |}.

(** A section that lists the same subsection heading twice. *)
Definition repeated_heading_fs : FS :=
  {| test_dir := test_dir titled_fs;
     title_dir := title_dir titled_fs;
     outline_dir := outline_dir titled_fs;
     abstract_dir := [];
     references_dir :=
       [(py "9901.001", [(py "Methods", [py "* [1] Attention"])])];
     subsections_dir :=
       [(py "9901.001",
         {| s_paper_id := py "9901.001";
            s_sections :=
              [(py "Methods", [py "Attention Heads"; py "Attention Heads"])]
         |})];
     content_dir := []; train_dir := []; final_dir := [] |}.
(* ------------------------------------------------------------------ *)
(** * Properties *)

(** ** String primitives *)

Lemma str_eqb_eq (a b : str) : str_eqb a b = true <-> a = b.
Proof.
  unfold str_eqb. destruct (list_eq_dec ascii_dec a b); split; congruence.
Qed.

Lemma str_eqb_refl (a : str) : str_eqb a a = true.
Proof. now apply str_eqb_eq. Qed.

Lemma str_eqb_neq (a b : str) : str_eqb a b = false <-> a <> b.
Proof.
  unfold str_eqb. destruct (list_eq_dec ascii_dec a b); split; congruence.
Qed.

Lemma lstrip_head (s r : str) (c : ascii) :
  lstrip s = c :: r -> isspace c = false.
Proof.
  induction s as [|a s IH]; simpl; [discriminate|].
  destruct (isspace a) eqn:E; [exact IH|].
  intros H. injection H as <- _. exact E.
Qed.

Lemma lstrip_idem (s : str) : lstrip (lstrip s) = lstrip s.
Proof.
  induction s as [|a s IH]; simpl; [reflexivity|].
  destruct (isspace a) eqn:E; [exact IH|]. simpl. now rewrite E.
Qed.

Lemma rstrip_cons_head (c : ascii) (s : str) :
  isspace c = false -> exists r, rstrip (c :: s) = c :: r.
Proof.
  intros E. simpl. destruct (rstrip s).
  - rewrite E. now exists [].
  - now eexists.
Qed.

Lemma rstrip_idem (s : str) : rstrip (rstrip s) = rstrip s.
Proof.
  induction s as [|c s IH]; simpl; [reflexivity|].
  destruct (rstrip s) as [|d r] eqn:E.
  - destruct (isspace c) eqn:Ec; simpl; [reflexivity|]. now rewrite Ec.
  - change (rstrip (c :: d :: r)) with
      (match rstrip (d :: r) with
       | [] => if isspace c then [] else [c]
       | x => c :: x
       end).
    now rewrite IH.
Qed.

Lemma lstrip_strip (s : str) : lstrip (strip s) = strip s.
Proof.
  unfold strip. destruct (lstrip s) as [|c r] eqn:E; [reflexivity|].
  pose proof (@lstrip_head s r c E) as Hc.
  destruct (@rstrip_cons_head c r Hc) as [r' ->].
  simpl. now rewrite Hc.
Qed.

Lemma strip_idem (s : str) : strip (strip s) = strip s.
Proof.
  unfold strip at 1. rewrite lstrip_strip. unfold strip.
  apply rstrip_idem.
Qed.

Lemma startswith_app (p s : str) : startswith (p ++ s) p = true.
Proof.
  induction p as [|a p IH]; simpl; [now destruct s|].
  now rewrite Ascii.eqb_refl.
Qed.

Lemma startswith_spec (s p : str) :
  startswith s p = true <-> exists r, s = p ++ r.
Proof.
  split.
  - revert s. induction p as [|a p IH]; intros s H.
    + now exists s.
    + destruct s as [|b s]; simpl in H; [discriminate|].
      apply andb_true_iff in H as [Hab H].
      apply Ascii.eqb_eq in Hab as ->.
      destruct (IH _ H) as [r ->]. now exists r.
  - intros [r ->]. apply startswith_app.
Qed.

Lemma endswith_spec (s p : str) :
  endswith s p = true <-> exists r, s = r ++ p.
Proof.
  unfold endswith. rewrite startswith_spec. split.
  - intros [r H]. exists (rev r).
    rewrite <- (rev_involutive s), H, rev_app_distr.
    now rewrite rev_involutive.
  - intros [r ->]. exists (rev r). apply rev_app_distr.
Qed.

(** ** The unbounded correction loop *)

Section WhileTrueFacts.
Context {client : Client}.
Variable verify : str -> bool.
Variable correction_message : str.
Variable max_tokens : option nat.

Let loop := while_true verify correction_message max_tokens.
Let run := returns verify correction_message max_tokens.

(** A run that returns after [n] calls is computed by any fuel from [n]
    on. *)
Lemma returns_while_true w messages r w' n :
  run w messages r w' n ->
  forall fuel, n <= fuel -> loop fuel w messages = Some (r, w').
Proof.
  induction 1 as [w messages response w' Hc Hv
                 |w messages w' Hc
                 |w messages response w1 r w' n Hc Hv Hrun IH];
    intros fuel Hle; (destruct fuel as [|fuel]; [lia|]);
    unfold loop; cbn [while_true]; rewrite Hc.
  - now rewrite Hv.
  - reflexivity.
  - rewrite Hv. apply IH. lia.
Qed.

(** What the fuelled loop computes is a run that returns. *)
Lemma while_true_returns (fuel : nat) :
  forall w messages r w',
    loop fuel w messages = Some (r, w') ->
    exists n, n <= fuel /\ run w messages r w' n.
Proof.
  induction fuel as [|fuel IH]; intros w messages r w' H; [discriminate|].
  unfold loop in H. cbn [while_true] in H.
  destruct (create w messages max_tokens) as [[response|] w1] eqn:Ec.
  - destruct (verify (strip response)) eqn:Ev.
    + injection H as <- <-. exists 1. split; [lia|].
      now apply returns_verified.
    + apply IH in H as (n & Hn & Hrun). exists (S n). split; [lia|].
      now apply returns_corrected with (response := response) (w1 := w1).
  - injection H as <- <-. exists 1. split; [lia|].
    now apply returns_raised.
Qed.

(** A value the loop returns is the trimmed text of a model response that
    passed the verifier. *)
Lemma returns_Ok w messages x w' n :
  run w messages (Ok x) w' n ->
  verify x = true /\
  exists w0 messages0 response,
    create w0 messages0 max_tokens = (Ok response, w') /\
    x = strip response.
Proof.
  intros H. remember (Ok x) as r eqn:Er.
  induction H as [w messages response w' Hc Hv
                 |w messages w' Hc
                 |w messages response w1 r w' n Hc Hv Hrun IH].
  - injection Er as <-. split; [exact Hv|]. now eauto.
  - discriminate.
  - now apply IH.
Qed.

(** The loop is left by an exception only when a call raises. *)
Lemma returns_Raise w messages w' n :
  run w messages Raise w' n ->
  exists w0 messages0, create w0 messages0 max_tokens = (Raise, w').
Proof.
  intros H. remember (@Raise str) as r eqn:Er.
  induction H as [w messages response w' Hc Hv
                 |w messages w' Hc
                 |w messages response w1 r w' n Hc Hv Hrun IH].
  - discriminate.
  - now eauto.
  - now apply IH.
Qed.

Lemma while_true_Ok (fuel : nat) w messages x w' :
  loop fuel w messages = Some (Ok x, w') ->
  verify x = true /\
  exists w0 messages0 response,
    create w0 messages0 max_tokens = (Ok response, w') /\
    x = strip response.
Proof.
  intros H. apply while_true_returns in H as (n & _ & H).
  exact (returns_Ok H).
Qed.

(** More fuel does not change a result. *)
Lemma while_true_mono (fuel fuel' : nat) w messages r :
  fuel <= fuel' ->
  loop fuel w messages = Some r ->
  loop fuel' w messages = Some r.
Proof.
  intros Hle H. destruct r as [r w'].
  apply while_true_returns in H as (n & Hn & H).
  apply (returns_while_true H). lia.
Qed.
End WhileTrueFacts.

(** ** Dictionaries *)

Lemma get_set_same {V} (d : dict V) (k : str) (v : V) :
  get (set d k v) k = Some v.
Proof.
  induction d as [|[k' v'] d IH]; simpl.
  - now rewrite str_eqb_refl.
  - destruct (str_eqb k' k) eqn:E; simpl; now rewrite E.
Qed.

Lemma get_set_other {V} (d : dict V) (k k0 : str) (v : V) :
  k <> k0 -> get (set d k v) k0 = get d k0.
Proof.
  intros Hne. induction d as [|[k' v'] d IH]; simpl.
  - apply str_eqb_neq in Hne. now rewrite Hne.
  - destruct (str_eqb k' k) eqn:E; simpl.
    + apply str_eqb_eq in E as ->. apply str_eqb_neq in Hne. now rewrite Hne.
    + now rewrite IH.
Qed.

(** ** Trimmed strings *)

Lemma rstrip_length (s : str) : length (rstrip s) <= length s.
Proof.
  induction s as [|c s IH]; simpl; [lia|].
  destruct (rstrip s); [destruct (isspace c)|]; simpl in *; lia.
Qed.

Lemma rstrip_app_space (s : str) (c : ascii) :
  isspace c = true -> rstrip (s ++ [c]) = rstrip s.
Proof.
  intros Hc. induction s as [|a s IH]; simpl.
  - now rewrite Hc.
  - now rewrite IH.
Qed.

Lemma strip_fixed_rstrip (s : str) : strip s = s -> rstrip s = s.
Proof.
  intros H. rewrite <- H at 1. unfold strip. rewrite rstrip_idem. exact H.
Qed.

(** A trimmed string does not end with a whitespace character. *)
Lemma strip_fixed_last (s r : str) (c : ascii) :
  strip s = s -> s = r ++ [c] -> isspace c = false.
Proof.
  intros Hs ->. apply strip_fixed_rstrip in Hs.
  destruct (isspace c) eqn:Hc; [|reflexivity].
  rewrite rstrip_app_space in Hs by exact Hc.
  pose proof (rstrip_length r) as Hl. rewrite Hs, length_app in Hl.
  simpl in Hl. lia.
Qed.

Lemma skipn_app_exact {A} (p r : list A) : skipn (length p) (p ++ r) = r.
Proof. induction p; simpl; auto. Qed.

Lemma map_fst_combine {A B} (a : list A) :
  forall b : list B, length a = length b -> map fst (combine a b) = a.
Proof.
  induction a as [|x a IH]; intros [|y b] H; simpl in *;
    try reflexivity; try discriminate.
  f_equal. apply IH. lia.
Qed.

Lemma map_snd_combine {A B} (a : list A) :
  forall b : list B, length a = length b -> map snd (combine a b) = b.
Proof.
  induction a as [|x a IH]; intros [|y b] H; simpl in *;
    try reflexivity; try discriminate.
  f_equal. apply IH. lia.
Qed.

(** ** Marker removal *)

Lemma re_sub_aux_length (pats : list str) (s : str) :
  forall skip, length (re_sub_aux pats skip s) <= length s.
Proof.
  induction s as [|c s IH]; intros skip; cbn [re_sub_aux length]; [lia|].
  destruct skip as [|k].
  - destruct (find (startswith (c :: s)) pats) as [p|].
    + specialize (IH (length p - 1)). lia.
    + cbn [length]. specialize (IH 0). lia.
  - specialize (IH k). lia.
Qed.

(** A string that begins with one of the alternatives is changed. *)
Lemma re_sub_changes (pats : list str) (s : str) :
  s <> [] -> existsb (startswith s) pats = true -> re_sub pats s <> s.
Proof.
  intros Hs He Heq. destruct s as [|c s]; [congruence|].
  assert (Hl : length (re_sub pats (c :: s)) <= length s).
  { unfold re_sub. cbn [re_sub_aux].
    destruct (find (startswith (c :: s)) pats) as [p|] eqn:Ef.
    - apply re_sub_aux_length.
    - exfalso. apply existsb_exists in He as (p & Hin & Hp).
      pose proof (find_none _ _ Ef p Hin) as Hn. congruence. }
  rewrite Heq in Hl. cbn [length] in Hl. lia.
Qed.
(* ------------------------------------------------------------------ *)
(** ** Sanity checks of the embedding *)

Example strip_ex : strip (py "  a b ") = py "a b".
Proof. reflexivity. Qed.

Example split_ex :
  split (py "xx") (py "axxxb") = [py "a"; py "xb"].
Proof. reflexivity. Qed.

Example split_ws_ex : split_ws (py " ab  c d ") = [py "ab"; py "c"; py "d"].
Proof. reflexivity. Qed.

Example re_sub_ex :
  re_sub [py "<title>"; py "</title>"] (py "<title>A Survey of X</title>")
  = py "A Survey of X".
Proof. reflexivity. Qed.

Example str_of_nat_ex : str_of_nat 12 = py "12".
Proof. reflexivity. Qed.

Example slice_ex :
  slice 9 10 (py "<content>body</content>") = py "body"
  /\ slice 9 10 (py "short") = [].
Proof. split; reflexivity. Qed.

Example has_citation_ex :
  has_citation (py "as shown in [12].") = true
  /\ has_citation (py "as shown in [a] and [].") = false.
Proof. split; reflexivity. Qed.

(** Markers that only appear once others are deleted survive [re.sub]: the
    regex-based removal is not idempotent on arbitrary text. *)
Example re_sub_nested :
  re_sub [py "<title>"; py "</title>"] (py "<tit<title>le>X") = py "<title>X".
Proof. reflexivity. Qed.

Example extract_final_refs_ex :
  CoTReferenceSelectionAgent._extract_final_refs
    (py "Analysis first. <refs> * [1] A </refs> and <refs>* [2] B</refs>")
  = join [nl] [py "<refs>"; py "* [1] A"; py "</refs>"]
  /\ CoTReferenceSelectionAgent._extract_final_refs (py "no list") = [].
Proof. split; reflexivity. Qed.

Example title_extract_content_ex :
  TitleAgent._extract_content sample_test_file
  = (py "cs.CL", join [nl] [py "Attention"; py "Transformers"]).
Proof. reflexivity. Qed.

Example outline_extract_content_ex :
  OutlineAgent._extract_content sample_test_file
  = Ok (py "cs.CL",
        join [nl] [py "Attention"; py "Abstract: a"; py "Transformers"])
  /\ OutlineAgent._extract_content
       (join [nl] [py "References:"; py "Abstract: orphan"]) = Raise.
Proof. split; reflexivity. Qed.

Example verify_title_ex :
  TitleAgent._verify_title_format (py " <title>A Survey of X</title> ") = true
  /\ TitleAgent._verify_title_format (py "A Survey of X") = false
  /\ TitleAgent._verify_title_format
       (py "<title>A" ++ [nl] ++ py "B</title>") = false.
Proof. repeat split; reflexivity. Qed.

Example subsection_list_ex :
  SubsectionAgent.subsection_list
    (join [nl] [py "<subsections>"; py "* First"; py "* Second";
                py "* Third"; py "</subsections>"])
  = [py "First"; py "Second"; py "Third"].
Proof. reflexivity. Qed.

Example search_paper_id_ex :
  TrainTestSplit.search_paper_id (py "train2002.00564.content.ref.json")
  = Some (py "2002.00564")
  /\ TrainTestSplit.search_paper_id (py "v2.json") = None
  /\ TrainTestSplit.search_paper_id (py "a12.b3.45.6") = Some (py "3.45").
Proof. repeat split; reflexivity. Qed.
(* ------------------------------------------------------------------ *)
(** ** The Title stage (title.py) *)

Module TitleFacts.
Import TitleAgent.

(** A trimmed string the verifier accepts is [<title>], a body free of
    newlines, and [</title>]. *)
Lemma verify_title_shape (t : str) :
  strip t = t ->
  _verify_title_format t = true ->
  exists m, t = py "<title>" ++ m ++ py "</title>" /\ no_newline m = true.
Proof.
  intros Hs Hv. unfold _verify_title_format in Hv. rewrite Hs in Hv.
  unfold re_match_title in Hv.
  apply andb_true_iff in Hv as [Hp Hb].
  apply startswith_spec in Hp as [r Hr].
  assert (Hskip : skipn 7 t = r).
  { rewrite Hr. exact (skipn_app_exact (py "<title>") r). }
  rewrite Hskip in Hb.
  destruct (endswith r [nl]) eqn:He.
  - exfalso. apply endswith_spec in He as [r0 ->].
    assert (Hc : isspace nl = false).
    { apply (@strip_fixed_last t (py "<title>" ++ r0) nl Hs).
      rewrite Hr. now rewrite app_assoc. }
    discriminate Hc.
  - apply andb_true_iff in Hb as [Hn Hend].
    apply endswith_spec in Hend as [m ->].
    exists m. split; [exact Hr|].
    unfold no_newline in *. rewrite forallb_app in Hn.
    now apply andb_true_iff in Hn as [Hn _].
Qed.

(** C1, as the code has it: a Title run that succeeds stores the trimmed
    model response itself, [<title>] and [</title>] markers included; the
    stored value is therefore non-empty, and it differs from the response
    with the markers stripped. *)
Theorem title_stage_stores_tagged_response
    (client : Client) (prompts : Prompts)
    (results : list TitleArtifact) (w w' : World) (fs : FS)
    (paper_id content p t : str) (n : nat) :
  let rd := _read_reference_file paper_id content in
  let stored := {| t_paper_id := paper_id; title := t |} in
  nonempty (rd_subject rd) && nonempty (rd_references rd) = true ->
  title_prompt (rd_subject rd) (rd_references rd) = Ok p ->
  returns _verify_title_format correction_message None w [Message user p]
    (Ok t) w' n ->
  (exists w0 messages response,
     create w0 messages None = (Ok response, w') /\ t = strip response)
  /\ (exists m, t = py "<title>" ++ m ++ py "</title>"
                /\ no_newline m = true)
  /\ t <> []
  /\ re_sub [py "<title>"; py "</title>"] t <> t
  /\ (forall fuel, n <= fuel ->
        process_file fuel (results, w, fs) (paper_id, content)
        = Some (results ++ [stored], w', _save_title fs paper_id t))
  /\ get (title_dir (_save_title fs paper_id t)) paper_id = Some stored.
Proof.
  intros rd stored Hne Hp Hrun.
  assert (Hid : rd_id rd = paper_id).
  { subst rd. unfold _read_reference_file.
    now destruct (_extract_content content). }
  destruct (returns_Ok Hrun) as [Hv Hresp].
  assert (Hshape : exists m, t = py "<title>" ++ m ++ py "</title>"
                             /\ no_newline m = true).
  { apply verify_title_shape; [|exact Hv].
    destruct Hresp as (w0 & ms & response & _ & ->). apply strip_idem. }
  assert (Ht : t <> []).
  { destruct Hshape as (m & -> & _). discriminate. }
  split; [exact Hresp|]. split; [exact Hshape|]. split; [exact Ht|].
  split; [|split].
  - apply re_sub_changes; [exact Ht|].
    destruct Hshape as (m & -> & _). cbn [existsb].
    now rewrite startswith_app.
  - intros fuel Hle.
    unfold process_file. cbn [fst snd]. fold rd. rewrite Hne.
    unfold _get_title_from_gpt, _get_title_try. rewrite Hp.
    rewrite (returns_while_true Hrun Hle). cbn [obind catch].
    rewrite Hid. reflexivity.
  - unfold _save_title, write_title. cbn [title_dir]. apply get_set_same.
Qed.

(** The run of the theorem on the sample corpus file: the collaborator
    first answers without markers, then with
    [<title>A Survey of X</title>]. *)
Lemma title_stage_stores_tagged_response_witness :
  process_file (client := scripted) (prompts := plain_prompts) 2
    ([], [Ok (py "A Survey of X"); Ok (py "<title>A Survey of X</title>")],
     sample_fs)
    (py "9901.001", sample_test_file)
  = Some ([{| t_paper_id := py "9901.001";
              title := py "<title>A Survey of X</title>" |}], [],
          _save_title sample_fs (py "9901.001")
            (py "<title>A Survey of X</title>")).
Proof.
  refine (proj1 (proj2 (proj2 (proj2 (proj2
    (@title_stage_stores_tagged_response scripted plain_prompts []
       [Ok (py "A Survey of X"); Ok (py "<title>A Survey of X</title>")] []
       sample_fs (py "9901.001") sample_test_file _
       (py "<title>A Survey of X</title>") 2 eq_refl eq_refl _))))) 2 _).
  - eapply returns_corrected; [reflexivity|reflexivity|].
    apply (@returns_verified scripted _verify_title_format correction_message
             None [Ok (py "<title>A Survey of X</title>")] _
             (py "<title>A Survey of X</title>") []); reflexivity.
  - apply le_n.
Defined.

(** C1 as stated fails: for the response [<title>A Survey of X</title>] and
    paper 9901.001 the stored artifact keeps the markers. *)
Lemma title_artifact_keeps_markers :
  exists results w' fs',
    process_folder (client := scripted) (prompts := plain_prompts) 1
      [Ok (py "<title>A Survey of X</title>")] sample_fs
    = Some (results, w', fs')
    /\ get (title_dir fs') (py "9901.001")
       = Some {| t_paper_id := py "9901.001";
                 title := py "<title>A Survey of X</title>" |}
    /\ get (title_dir fs') (py "9901.001")
       <> Some {| t_paper_id := py "9901.001";
                  title := re_sub [py "<title>"; py "</title>"]
                             (py "<title>A Survey of X</title>") |}.
Proof.
  eexists _, _, _. split; [vm_compute; reflexivity|].
  split; [reflexivity|]. vm_compute. discriminate.
Qed.

End TitleFacts.
(* ------------------------------------------------------------------ *)
(** ** The Abstract stage (abstract.py) *)

Module AbstractFacts.
Import AbstractAgent.

Lemma verify_abstract_true (a : str) :
  _verify_abstract_format a = true ->
  startswith a (py "<abstract>") = true
  /\ endswith a (py "</abstract>") = true
  /\ 200 <= word_count a <= 500.
Proof.
  unfold _verify_abstract_format. intros H.
  destruct (startswith a (py "<abstract>") && endswith a (py "</abstract>"))
    eqn:E; cbn [negb] in H; [|discriminate].
  destruct ((200 <=? word_count a) && (word_count a <=? 500)) eqn:E2;
    cbn [negb] in H; [|discriminate].
  apply andb_true_iff in E as [E E']. apply andb_true_iff in E2 as [E1 E2].
  apply Nat.leb_le in E1. apply Nat.leb_le in E2. auto.
Qed.

(** C2, as the code has it: a successful Abstract run stores the trimmed
    model response itself, which begins with [<abstract>] and ends with
    [</abstract>]; the bound 200..500 holds for the word count taken after
    the markers are removed and the text trimmed, which is the value the
    assembler reads back. *)
Theorem abstract_stage_stores_tagged_response
    (client : Client) (prompts : Prompts)
    (results : list AbstractArtifact) (w w' : World) (fs : FS)
    (paper_id p a : str) (n : nat) :
  let subject := _read_subject_from_test fs paper_id in
  let title := _read_title_from_file fs paper_id in
  let outline := _read_outline_from_file fs paper_id in
  let stored := {| a_paper_id := paper_id; abstract := a |} in
  let fs' := _save_abstract fs paper_id a in
  nonempty subject && nonempty title && nonempty outline = true ->
  abstract_prompt subject title (join [nl] outline) = Ok p ->
  returns _verify_abstract_format correction_message (Some 1000) w
    [Message user p] (Ok a) w' n ->
  (exists w0 messages response,
     create w0 messages (Some 1000) = (Ok response, w')
     /\ a = strip response)
  /\ startswith a (py "<abstract>") = true
  /\ endswith a (py "</abstract>") = true
  /\ re_sub abstract_tags a <> a
  /\ (forall fuel, n <= fuel ->
        process_paper fuel (results, w, fs) paper_id
        = Some (results ++ [stored], w', fs'))
  /\ get (abstract_dir fs') paper_id = Some stored
  /\ XMLPaperGenerator._read_abstract fs' paper_id
     = strip (re_sub abstract_tags a)
  /\ 200 <= length (split_ws (XMLPaperGenerator._read_abstract fs' paper_id))
     <= 500.
Proof.
  intros subject title outline stored fs' Hne Hp Hrun.
  destruct (returns_Ok Hrun) as [Hv Hresp].
  destruct (verify_abstract_true _ Hv) as (Hs & He & Hwc).
  assert (Ha : nonempty a = true).
  { apply startswith_spec in Hs as [r ->]. reflexivity. }
  assert (Hget : get (abstract_dir fs') paper_id = Some stored).
  { apply get_set_same. }
  assert (Hread : XMLPaperGenerator._read_abstract fs' paper_id
                  = strip (re_sub abstract_tags a)).
  { unfold XMLPaperGenerator._read_abstract, open_file.
    now rewrite Hget. }
  split; [exact Hresp|]. split; [exact Hs|]. split; [exact He|].
  split; [|split; [|split; [exact Hget|split; [exact Hread|]]]].
  - apply re_sub_changes.
    + destruct a; [discriminate|congruence].
    + unfold abstract_tags. cbn [existsb]. now rewrite Hs.
  - intros fuel Hle. unfold process_paper. fold subject title outline.
    rewrite Hne. unfold _get_abstract_from_gpt, _get_abstract_try.
    rewrite Hp, (returns_while_true Hrun Hle). cbn [obind catch].
    now rewrite Ha.
  - rewrite Hread. exact Hwc.
Qed.

(** The run of the theorem for paper 9901.001 and a response of 500 words
    between the markers. *)
Lemma abstract_stage_stores_tagged_response_witness :
  process_paper (client := scripted) (prompts := plain_prompts) 1
    ([], [Ok spaced_abstract], titled_fs) (py "9901.001")
  = Some ([{| a_paper_id := py "9901.001"; abstract := spaced_abstract |}],
          [], _save_abstract titled_fs (py "9901.001") spaced_abstract).
Proof.
  refine (proj1 (proj2 (proj2 (proj2 (proj2
    (@abstract_stage_stores_tagged_response scripted plain_prompts []
       [Ok spaced_abstract] [] titled_fs (py "9901.001") _ spaced_abstract 1
       eq_refl eq_refl _))))) 1 (le_n 1)).
  replace spaced_abstract with (strip spaced_abstract) at 2
    by (vm_compute; reflexivity).
  apply (@returns_verified scripted); [reflexivity|].
  vm_compute. reflexivity.
Defined.

(** C2 as stated fails: the stored abstract of a successful run keeps both
    markers, and its own word count is 502. *)
Lemma abstract_artifact_keeps_markers :
  exists results w' fs' a,
    process_papers (client := scripted) (prompts := plain_prompts) 1
      [Ok spaced_abstract] titled_fs
    = Some (results, w', fs')
    /\ get (abstract_dir fs') (py "9901.001")
       = Some {| a_paper_id := py "9901.001"; abstract := a |}
    /\ startswith a (py "<abstract>") = true
    /\ endswith a (py "</abstract>") = true
    /\ length (split_ws a) = 502
    /\ ~ (200 <= length (split_ws a) <= 500).
Proof.
  eexists _, _, _, _. split; [vm_compute; reflexivity|].
  split; [reflexivity|].
  split; [vm_compute; reflexivity|].
  split; [vm_compute; reflexivity|].
  split; [vm_compute; reflexivity|].
  vm_compute. intros [_ H]. repeat (apply le_S_n in H). inversion H.
Qed.

(** C10: when the collaborator raises during the Abstract stage for a
    paper, at the first call or after any number of rejected responses,
    [_get_abstract_from_gpt] returns the empty string, the paper step
    writes nothing (the whole store, the abstract directory included, is
    unchanged), and the loop goes on with the next paper. *)
Theorem abstract_model_failure_keeps_store
    (client : Client) (prompts : Prompts)
    (results : list AbstractArtifact) (w w' : World) (fs : FS)
    (paper_id p : str) (rest : list str) (n : nat) :
  let subject := _read_subject_from_test fs paper_id in
  let title := _read_title_from_file fs paper_id in
  let outline := _read_outline_from_file fs paper_id in
  nonempty subject && nonempty title && nonempty outline = true ->
  abstract_prompt subject title (join [nl] outline) = Ok p ->
  returns _verify_abstract_format correction_message (Some 1000) w
    [Message user p] Raise w' n ->
  (exists w0 messages, create w0 messages (Some 1000) = (Raise, w'))
  /\ forall fuel, n <= fuel ->
       _get_abstract_from_gpt fuel w subject title outline = Some ([], w')
       /\ process_paper fuel (results, w, fs) paper_id
          = Some (results, w', fs)
       /\ process_list fuel (results, w, fs) (paper_id :: rest)
          = process_list fuel (results, w', fs) rest.
Proof.
  intros subject title outline Hne Hp Hrun.
  split; [exact (returns_Raise Hrun)|].
  intros fuel Hle.
  assert (Hget : _get_abstract_from_gpt fuel w subject title outline
                 = Some ([], w')).
  { unfold _get_abstract_from_gpt, _get_abstract_try.
    now rewrite Hp, (returns_while_true Hrun Hle). }
  assert (Hstep : process_paper fuel (results, w, fs) paper_id
                  = Some (results, w', fs)).
  { unfold process_paper. fold subject title outline.
    rewrite Hne, Hget. reflexivity. }
  repeat split; try assumption.
  cbn [process_list]. now rewrite Hstep.
Qed.

(** The collaborator answers once without markers and raises on the second
    call. *)
Lemma abstract_model_failure_keeps_store_witness :
  process_paper (client := scripted) (prompts := plain_prompts) 2
    ([], [Ok (py "no markers"); Raise], titled_fs) (py "9901.001")
  = Some ([], [], titled_fs).
Proof.
  refine (proj1 (proj2 (proj2
    (@abstract_model_failure_keeps_store scripted plain_prompts []
       [Ok (py "no markers"); Raise] [] titled_fs (py "9901.001") _ [] 2
       eq_refl eq_refl _) 2 (le_n 2)))).
  eapply returns_corrected; [reflexivity|reflexivity|].
  apply (@returns_raised scripted). reflexivity.
Defined.

End AbstractFacts.
(* ------------------------------------------------------------------ *)
(** ** The Reference-Selection stage *)

Module RefsFacts.

(** *** The capped sibling (CoTreferenceselection.py) *)

Section Capped.
Import CoTReferenceSelectionAgent.
Variable base : Client.

(** Over the counting client, the loop makes no more calls than it has
    iterations left. *)
Lemma retry_loop_calls (remaining : nat) :
  forall (w : @World base) (k : nat) messages last r w' k',
    retry_loop (client := counting base) remaining (w, k) messages last
      = (r, (w', k')) ->
    k <= k' <= k + remaining.
Proof.
  induction remaining as [|n IH]; intros w k messages last r w' k' H.
  - simpl in H. destruct last; injection H as _ _ <-; lia.
  - cbn [retry_loop] in H. simpl create in H. simpl fst in H.
    simpl snd in H.
    destruct (@create base w messages None) as [[response|] w1].
    + destruct (_verify_refs_format (_extract_final_refs (strip response))).
      * injection H as _ _ <-. lia.
      * apply IH in H. lia.
    + injection H as _ _ <-. lia.
Qed.
End Capped.

(** *** The agent of the pipeline (referenceselection.py) *)

Section Uncapped.
Import ReferenceSelectionAgent.

(** After [n] rejected responses the loop is still asking: with a
    collaborator that answers well at call [n + 1], that call is made and
    its response returned. *)
Lemma while_true_scripted_step verify correction max_tokens fuel
    (r : str) (script : list (exc str)) (k : nat) messages :
  while_true (client := counting scripted) verify correction max_tokens
    (S fuel) (Ok r :: script, k) messages
  = if verify (strip r) then Some (Ok (strip r), (script, S k))
    else while_true (client := counting scripted) verify correction
           max_tokens fuel (script, S k)
           (messages ++ [Message assistant (strip r);
                         Message user correction]).
Proof. reflexivity. Qed.

Lemma while_true_rejects (n : nat) :
  forall (k : nat) (messages : list message),
    while_true (client := counting scripted) _verify_refs_format
      correction_message None (S n)
      (repeat (Ok bad_refs) n ++ [Ok good_refs], k) messages
    = Some (Ok good_refs, ([], k + S n)).
Proof.
  induction n as [|n IH]; intros k messages.
  - cbn [repeat app]. rewrite while_true_scripted_step.
    replace (strip good_refs) with good_refs by (vm_compute; reflexivity).
    replace (_verify_refs_format good_refs) with true
      by (vm_compute; reflexivity).
    now rewrite Nat.add_1_r.
  - cbn [repeat app]. rewrite while_true_scripted_step.
    replace (strip bad_refs) with bad_refs by (vm_compute; reflexivity).
    replace (_verify_refs_format bad_refs) with false
      by (vm_compute; reflexivity).
    rewrite IH. replace (S k + S n) with (k + S (S n)) by lia.
    reflexivity.
Qed.
End Uncapped.

(** C3, as the code has it: the cap of 3 attempts, with the best-effort
    extraction of the [<refs>] block of the third response on exhaustion,
    is the behaviour of the sibling agent of CoTreferenceselection.py; the
    agent the pipeline runs (referenceselection.py) has no cap, and makes
    call [n + 1] after any number [n] of rejected responses. *)
Theorem reference_selection_retry_bounds :
  (forall (base : Client) (prompts : Prompts) (w : @World base) (k : nat)
          info section r w' k',
     CoTReferenceSelectionAgent._get_refs_for_section
       (client := counting base) (w, k) info section = (r, (w', k')) ->
     k' <= k + 3)
  /\
  (forall (client : Client) (prompts : Prompts) (w w1 w2 w3 : World)
          info section p r1 r2 r3,
     let correct ms full :=
       ms ++ [Message assistant full;
              Message user CoTReferenceSelectionAgent.correction_message] in
     let attempt r :=
       CoTReferenceSelectionAgent._verify_refs_format
         (CoTReferenceSelectionAgent._extract_final_refs (strip r)) in
     let m1 := [Message user p] in
     let m2 := correct m1 (strip r1) in
     let m3 := correct m2 (strip r2) in
     reference_selection_prompt (ri_subject info) (ri_title info)
       (join [nl] (ri_outline info)) section (ri_references info) = Ok p ->
     create w m1 None = (Ok r1, w1) -> attempt r1 = false ->
     create w1 m2 None = (Ok r2, w2) -> attempt r2 = false ->
     create w2 m3 None = (Ok r3, w3) -> attempt r3 = false ->
     CoTReferenceSelectionAgent._get_refs_for_section w info section
     = (CoTReferenceSelectionAgent._extract_final_refs (strip r3), w3))
  /\
  (forall n : nat,
     ReferenceSelectionAgent._get_refs_for_section
       (client := counting scripted) (prompts := plain_prompts) (S n)
       (repeat (Ok bad_refs) n ++ [Ok good_refs], 0) sample_info
       (py "Methods")
     = Some (good_refs, ([], S n))).
Proof.
  split; [|split].
  - intros base prompts w k info section r w' k' H.
    unfold CoTReferenceSelectionAgent._get_refs_for_section,
      CoTReferenceSelectionAgent._get_refs_try in H.
    destruct (reference_selection_prompt _ _ _ _ _).
    + destruct (CoTReferenceSelectionAgent.retry_loop _ _ _ _)
        as [r0 [w0 k0]] eqn:E.
      injection H as _ _ <-.
      apply retry_loop_calls in E.
      unfold CoTReferenceSelectionAgent.max_retries in E. lia.
    + injection H as _ _ <-. lia.
  - intros client prompts w w1 w2 w3 info section p r1 r2 r3
      correct attempt m1 m2 m3 Hp H1 V1 H2 V2 H3 V3.
    unfold CoTReferenceSelectionAgent._get_refs_for_section,
      CoTReferenceSelectionAgent._get_refs_try.
    rewrite Hp.
    unfold CoTReferenceSelectionAgent.max_retries.
    cbn [CoTReferenceSelectionAgent.retry_loop].
    fold m1. rewrite H1. fold (attempt r1). rewrite V1.
    fold (correct m1 (strip r1)). fold m2. rewrite H2.
    fold (attempt r2). rewrite V2.
    fold (correct m2 (strip r2)). fold m3. rewrite H3.
    fold (attempt r3). rewrite V3. reflexivity.
  - intros n.
    unfold ReferenceSelectionAgent._get_refs_for_section,
      ReferenceSelectionAgent._get_refs_try.
    cbn [reference_selection_prompt plain_prompts].
    rewrite while_true_rejects. reflexivity.
Qed.

(** Three rejected responses: the sibling agent stops and extracts from the
    third. *)
Lemma reference_selection_retry_bounds_witness :
  CoTReferenceSelectionAgent._get_refs_for_section
    (client := counting scripted) (prompts := plain_prompts)
    ([Ok bad_refs; Ok bad_refs; Ok (py "see <refs>[1]</refs>"); Ok good_refs],
     0)
    sample_info (py "Methods")
  = (join [nl] [py "<refs>"; py "[1]"; py "</refs>"], ([Ok good_refs], 3)).
Proof.
  destruct reference_selection_retry_bounds as (_ & H & _).
  exact (H (counting scripted) plain_prompts
           ([Ok bad_refs; Ok bad_refs; Ok (py "see <refs>[1]</refs>");
             Ok good_refs], 0)
           ([Ok bad_refs; Ok (py "see <refs>[1]</refs>"); Ok good_refs], 1)
           ([Ok (py "see <refs>[1]</refs>"); Ok good_refs], 2)
           ([Ok good_refs], 3)
           sample_info (py "Methods") _ bad_refs bad_refs
           (py "see <refs>[1]</refs>") eq_refl eq_refl eq_refl eq_refl
           eq_refl eq_refl eq_refl).
Defined.

(** C3 as stated fails for the agent of the pipeline: after three rejected
    responses it makes a fourth call and returns that response. *)
Lemma pipeline_refs_fourth_call :
  ReferenceSelectionAgent._get_refs_for_section
    (client := counting scripted) (prompts := plain_prompts) 4
    ([Ok bad_refs; Ok bad_refs; Ok bad_refs; Ok good_refs], 0)
    sample_info (py "Methods")
  = Some (good_refs, ([], 4))
  /\ good_refs <> CoTReferenceSelectionAgent._extract_final_refs bad_refs.
Proof.
  split; [vm_compute; reflexivity|]. vm_compute. discriminate.
Qed.

End RefsFacts.
(* ------------------------------------------------------------------ *)
(** ** The Outline stage (outline.py) *)

Module OutlineFacts.
Import OutlineAgent.
Import TitleAgent (nonempty).

Lemma read_reference_file_id (paper_id content : str) (rd : ref_data) :
  _read_reference_file paper_id content = Some rd -> rd_id rd = paper_id.
Proof.
  unfold _read_reference_file.
  destruct (_extract_content content) as [[s r]|]; [|discriminate].
  intros H. injection H as <-. reflexivity.
Qed.

(** C4, as the code has it: the Outline stage checks the number of
    non-blank lines of the first response; a first response with 6 to 10
    lines is persisted as it is, and otherwise one corrected call is made
    and its response is persisted without a check. *)
Theorem outline_stage_single_retry
    (client : Client) (prompts : Prompts)
    (results : list OutlineArtifact) (w w1 : World) (fs : FS)
    (paper_id content p r1 : str) (rd : ref_data) :
  _read_reference_file paper_id content = Some rd ->
  nonempty (rd_subject rd) && nonempty (rd_references rd) = true ->
  outline_prompt (rd_subject rd) (rd_references rd) = Ok p ->
  create w [Message user p] None = (Ok r1, w1) ->
  let stored r :=
    {| o_paper_id := paper_id; sections := section_lines (strip r) |} in
  (in_range (length (section_lines (strip r1))) = true ->
   process_file (results, w, fs) (paper_id, content)
   = (results ++ [stored r1], w1, write_outline fs paper_id (stored r1))
   /\ get (outline_dir (write_outline fs paper_id (stored r1))) paper_id
      = Some (stored r1)
   /\ 6 <= length (sections (stored r1)) <= 10)
  /\
  (in_range (length (section_lines (strip r1))) = false ->
   forall (r2 : str) (w2 : World),
     create w1 [Message user p; Message assistant (strip r1);
                Message user correction_message] None = (Ok r2, w2) ->
     process_file (results, w, fs) (paper_id, content)
     = (results ++ [stored r2], w2, write_outline fs paper_id (stored r2))
     /\ get (outline_dir (write_outline fs paper_id (stored r2))) paper_id
        = Some (stored r2)).
Proof.
  intros Hrd Hne Hp H1 stored.
  pose proof (read_reference_file_id _ _ Hrd) as Hid.
  split.
  - intros Hin. repeat split.
    + unfold process_file. cbn [fst snd]. rewrite Hrd, Hne.
      unfold _get_outline_from_gpt, _get_outline_try.
      rewrite Hp, H1. cbv zeta. rewrite Hin. cbn [negb catch].
      unfold _save_outline. rewrite Hid. reflexivity.
    + apply get_set_same.
    + unfold in_range in Hin. apply andb_true_iff in Hin as [Hin _].
      apply Nat.leb_le in Hin. exact Hin.
    + unfold in_range in Hin. apply andb_true_iff in Hin as [_ Hin].
      apply Nat.leb_le in Hin. exact Hin.
  - intros Hout r2 w2 H2. split.
    + unfold process_file. cbn [fst snd]. rewrite Hrd, Hne.
      unfold _get_outline_from_gpt, _get_outline_try.
      rewrite Hp, H1. cbv zeta. rewrite Hout. cbn [negb app].
      rewrite H2. cbn [catch].
      unfold _save_outline. rewrite Hid. reflexivity.
    + apply get_set_same.
Qed.

(** A first response of six headings is stored after one call. *)
Lemma outline_stage_single_retry_witness :
  process_file (client := scripted) (prompts := plain_prompts)
    ([], [Ok six_headings], sample_fs) (py "9901.001", sample_test_file)
  = ([{| o_paper_id := py "9901.001";
         sections := section_lines (strip six_headings) |}],
     [],
     write_outline sample_fs (py "9901.001")
       {| o_paper_id := py "9901.001";
          sections := section_lines (strip six_headings) |}).
Proof.
  destruct (@outline_stage_single_retry scripted plain_prompts []
              [Ok six_headings] [] sample_fs (py "9901.001")
              sample_test_file _ six_headings _
              eq_refl eq_refl eq_refl eq_refl) as [H _].
  destruct (H eq_refl) as [H1 _]. exact H1.
Defined.

(** C4 as stated fails: two responses of five headings each, and the second
    is persisted; no third call is made. *)
Lemma outline_five_headings_persisted :
  exists results fs' stored,
    process_folder (client := counting scripted) (prompts := plain_prompts)
      ([Ok five_headings; Ok five_headings; Ok six_headings], 0) sample_fs
    = (results, ([Ok six_headings], 2), fs')
    /\ get (outline_dir fs') (py "9901.001") = Some stored
    /\ length (filter (fun s => negb (reserved s)) (sections stored)) = 5.
Proof.
  eexists _, _, _. split; [vm_compute; reflexivity|].
  split; [reflexivity|]. vm_compute. reflexivity.
Qed.

End OutlineFacts.
(* ------------------------------------------------------------------ *)
(** ** The Content stage (content.py) *)

Module ContentFacts.
Import ContentAgent.
Import AbstractAgent (nonempty).

Example short_content_words :
  length (split_ws (extract_content short_content)) = 400
  /\ length (paragraphs (extract_content short_content)) = 3
  /\ has_citation (extract_content short_content) = true
  /\ _verify_content_format short_content = false.
Proof. vm_compute. auto. Qed.

Section Loops.
Context {client : Client} {prompts : Prompts}.

(** The subsection loop only adds to, or overwrites in, its dictionary. *)
Lemma subsections_keep_key info section (k : str) (todo : list str) :
  forall section_content w,
    get section_content k <> None ->
    get (fst (fold_left (process_subsection info section) todo
                (section_content, w))) k <> None.
Proof.
  induction todo as [|s todo IH]; intros sc w H; [exact H|].
  cbn [fold_left]. unfold process_subsection at 2.
  destruct (_get_content w info section s) as [content w'].
  destruct (nonempty content); [|now apply IH].
  apply IH. destruct (str_eqb s k) eqn:E.
  - apply str_eqb_eq in E as ->. now rewrite get_set_same.
  - apply str_eqb_neq in E. now rewrite (get_set_other _ _ E).
Qed.

Lemma subsections_other_key info section (k : str) (todo : list str) :
  forall section_content w,
    ~ In k todo ->
    get (fst (fold_left (process_subsection info section) todo
                (section_content, w))) k
    = get section_content k.
Proof.
  induction todo as [|s todo IH]; intros sc w H; [reflexivity|].
  cbn [fold_left]. unfold process_subsection at 2.
  destruct (_get_content w info section s) as [content w'].
  assert (Hs : s <> k) by (intros ->; apply H; now left).
  assert (Ht : ~ In k todo) by (intros Hin; apply H; now right).
  destruct (nonempty content).
  - rewrite (IH _ _ Ht). now apply get_set_other.
  - now apply IH.
Qed.

Lemma sections_other_key info (k : str) (todo : dict (list str)) :
  forall content_data w,
    ~ In k (map fst todo) ->
    get (fst (fold_left (process_section info) todo (content_data, w))) k
    = get content_data k.
Proof.
  induction todo as [|[section subsections] todo IH]; intros cd w H;
    [reflexivity|].
  cbn [fold_left]. cbn [map fst In] in H.
  assert (Hs : section <> k) by (intros ->; apply H; now left).
  assert (Ht : ~ In k (map fst todo)) by (intros Hin; apply H; now right).
  unfold process_section at 2.
  destruct (negb (reserved section)); [|now apply IH].
  destruct (fold_left (process_subsection info section) subsections ([], w))
    as [sc w'].
  destruct (nonempty sc).
  - rewrite (IH _ _ Ht). now apply get_set_other.
  - now apply IH.
Qed.

(** A later paper writes under its own identifier only. *)
Lemma papers_other_key (k : str) (todo : list str) :
  forall w fs,
    ~ In k todo ->
    get (content_dir (snd (fold_left process_paper todo (w, fs)))) k
    = get (content_dir fs) k.
Proof.
  induction todo as [|paper_id todo IH]; intros w fs H; [reflexivity|].
  cbn [fold_left].
  assert (Hs : paper_id <> k) by (intros ->; apply H; now left).
  assert (Ht : ~ In k todo) by (intros Hin; apply H; now right).
  unfold process_paper at 2.
  destruct (_read_paper_info fs paper_id) as [info|]; [|now apply IH].
  destruct (fold_left (process_section info) (pi_subsections info) ([], w))
    as [cd w'].
  rewrite (IH _ _ Ht). cbn [_save_content write_content content_dir].
  now apply get_set_other.
Qed.
End Loops.

(** C5, as the code has it.  The run of [process_papers] reaches a paper,
    in it a section that is not reserved, and in it a subsection; there the
    model gives three responses that the verifier rejects, the last one not
    the empty string when trimmed.  Then [_get_content] returns the third
    response, trimmed, and when the run is over the Content artifact of the
    paper holds the section, and under the subsection heading a payload:
    the slice [[9:-10]] of the third response, trimmed, unless a later
    subsection of the section has the same heading.  The names of a
    directory listing and the keys of the dictionary of subsections are
    distinct: the paper and the section do not come again later. *)
Theorem content_exhaustion_persists
    (client : Client) (prompts : Prompts)
    (w_init w_paper w_section w w1 w2 w3 : World) (fs fs_paper : FS)
    (info : paper_info) (paper_id section subsection subject p r1 r2 r3 : str)
    (earlier later : list str) (before after : dict (list str))
    (pre post : list str)
    (content_before : dict (dict str)) (section_before : dict str) :
  let correct ms full :=
    ms ++ [Message assistant full; Message user correction_message] in
  let m1 := [Message user p] in
  let m2 := correct m1 (strip r1) in
  let m3 := correct m2 (strip r2) in
  map fst (title_dir fs) = earlier ++ paper_id :: later ->
  ~ In paper_id later ->
  fold_left process_paper earlier (w_init, fs) = (w_paper, fs_paper) ->
  _read_paper_info fs_paper paper_id = Some info ->
  pi_subsections info
  = before ++ (section, pre ++ subsection :: post) :: after ->
  reserved section = false ->
  ~ In section (map fst after) ->
  fold_left (process_section info) before ([], w_paper)
  = (content_before, w_section) ->
  fold_left (process_subsection info section) pre ([], w_section)
  = (section_before, w) ->
  pi_subject info = Some subject ->
  content_prompt subject (pi_title info) (join [nl] (pi_outline info))
    section subsection
    (join [nl] (default [] (get (pi_section_refs info) section))) = Ok p ->
  create w m1 (Some 2000) = (Ok r1, w1) ->
  _verify_content_format (strip r1) = false ->
  create w1 m2 (Some 2000) = (Ok r2, w2) ->
  _verify_content_format (strip r2) = false ->
  create w2 m3 (Some 2000) = (Ok r3, w3) ->
  _verify_content_format (strip r3) = false ->
  nonempty (strip r3) = true ->
  _get_content w info section subsection = (strip r3, w3)
  /\ exists content_data section_content,
       get (content_dir (snd (process_papers w_init fs))) paper_id
       = Some {| c_paper_id := paper_id; c_sections := content_data |}
       /\ get content_data section = Some section_content
       /\ get section_content subsection <> None
       /\ (~ In subsection post ->
           get section_content subsection
           = Some (extract_content (strip r3))).
Proof.
  intros correct m1 m2 m3 Hids Hlater Hearlier Hinfo Hsubs Hres Hafter
    Hbefore Hpre Hs Hp H1 V1 H2 V2 H3 V3 Hne.
  assert (Hget : _get_content w info section subsection = (strip r3, w3)).
  { unfold _get_content, _get_content_try. rewrite Hs, Hp.
    unfold max_retries. cbn [retry_loop].
    fold m1. rewrite H1, V1.
    fold (correct m1 (strip r1)). fold m2. rewrite H2, V2.
    fold (correct m2 (strip r2)). fold m3. rewrite H3, V3.
    reflexivity. }
  split; [exact Hget|].
  (* the subsection loop of the section *)
  pose (payload := extract_content (strip r3)).
  destruct (fold_left (process_subsection info section) post
              (set section_before subsection payload, w3))
    as [section_content w_sub] eqn:Epost.
  assert (Hkeep : get section_content subsection <> None).
  { change section_content with (fst (section_content, w_sub)).
    rewrite <- Epost. apply subsections_keep_key.
    now rewrite get_set_same. }
  assert (Hlast : ~ In subsection post ->
                  get section_content subsection = Some payload).
  { intros Hnot. change section_content with (fst (section_content, w_sub)).
    rewrite <- Epost. rewrite (subsections_other_key _ _ _ _ _ _ Hnot).
    apply get_set_same. }
  assert (Hsec : process_section info (content_before, w_section)
                   (section, pre ++ subsection :: post)
                 = (set content_before section section_content, w_sub)).
  { unfold process_section. rewrite Hres. cbn [negb].
    rewrite fold_left_app, Hpre. cbn [fold_left].
    unfold process_subsection at 2. rewrite Hget, Hne.
    fold payload. rewrite Epost.
    destruct section_content; [now contradiction Hkeep|reflexivity]. }
  (* the section loop of the paper *)
  destruct (fold_left (process_section info) after
              (set content_before section section_content, w_sub))
    as [content_data w_end] eqn:Eafter.
  assert (Hcd : get content_data section = Some section_content).
  { change content_data with (fst (content_data, w_end)).
    rewrite <- Eafter. rewrite (sections_other_key _ _ _ _ _ Hafter).
    apply get_set_same. }
  assert (Hpaper : process_paper (w_paper, fs_paper) paper_id
                   = (w_end, _save_content fs_paper paper_id content_data)).
  { unfold process_paper. rewrite Hinfo, Hsubs.
    rewrite fold_left_app, Hbefore. cbn [fold_left].
    rewrite Hsec, Eafter. reflexivity. }
  exists content_data, section_content.
  split; [|now repeat split].
  unfold process_papers. rewrite Hids, fold_left_app, Hearlier.
  cbn [fold_left]. rewrite Hpaper.
  rewrite (papers_other_key _ _ _ _ Hlater).
  cbn [_save_content write_content content_dir]. apply get_set_same.
Qed.

(** The scenario of the specification, in a run over two papers: the first
    paper lacks its outline and is skipped; in the second, the section
    "Introduction" is reserved, and the third response for the first
    subsection of "Methods" is a well-formed block of 400 words.  Its
    payload is in the store when the run is over. *)
Lemma content_exhaustion_persists_witness :
  exists content_data section_content,
    get (content_dir
           (snd (process_papers (client := scripted)
                   (prompts := plain_prompts)
                   [Ok (py "draft"); Ok (py "draft"); Ok short_content]
                   two_paper_fs)))
      (py "9901.001")
    = Some {| c_paper_id := py "9901.001"; c_sections := content_data |}
    /\ get content_data (py "Methods") = Some section_content
    /\ get section_content (py "Attention Heads")
       = Some (extract_content (strip short_content)).
Proof.
  destruct (@content_exhaustion_persists scripted plain_prompts
              [Ok (py "draft"); Ok (py "draft"); Ok short_content]
              [Ok (py "draft"); Ok (py "draft"); Ok short_content]
              [Ok (py "draft"); Ok (py "draft"); Ok short_content]
              [Ok (py "draft"); Ok (py "draft"); Ok short_content]
              [Ok (py "draft"); Ok short_content] [Ok short_content] []
              two_paper_fs two_paper_fs
              {| pi_subject := Some (py "cs.CL");
                 pi_title := py "A Survey of X";
                 pi_outline := sample_outline;
                 pi_section_refs := [(py "Methods", [py "* [1] Attention"])];
                 pi_subsections :=
                   [(py "Introduction", [py "Scope"]);
                    (py "Methods",
                     [py "Attention Heads"; py "Positional Codes"]);
                    (py "Models", [py "Encoders"])] |}
              (py "9901.001") (py "Methods") (py "Attention Heads")
              (py "cs.CL")
              (join [nl] [py "cs.CL"; py "A Survey of X";
                          join [nl] sample_outline; py "Methods";
                          py "Attention Heads"; py "* [1] Attention"])
              (py "draft") (py "draft") short_content
              [py "9812.007"] [] [(py "Introduction", [py "Scope"])]
              [(py "Models", [py "Encoders"])] [] [py "Positional Codes"]
              [] [])
    as (_ & content_data & section_content & Hstore & Hsection & _ & Hlast).
  - reflexivity.
  - intros [].
  - vm_compute. reflexivity.
  - vm_compute. reflexivity.
  - reflexivity.
  - reflexivity.
  - cbn [map fst In]. intros [H|[]]. discriminate H.
  - vm_compute. reflexivity.
  - reflexivity.
  - reflexivity.
  - vm_compute. reflexivity.
  - reflexivity.
  - vm_compute. reflexivity.
  - reflexivity.
  - vm_compute. reflexivity.
  - reflexivity.
  - vm_compute. reflexivity.
  - vm_compute. reflexivity.
  - exists content_data, section_content.
    split; [exact Hstore|]. split; [exact Hsection|].
    apply Hlast. cbn [In]. intros [H|[]]. discriminate H.
Defined.

(** C5 as stated fails when the third response is blank: it violates the
    contract, and nothing is stored for the subsection. *)
Lemma content_blank_response_discarded :
  _verify_content_format (strip (py "  ")) = false
  /\ process_paper (client := scripted) (prompts := plain_prompts)
       ([Ok (py "draft"); Ok (py "draft"); Ok (py "  ")], sectioned_fs)
       (py "9901.001")
     = ([], _save_content sectioned_fs (py "9901.001") []).
Proof.
  split; vm_compute; reflexivity.
Qed.

(** A heading listed twice in a section: the payload of the exhausted
    first occurrence is replaced by that of the second. *)
Example content_repeated_heading_replaced :
  process_paper (client := scripted) (prompts := plain_prompts)
    ([Ok (py "draft"); Ok (py "draft"); Ok short_content;
      Ok (py "<content>later</content>"); Ok (py "<content>later</content>");
      Ok (py "<content>later</content>")],
     repeated_heading_fs)
    (py "9901.001")
  = ([], _save_content repeated_heading_fs (py "9901.001")
           [(py "Methods", [(py "Attention Heads", py "later")])]).
Proof. vm_compute. reflexivity. Qed.

End ContentFacts.
(* ------------------------------------------------------------------ *)
(** ** The Final Assembler (outputxml.py) *)

Module XMLFacts.
Import XMLPaperGenerator.

(** *** The loops against the numbering of the specification *)

Lemma add_subsections_spec content section i (subs : list str) :
  forall (acc : list str) (j : nat),
    fold_left (add_subsection content section i) subs (acc, j)
    = (acc ++ flat_map (spec_subsection_block content section i)
                (combine (seq j (length subs)) subs),
       j + length subs).
Proof.
  induction subs as [|s subs IH]; intros acc j; cbn [fold_left].
  - simpl. now rewrite app_nil_r, Nat.add_0_r.
  - unfold add_subsection at 2. rewrite Nat.add_1_r, IH.
    cbn [length seq combine flat_map spec_subsection_block].
    f_equal; [|lia].
    destruct (lookup_body content section s);
      rewrite <- ?app_assoc; reflexivity.
Qed.

Lemma add_sections_spec subsections content (sections : list str) :
  forall (acc : list str) (n : nat),
    let kept := filter (fun s => negb (reserved s)) sections in
    fold_left (add_section subsections content) sections (acc, n)
    = (acc ++ flat_map (spec_section_block subsections content)
                (combine (seq n (length kept)) kept),
       n + length kept).
Proof.
  induction sections as [|s sections IH]; intros acc n; cbn [fold_left filter].
  - simpl. now rewrite app_nil_r, Nat.add_0_r.
  - unfold add_section at 2. destruct (negb (reserved s)) eqn:E.
    + rewrite Nat.add_1_r. cbv zeta in IH. rewrite IH.
      cbn [length seq combine flat_map spec_section_block].
      f_equal; [|lia].
      destruct (get subsections s) as [subs|].
      * rewrite add_subsections_spec. cbn [fst].
        rewrite <- !app_assoc. reflexivity.
      * rewrite <- !app_assoc. reflexivity.
    + cbv zeta in IH. apply IH.
Qed.

(** The lines of the document: four opening lines, the numbered body, four
    closing lines. *)
Lemma xml_lines_shape (fs : FS) (paper_id : str) :
  xml_lines fs paper_id
  = [xml_header; py "<Literature>";
     py "<Title>" ++ _read_title fs paper_id ++ py "</Title>";
     py "<Abstract>" ++ _read_abstract fs paper_id ++ py "</Abstract>"]
    ++ spec_body (_read_sections fs paper_id) (_read_subsections fs paper_id)
         (_read_content fs paper_id)
    ++ [py "<References>"; _read_references fs paper_id;
        py "</References>"; py "</Literature>"].
Proof.
  unfold xml_lines. cbv zeta.
  pose proof (add_sections_spec (_read_subsections fs paper_id)
                (_read_content fs paper_id) (_read_sections fs paper_id)) as H.
  cbv zeta in H. rewrite H. unfold spec_body, numbered.
  rewrite <- !app_assoc. reflexivity.
Qed.

(** *** Missing files *)

Lemma open_missing {V} (d : dict V) (paper_id : str) :
  get d paper_id = None -> open_file d paper_id = Raise.
Proof. unfold open_file. now intros ->. Qed.

Lemma join_cons2 (sep x y : str) (l : list str) :
  join sep (x :: y :: l) = x ++ sep ++ join sep (y :: l).
Proof. reflexivity. Qed.

(** C6: the assembler is a total function of the store; a file that is
    missing makes its reader return the empty value, and the document is
    produced all the same, with its opening and closing lines; without the
    Abstract file the document contains [<Abstract></Abstract>]. *)
Theorem assembler_tolerates_missing_files (fs : FS) (paper_id : str) :
  (get (title_dir fs) paper_id = None -> _read_title fs paper_id = [])
  /\ (get (abstract_dir fs) paper_id = None -> _read_abstract fs paper_id = [])
  /\ (get (outline_dir fs) paper_id = None -> _read_sections fs paper_id = [])
  /\ (get (subsections_dir fs) paper_id = None ->
      _read_subsections fs paper_id = [])
  /\ (get (content_dir fs) paper_id = None -> _read_content fs paper_id = [])
  /\ (get (train_dir fs) paper_id = None -> _read_references fs paper_id = [])
  /\ (exists body,
        _generate_xml fs paper_id
        = join [nl]
            ([xml_header; py "<Literature>";
              py "<Title>" ++ _read_title fs paper_id ++ py "</Title>";
              py "<Abstract>" ++ _read_abstract fs paper_id
              ++ py "</Abstract>"]
             ++ body
             ++ [py "<References>"; _read_references fs paper_id;
                 py "</References>"; py "</Literature>"]))
  /\ (get (abstract_dir fs) paper_id = None ->
      exists before after,
        _generate_xml fs paper_id
        = before ++ py "<Abstract></Abstract>" ++ after)
  /\ get (final_dir (process_paper fs paper_id)) paper_id
     = Some (_generate_xml fs paper_id).
Proof.
  repeat split.
  - intros H. unfold _read_title. now rewrite (open_missing _ _ H).
  - intros H. unfold _read_abstract. now rewrite (open_missing _ _ H).
  - intros H. unfold _read_sections. now rewrite (open_missing _ _ H).
  - intros H. unfold _read_subsections. now rewrite (open_missing _ _ H).
  - intros H. unfold _read_content. now rewrite (open_missing _ _ H).
  - intros H. unfold _read_references. now rewrite (open_missing _ _ H).
  - eexists. unfold _generate_xml. rewrite xml_lines_shape. reflexivity.
  - intros H. unfold _generate_xml. rewrite xml_lines_shape.
    assert (Ha : _read_abstract fs paper_id = []).
    { unfold _read_abstract. now rewrite (open_missing _ _ H). }
    rewrite Ha.
    set (title_line := py "<Title>" ++ _read_title fs paper_id
                       ++ py "</Title>").
    set (rest := spec_body _ _ _ ++ _).
    assert (Hrest : exists y l, rest = y :: l).
    { subst rest. destruct (spec_body _ _ _); simpl; eauto. }
    destruct Hrest as (y & l & ->).
    exists (xml_header ++ [nl] ++ py "<Literature>" ++ [nl] ++ title_line
            ++ [nl]),
      ([nl] ++ join [nl] (y :: l)).
    change (join [nl] (xml_header :: py "<Literature>" :: title_line
                       :: py "<Abstract></Abstract>" :: y :: l)
            = (xml_header ++ [nl] ++ py "<Literature>" ++ [nl] ++ title_line
               ++ [nl])
              ++ py "<Abstract></Abstract>" ++ [nl] ++ join [nl] (y :: l)).
    rewrite !join_cons2. rewrite <- !app_assoc. reflexivity.
  - unfold process_paper, _save_xml, write_final. cbn [final_dir].
    apply get_set_same.
Qed.

Example assembled_document_lines :
  xml_lines assembled_fs (py "9901.001")
  = [xml_header; py "<Literature>";
     py "<Title>A Survey of X</Title>";
     py "<Abstract></Abstract>";
     py "<Section_1_title>Background</Section_1_title>";
     py "<Section_2_title>Methods</Section_2_title>";
     py "<Section_2.1_title>Attention Heads</Section_2.1_title>";
     py "<Section_2.1_text>Body [1].</Section_2.1_text>";
     py "<Section_2.2_title>Positional Codes</Section_2.2_title>";
     py "<Section_3_title>Models</Section_3_title>";
     py "<Section_4_title>Training</Section_4_title>";
     py "<Section_5_title>Evaluation</Section_5_title>";
     py "<Section_6_title>Applications</Section_6_title>";
     py "<References>";
     py "[1] Attention" ++ [nl; nl] ++ py "[2] Transformers" ++ [nl]
       ++ py "Abstract: On transformers.";
     py "</References>"; py "</Literature>"].
Proof. vm_compute. reflexivity. Qed.


(** C7: for every outline, subsection map and content map the loop of
    [_generate_xml] appends exactly the numbered body of the specification:
    the sections that are not reserved carry the numbers 1..k in outline
    order, the subsections of a section the numbers 1..m in the order of the
    subsection map, and a subsection without text in the content map
    contributes its heading line alone. *)
Theorem assembler_numbering :
  (forall (sections : list str) (subsections : dict (list str))
          (content : dict (dict str)) (acc : list str),
     fst (fold_left (add_section subsections content) sections (acc, 1))
     = acc ++ spec_body sections subsections content)
  /\ (forall (fs : FS) (paper_id : str),
        xml_lines fs paper_id
        = [xml_header; py "<Literature>";
           py "<Title>" ++ _read_title fs paper_id ++ py "</Title>";
           py "<Abstract>" ++ _read_abstract fs paper_id ++ py "</Abstract>"]
          ++ spec_body (_read_sections fs paper_id)
               (_read_subsections fs paper_id) (_read_content fs paper_id)
          ++ [py "<References>"; _read_references fs paper_id;
              py "</References>"; py "</Literature>"])
  /\ (forall (A : Type) (l : list A),
        map fst (numbered l) = seq 1 (length l)
        /\ map snd (numbered l) = l)
  /\ (forall (content : dict (dict str)) (section subsection : str)
             (i j : nat),
        lookup_body content section subsection = None ->
        spec_subsection_block content section i (j, subsection)
        = [subsection_title i j subsection]).
Proof.
  split; [|split; [|split]].
  - intros sections subsections content acc.
    pose proof (add_sections_spec subsections content sections acc 1) as H.
    cbv zeta in H. rewrite H. reflexivity.
  - apply xml_lines_shape.
  - intros A l. unfold numbered. split.
    + apply map_fst_combine. now rewrite length_seq.
    + apply map_snd_combine. now rewrite length_seq.
  - intros content section subsection i j H.
    unfold spec_subsection_block. now rewrite H.
Qed.

(** *** Determinism *)

Lemma generate_xml_files (fs1 fs2 : FS) (paper_id : str) :
  get (title_dir fs1) paper_id = get (title_dir fs2) paper_id ->
  get (abstract_dir fs1) paper_id = get (abstract_dir fs2) paper_id ->
  get (outline_dir fs1) paper_id = get (outline_dir fs2) paper_id ->
  get (subsections_dir fs1) paper_id = get (subsections_dir fs2) paper_id ->
  get (content_dir fs1) paper_id = get (content_dir fs2) paper_id ->
  get (train_dir fs1) paper_id = get (train_dir fs2) paper_id ->
  _generate_xml fs1 paper_id = _generate_xml fs2 paper_id.
Proof.
  intros Ht Ha Ho Hs Hc Hr.
  unfold _generate_xml, xml_lines, _read_title, _read_abstract,
    _read_sections, _read_subsections, _read_content, _read_references,
    open_file.
  now rewrite Ht, Ha, Ho, Hs, Hc, Hr.
Qed.

Lemma generate_xml_inputs (fs1 fs2 : FS) (paper_id : str) :
  same_inputs fs1 fs2 -> _generate_xml fs1 paper_id = _generate_xml fs2 paper_id.
Proof.
  intros (Ht & Ha & Ho & Hs & Hc & Hr).
  apply generate_xml_files; congruence.
Qed.

Lemma set_same {V} (d : dict V) (k : str) (v : V) :
  get d k = Some v -> set d k v = d.
Proof.
  induction d as [|[k' v'] d IH]; simpl; [discriminate|].
  destruct (str_eqb k' k) eqn:E.
  - intros H. injection H as ->. reflexivity.
  - intros H. now rewrite IH.
Qed.

Section Rerun.
Variable g : str -> str.

Let write_all (ids : list str) (d : dict str) : dict str :=
  fold_left (fun d id => set d id (g id)) ids d.

Lemma get_write_all (ids : list str) :
  forall (d : dict str) (k : str),
    get (write_all ids d) k
    = if existsb (str_eqb k) ids then Some (g k) else get d k.
Proof.
  induction ids as [|a ids IH]; intros d k; [reflexivity|].
  unfold write_all in *. cbn [fold_left existsb]. rewrite IH.
  destruct (existsb (str_eqb k) ids); [now rewrite orb_true_r|].
  rewrite orb_false_r. destruct (str_eqb k a) eqn:E.
  - apply str_eqb_eq in E as ->. apply get_set_same.
  - apply str_eqb_neq in E. apply get_set_other. congruence.
Qed.

Lemma write_all_fixed (ids : list str) :
  forall d : dict str,
    (forall k, In k ids -> get d k = Some (g k)) ->
    write_all ids d = d.
Proof.
  induction ids as [|a ids IH]; intros d H; [reflexivity|].
  unfold write_all in *. cbn [fold_left].
  rewrite (set_same d a (H a (or_introl eq_refl))).
  apply IH. intros k Hk. apply H. now right.
Qed.

Lemma write_all_twice (ids : list str) (d : dict str) :
  write_all ids (write_all ids d) = write_all ids d.
Proof.
  apply write_all_fixed. intros k Hk. rewrite get_write_all.
  assert (E : existsb (str_eqb k) ids = true).
  { apply existsb_exists. exists k. split; [exact Hk|apply str_eqb_refl]. }
  now rewrite E.
Qed.
End Rerun.

Lemma process_paper_inputs (fs : FS) (paper_id : str) :
  same_inputs (process_paper fs paper_id) fs.
Proof. repeat split. Qed.

(** A run of [process_papers] leaves the input directories as they are and
    writes, for each listed paper, the document of the initial store. *)
Lemma process_list_final (ids : list str) (fs0 : FS) :
  forall fs : FS,
    same_inputs fs fs0 ->
    same_inputs (fold_left process_paper ids fs) fs0
    /\ final_dir (fold_left process_paper ids fs)
       = fold_left (fun d id => set d id (_generate_xml fs0 id)) ids
           (final_dir fs).
Proof.
  induction ids as [|a ids IH]; intros fs H; [now split|].
  cbn [fold_left].
  assert (H' : same_inputs (process_paper fs a) fs0).
  { destruct H as (Ht & Ha & Ho & Hs & Hc & Hr). repeat split; assumption. }
  destruct (IH _ H') as [Hin Hfin]. split; [exact Hin|].
  rewrite Hfin. unfold process_paper, _save_xml, write_final.
  cbn [final_dir]. now rewrite (generate_xml_inputs a H).
Qed.

Lemma same_inputs_refl (fs : FS) : same_inputs fs fs.
Proof. repeat split. Qed.

(** C8: the document of a paper is a function of its six input files alone
    (two stores that agree on them yield the same document), and a second
    run of the assembler over the store the first run left writes the same
    documents again. *)
Theorem assembly_deterministic :
  (forall (fs1 fs2 : FS) (paper_id : str),
     get (title_dir fs1) paper_id = get (title_dir fs2) paper_id ->
     get (abstract_dir fs1) paper_id = get (abstract_dir fs2) paper_id ->
     get (outline_dir fs1) paper_id = get (outline_dir fs2) paper_id ->
     get (subsections_dir fs1) paper_id = get (subsections_dir fs2) paper_id ->
     get (content_dir fs1) paper_id = get (content_dir fs2) paper_id ->
     get (train_dir fs1) paper_id = get (train_dir fs2) paper_id ->
     _generate_xml fs1 paper_id = _generate_xml fs2 paper_id)
  /\ (forall (fs : FS) (paper_id : str),
        _generate_xml (process_papers fs) paper_id = _generate_xml fs paper_id)
  /\ (forall fs : FS,
        final_dir (process_papers (process_papers fs))
        = final_dir (process_papers fs)).
Proof.
  split; [exact generate_xml_files|]. split.
  - intros fs paper_id. apply generate_xml_inputs.
    unfold process_papers.
    exact (proj1 (process_list_final _ (same_inputs_refl fs))).
  - intros fs.
    destruct (process_list_final (map fst (title_dir fs))
                (same_inputs_refl fs)) as [Hin Hfin].
    fold (process_papers fs) in Hin, Hfin.
    assert (Hids : title_dir (process_papers fs) = title_dir fs)
      by exact (proj1 Hin).
    destruct (process_list_final (map fst (title_dir fs)) Hin) as [_ Hfin2].
    unfold process_papers at 1. rewrite Hids, Hfin2, Hfin.
    apply write_all_twice.
Qed.

(** Two stores that differ in another paper and in the output directory
    give paper 9901.001 the same document. *)
Lemma assembly_deterministic_witness :
  _generate_xml assembled_fs (py "9901.001")
  = _generate_xml
      (write_title (process_papers assembled_fs) (py "0000.000")
         {| t_paper_id := py "0000.000"; title := py "<title>Other</title>" |})
      (py "9901.001").
Proof.
  exact (proj1 assembly_deterministic assembled_fs
           (write_title (process_papers assembled_fs) (py "0000.000")
              {| t_paper_id := py "0000.000";
                 title := py "<title>Other</title>" |})
           (py "9901.001") eq_refl eq_refl eq_refl eq_refl eq_refl eq_refl).
Defined.

(** The store without the Abstract file: the reader returns the empty
    string and the document has the empty element. *)
Lemma assembler_tolerates_missing_files_witness :
  _read_abstract assembled_fs (py "9901.001") = []
  /\ exists before after,
       _generate_xml assembled_fs (py "9901.001")
       = before ++ py "<Abstract></Abstract>" ++ after.
Proof.
  destruct (assembler_tolerates_missing_files assembled_fs (py "9901.001"))
    as (_ & Ha & _ & _ & _ & _ & _ & Hdoc & _).
  split; [exact (Ha eq_refl)|exact (Hdoc eq_refl)].
Defined.

End XMLFacts.
(* ------------------------------------------------------------------ *)
(** ** Marker extraction *)

Module ExtractFacts.

Lemma lstrip_length (s : str) : length (lstrip s) <= length s.
Proof.
  induction s as [|c s IH]; simpl; [lia|].
  destruct (isspace c); simpl; lia.
Qed.

Lemma strip_length (s : str) : length (strip s) <= length s.
Proof.
  unfold strip. pose proof (rstrip_length (lstrip s)).
  pose proof (lstrip_length s). lia.
Qed.

Lemma slice_length (i j : nat) (s : str) :
  length (slice i j s) <= length s - j.
Proof.
  unfold slice. rewrite length_skipn, length_firstn. lia.
Qed.

(** A fixed-offset slice with a positive end offset returns its argument
    only on the empty string. *)
Lemma slice_extract_fixed (i j : nat) (v : str) :
  0 < j -> (strip (slice i j v) = v <-> v = []).
Proof.
  intros Hj. split.
  - intros H. destruct v as [|c v]; [reflexivity|exfalso].
    pose proof (strip_length (slice i j (c :: v))) as H1.
    pose proof (slice_length i j (c :: v)) as H2.
    rewrite H in H1.
    remember (length (slice i j (c :: v))) as n.
    cbn [length] in H1, H2. lia.
  - intros ->. unfold slice. cbn [length Nat.sub firstn].
    now rewrite skipn_nil.
Qed.

Lemma find_none_existsb (pats : list str) (s : str) :
  existsb (startswith s) pats = false -> find (startswith s) pats = None.
Proof.
  induction pats as [|p pats IH]; simpl; [reflexivity|].
  destruct (startswith s p); [discriminate|exact IH].
Qed.

(** Without an occurrence of an alternative, [re.sub] changes nothing. *)
Lemma re_sub_no_marker (pats : list str) (s : str) :
  contains_any pats s = false -> re_sub pats s = s.
Proof.
  unfold re_sub. induction s as [|c s IH]; intros H; [reflexivity|].
  cbn [contains_any] in H. apply orb_false_iff in H as [H1 H2].
  cbn [re_sub_aux]. rewrite (find_none_existsb _ _ H1).
  now rewrite IH.
Qed.

(** C9, as the code has it: the regex-based removal followed by trimming
    returns a value unchanged when the value is trimmed and holds no marker,
    and so it is idempotent wherever its result holds no marker; the
    fixed-offset slices [[9:-10]], [[13:-14]] and [[6:-7]] return their
    argument unchanged on the empty string only. *)
Theorem extraction_idempotence :
  (forall (pats : list str) (v : str),
     contains_any pats v = false -> strip v = v ->
     strip (re_sub pats v) = v)
  /\ (forall (pats : list str) (x : str),
        contains_any pats (strip (re_sub pats x)) = false ->
        strip (re_sub pats (strip (re_sub pats x))) = strip (re_sub pats x))
  /\ (forall (fs : FS) (paper_id : str) (data : TitleArtifact),
        get (title_dir fs) paper_id = Some data ->
        contains_any [py "<title>"; py "</title>"] (title data) = false ->
        strip (title data) = title data ->
        XMLPaperGenerator._read_title fs paper_id = title data)
  /\ (forall v : str, ContentAgent.extract_content v = v <-> v = [])
  /\ (forall v : str, SubsectionAgent.extract_content v = v <-> v = [])
  /\ (forall v : str,
        ReferenceSelectionAgent.extract_content v = v <-> v = []).
Proof.
  assert (H1 : forall (pats : list str) (v : str),
             contains_any pats v = false -> strip v = v ->
             strip (re_sub pats v) = v).
  { intros pats v Hm Hs. now rewrite (re_sub_no_marker _ _ Hm). }
  split; [exact H1|]. split; [|split; [|split; [|split]]].
  - intros pats x Hm. apply H1; [exact Hm|apply strip_idem].
  - intros fs paper_id data Hget Hm Hs.
    unfold XMLPaperGenerator._read_title, open_file. rewrite Hget.
    cbn [catch]. now apply H1.
  - intros v. apply slice_extract_fixed. lia.
  - intros v. apply slice_extract_fixed. lia.
  - intros v. apply slice_extract_fixed. lia.
Qed.

(** The title of the scenario, read back from its stored, stripped form. *)
Lemma extraction_idempotence_witness :
  strip (re_sub [py "<title>"; py "</title>"] (py "A Survey of X"))
  = py "A Survey of X".
Proof.
  exact (proj1 extraction_idempotence [py "<title>"; py "</title>"]
           (py "A Survey of X") eq_refl eq_refl).
Defined.

(** C9 as stated fails for the slice-based removal: applied again to the
    payload it has extracted, it cuts 9 characters from the front and 10
    from the end. *)
Lemma content_slice_not_idempotent :
  let v :=
    ContentAgent.extract_content
      (py "<content>Transformers changed language processing [1].</content>")
  in
  v = py "Transformers changed language processing [1]."
  /\ ContentAgent.extract_content v = py "ers changed language proce"
  /\ ContentAgent.extract_content v <> v.
Proof.
  vm_compute. repeat split; discriminate.
Qed.

End ExtractFacts.
(* ------------------------------------------------------------------ *)
(** ** Lines and trimming *)

Module TextFacts.
Import TrainTestSplit (unlines).

Lemma rstrip_cons_nonspace (c : ascii) (s : str) :
  isspace c = false -> rstrip (c :: s) = c :: rstrip s.
Proof.
  intros Hc. cbn [rstrip]. destruct (rstrip s); [now rewrite Hc|reflexivity].
Qed.

Lemma rstrip_nil_iff (s : str) :
  rstrip s = [] <-> forallb isspace s = true.
Proof.
  induction s as [|c s IH]; cbn [rstrip forallb]; [tauto|].
  destruct (rstrip s) as [|d r] eqn:E.
  - destruct (isspace c); cbn [andb].
    + split; [intros _; now apply IH|reflexivity].
    + split; discriminate.
  - split; [discriminate|].
    intros H. apply andb_true_iff in H as [_ H]. apply IH in H. discriminate.
Qed.

Lemma lstrip_nil_iff (s : str) :
  lstrip s = [] <-> forallb isspace s = true.
Proof.
  induction s as [|c s IH]; cbn [lstrip forallb]; [tauto|].
  destruct (isspace c); cbn [andb]; [exact IH|].
  split; discriminate.
Qed.

(** Trimming the two ends commutes. *)
Lemma lstrip_rstrip_comm (s : str) : lstrip (rstrip s) = rstrip (lstrip s).
Proof.
  induction s as [|c s IH]; [reflexivity|].
  destruct (isspace c) eqn:Hc.
  - cbn [lstrip]. rewrite Hc. cbn [rstrip].
    destruct (rstrip s) as [|d r] eqn:E.
    + rewrite Hc. cbn [lstrip].
      apply rstrip_nil_iff in E. apply lstrip_nil_iff in E.
      now rewrite E.
    + cbn [lstrip]. rewrite Hc. exact IH.
  - cbn [lstrip]. rewrite Hc.
    rewrite (@rstrip_cons_nonspace c s Hc). cbn [lstrip]. now rewrite Hc.
Qed.

Lemma strip_nil_iff (s : str) : strip s = [] <-> forallb isspace s = true.
Proof.
  unfold strip. rewrite <- lstrip_rstrip_comm. rewrite lstrip_nil_iff.
  split.
  - intros H. apply rstrip_nil_iff.
    destruct (rstrip s) as [|d r] eqn:E; [reflexivity|].
    exfalso.
    assert (Hd : isspace d = true).
    { cbn [forallb] in H. now apply andb_true_iff in H as [H _]. }
    assert (Hfix : rstrip (d :: r) = d :: r) by (rewrite <- E; apply rstrip_idem).
    assert (Hall : forallb isspace (d :: r) = true) by exact H.
    apply rstrip_nil_iff in Hall. congruence.
  - intros H. apply rstrip_nil_iff in H. now rewrite H.
Qed.

Lemma strip_cons_space (c : ascii) (s : str) :
  isspace c = true -> strip (c :: s) = strip s.
Proof. intros Hc. unfold strip. cbn [lstrip]. now rewrite Hc. Qed.

Lemma strip_cons_nonspace (c : ascii) (s : str) :
  isspace c = false -> strip (c :: s) = c :: rstrip s.
Proof.
  intros Hc. unfold strip. cbn [lstrip]. rewrite Hc.
  now apply rstrip_cons_nonspace.
Qed.

Lemma strip_rstrip (s : str) : strip (rstrip s) = strip s.
Proof.
  unfold strip. rewrite lstrip_rstrip_comm. apply rstrip_idem.
Qed.

Lemma startswith_nil (s : str) : startswith s [] = true.
Proof. now destruct s. Qed.

Lemma split_line (line rest : str) :
  TitleAgent.no_newline line = true ->
  split [nl] (line ++ nl :: rest) = line :: split [nl] rest.
Proof.
  unfold split. induction line as [|c line IH]; intros H.
  - cbn [app split_aux startswith]. rewrite Ascii.eqb_refl, startswith_nil.
    reflexivity.
  - cbn [TitleAgent.no_newline forallb] in H.
    apply andb_true_iff in H as [Hc H].
    cbn [app split_aux startswith].
    assert (E : Ascii.eqb nl c = false).
    { rewrite Ascii.eqb_sym. now apply negb_true_iff. }
    rewrite E. cbn [andb]. unfold TitleAgent.no_newline in IH.
    rewrite (IH H). reflexivity.
Qed.

(** Splitting at newlines gives the lines back, and an empty last piece. *)
Lemma split_unlines (lines : list str) :
  forallb TitleAgent.no_newline lines = true ->
  split [nl] (unlines lines) = lines ++ [[]].
Proof.
  induction lines as [|line lines IH]; intros H; [reflexivity|].
  cbn [forallb] in H. apply andb_true_iff in H as [Hl H].
  unfold unlines in *. cbn [map concat app].
  rewrite <- app_assoc. cbn [app].
  rewrite (@split_line line _ Hl). now rewrite (IH H).
Qed.

End TextFacts.
(* ------------------------------------------------------------------ *)
(** ** The corpus text file (traintestsplit.py) and its readers *)

Module SplitFacts.
Import TrainTestSplit TextFacts.
Import TitleAgent (no_newline, nonempty, no_section, in_subjects,
                   in_references).

Lemma unlines_app (a b : list str) : unlines (a ++ b) = unlines a ++ unlines b.
Proof. unfold unlines. now rewrite map_app, concat_app. Qed.

Lemma unlines_reference_lines (references : list ref_entry) :
  unlines (flat_map reference_lines references)
  = concat (map reference_block references).
Proof.
  induction references as [|r rs IH]; [reflexivity|].
  cbn [flat_map map concat]. rewrite unlines_app, IH. f_equal.
  unfold unlines, reference_lines, reference_block. cbn [map concat].
  rewrite <- !app_assoc. reflexivity.
Qed.

(** The text written is the lines of [corpus_lines], each closed by a
    newline. *)
Lemma save_as_lines (subjects : list str) (references : list ref_entry) :
  save_references_and_subject_as_txt subjects references
  = unlines (corpus_lines subjects references).
Proof.
  unfold save_references_and_subject_as_txt, corpus_lines.
  rewrite !unlines_app, unlines_reference_lines.
  unfold unlines at 1 3 4. cbn [map concat]. rewrite !app_nil_r.
  rewrite <- !app_assoc. reflexivity.
Qed.

Lemma no_newline_app (a b : str) :
  no_newline (a ++ b) = no_newline a && no_newline b.
Proof. unfold no_newline. apply forallb_app. Qed.

Lemma one_line_no_newline (s : str) :
  one_line s = true -> no_newline s = true.
Proof. unfold one_line. intros H. now apply andb_true_iff in H as [H _]. Qed.

Lemma one_line_no_return (s : str) :
  one_line s = true -> no_return s = true.
Proof. unfold one_line. intros H. now apply andb_true_iff in H as [_ H]. Qed.

Lemma one_line_app (a b : str) :
  one_line a = true -> one_line b = true -> one_line (a ++ b) = true.
Proof.
  unfold one_line, no_newline, no_return. intros Ha Hb.
  apply andb_true_iff in Ha as [Ha1 Ha2]. apply andb_true_iff in Hb as [Hb1 Hb2].
  now rewrite !forallb_app, Ha1, Ha2, Hb1, Hb2.
Qed.

(** Every line of the file is one line, also when it is read back. *)
Lemma corpus_lines_one_line subjects references :
  forallb plain_subject subjects = true ->
  forallb plain_reference references = true ->
  forallb one_line (corpus_lines subjects references) = true.
Proof.
  intros Hs Hr. unfold corpus_lines. rewrite !forallb_app.
  repeat (apply andb_true_iff; split); try reflexivity.
  - apply forallb_forall. intros s Hin.
    pose proof (proj1 (forallb_forall _ _) Hs s Hin) as H.
    unfold plain_subject in H.
    apply andb_true_iff in H as [H _]. apply andb_true_iff in H as [H _].
    now apply andb_true_iff in H as [H _].
  - induction references as [|r rs IH]; [reflexivity|].
    cbn [forallb] in Hr. apply andb_true_iff in Hr as [Hp Hr].
    cbn [flat_map]. rewrite forallb_app, (IH Hr), andb_true_r.
    unfold plain_reference in Hp.
    apply andb_true_iff in Hp as [Hp Ha].
    apply andb_true_iff in Hp as [Hn Ht].
    unfold reference_lines. cbn [forallb].
    rewrite (one_line_app (py "Number: ") _ eq_refl Hn),
      (one_line_app (py "Title: ") _ eq_refl Ht),
      (one_line_app (py "Abstract: ") _ eq_refl Ha).
    reflexivity.
Qed.

Lemma corpus_lines_no_newline subjects references :
  forallb plain_subject subjects = true ->
  forallb plain_reference references = true ->
  forallb no_newline (corpus_lines subjects references) = true.
Proof.
  intros Hs Hr. apply forallb_forall. intros line Hin.
  apply one_line_no_newline.
  exact (proj1 (forallb_forall _ _) (corpus_lines_one_line _ _ Hs Hr) _ Hin).
Qed.

(** A text without a carriage return is read as it was written. *)
Lemma read_text_no_return (s : str) : no_return s = true -> read_text s = s.
Proof.
  induction s as [|c s IH]; intros H; [reflexivity|].
  cbn [no_return forallb] in H. apply andb_true_iff in H as [Hc H].
  apply negb_true_iff in Hc. cbn [read_text]. rewrite Hc.
  f_equal. now apply IH.
Qed.

Lemma no_return_unlines (lines : list str) :
  forallb no_return lines = true -> no_return (unlines lines) = true.
Proof.
  induction lines as [|line lines IH]; intros H; [reflexivity|].
  cbn [forallb] in H. apply andb_true_iff in H as [Hl H].
  unfold unlines in *. cbn [map concat].
  unfold no_return in *. rewrite !forallb_app, Hl, (IH H). reflexivity.
Qed.

(** The readers get the text of the file as the split step wrote it. *)
Lemma read_saved subjects references :
  forallb plain_subject subjects = true ->
  forallb plain_reference references = true ->
  read_text (save_references_and_subject_as_txt subjects references)
  = save_references_and_subject_as_txt subjects references.
Proof.
  intros Hs Hr. apply read_text_no_return. rewrite save_as_lines.
  apply no_return_unlines, forallb_forall. intros line Hin.
  apply one_line_no_return.
  exact (proj1 (forallb_forall _ _) (corpus_lines_one_line _ _ Hs Hr) _ Hin).
Qed.

Example read_text_ex :
  read_text (py "a" ++ [cr; cr; nl] ++ py "b" ++ [cr])
  = py "a" ++ [nl; nl] ++ py "b" ++ [nl].
Proof. reflexivity. Qed.

(** A carriage return in a subject is a line break for the readers: the
    title stage takes what follows it for the subject. *)
Example carriage_return_splits_subject :
  TitleAgent._extract_content
    (read_text
       (save_references_and_subject_as_txt [py "cs.CL" ++ [cr] ++ py "cs.AI"]
          [{| num := py "[1]"; ref_title := py "Attention";
              ref_abstract := [] |}]))
  = (py "cs.AI", py "Attention").
Proof. vm_compute. reflexivity. Qed.

(** A prefix without whitespace stays in front when a line is trimmed. *)
Lemma strip_prefixed (p x : str) :
  p <> [] -> forallb (fun c => negb (isspace c)) p = true ->
  strip (p ++ x) = p ++ rstrip x.
Proof.
  intros Hp Hall. destruct p as [|c p]; [congruence|].
  cbn [forallb] in Hall. apply andb_true_iff in Hall as [Hc Hall].
  apply negb_true_iff in Hc.
  cbn [app]. rewrite (@strip_cons_nonspace c (p ++ x) Hc). f_equal.
  induction p as [|d p IH]; [reflexivity|].
  cbn [forallb] in Hall. apply andb_true_iff in Hall as [Hd Hall].
  apply negb_true_iff in Hd. cbn [app].
  rewrite (@rstrip_cons_nonspace d (p ++ x) Hd). f_equal. now apply IH.
Qed.

(** The field after a marker and a space, as the readers cut it out. *)
Lemma strip_field (x : str) : strip (rstrip (" "%char :: x)) = strip x.
Proof. rewrite strip_rstrip. now apply strip_cons_space. Qed.

Lemma str_eqb_head (a b : ascii) (x y : str) :
  a <> b -> str_eqb (a :: x) (b :: y) = false.
Proof. intros H. apply str_eqb_neq. congruence. Qed.


(** *** The reader of title.py on the lines of the file *)

Section TitleReader.
Import TitleAgent.

Lemma title_line_blank (st : scan) : _extract_line st [] = st.
Proof. reflexivity. Qed.

Lemma title_line_subject (s0 : str) (r : list str) (s : str) :
  plain_subject s = true ->
  _extract_line {| cur := in_subjects; subject := s0; refs := r |} s
  = {| cur := in_subjects; subject := strip s; refs := r |}.
Proof.
  unfold plain_subject. intros H.
  apply andb_true_iff in H as [H H4]. apply andb_true_iff in H as [H H3].
  apply andb_true_iff in H as [_ H2].
  apply negb_true_iff in H3, H4.
  unfold _extract_line. cbv zeta. rewrite H3, H4, H2. reflexivity.
Qed.

Lemma title_line_marked (p x : str) (a : ascii) (p' : str)
    (s0 : str) (r : list str) :
  p = a :: p' ->
  forallb (fun c => negb (isspace c)) p = true ->
  a <> "S"%char -> a <> "R"%char ->
  _extract_line {| cur := in_references; subject := s0; refs := r |}
    (p ++ x)
  = if startswith (p ++ rstrip x) (py "Title:")
    then {| cur := in_references; subject := s0;
            refs := r ++ [strip (skipn 6 (p ++ rstrip x))] |}
    else {| cur := in_references; subject := s0; refs := r |}.
Proof.
  intros Hp Hall HS HR.
  assert (Hne : p <> []) by (rewrite Hp; discriminate).
  unfold _extract_line. cbv zeta. rewrite (strip_prefixed x Hne Hall).
  subst p. cbn [app].
  change (py "Subjects:") with ("S"%char :: py "ubjects:").
  change (py "References:") with ("R"%char :: py "eferences:").
  rewrite (@str_eqb_head a "S" _ _ HS), (@str_eqb_head a "R" _ _ HR).
  reflexivity.
Qed.

Lemma title_line_number s0 r (x : str) :
  _extract_line {| cur := in_references; subject := s0; refs := r |}
    (py "Number: " ++ x)
  = {| cur := in_references; subject := s0; refs := r |}.
Proof.
  change (py "Number: " ++ x) with (py "Number:" ++ " "%char :: x).
  rewrite (@title_line_marked (py "Number:") _ "N" (py "umber:"));
    try reflexivity; discriminate.
Qed.

Lemma title_line_abstract s0 r (x : str) :
  _extract_line {| cur := in_references; subject := s0; refs := r |}
    (py "Abstract: " ++ x)
  = {| cur := in_references; subject := s0; refs := r |}.
Proof.
  change (py "Abstract: " ++ x) with (py "Abstract:" ++ " "%char :: x).
  rewrite (@title_line_marked (py "Abstract:") _ "A" (py "bstract:"));
    try reflexivity; discriminate.
Qed.

Lemma title_line_title s0 r (x : str) :
  _extract_line {| cur := in_references; subject := s0; refs := r |}
    (py "Title: " ++ x)
  = {| cur := in_references; subject := s0; refs := r ++ [strip x] |}.
Proof.
  change (py "Title: " ++ x) with (py "Title:" ++ " "%char :: x).
  rewrite (@title_line_marked (py "Title:") _ "T" (py "itle:"));
    try reflexivity; try discriminate.
  rewrite startswith_app.
  change (skipn 6 (py "Title:" ++ rstrip (" "%char :: x)))
    with (rstrip (" "%char :: x)).
  now rewrite strip_field.
Qed.

Lemma last_default {A} (l : list A) :
  forall a d d', last (a :: l) d = last (a :: l) d'.
Proof.
  induction l as [|b l IH]; intros a d d'; [reflexivity|].
  change (last (b :: l) d = last (b :: l) d'). apply IH.
Qed.

Lemma title_fold_subjects (subjects : list str) :
  forall (s0 : str) (r : list str),
    forallb plain_subject subjects = true ->
    fold_left _extract_line subjects
      {| cur := in_subjects; subject := s0; refs := r |}
    = {| cur := in_subjects; subject := last (map strip subjects) s0;
         refs := r |}.
Proof.
  induction subjects as [|s subjects IH]; intros s0 r H; [reflexivity|].
  cbn [forallb] in H. apply andb_true_iff in H as [Hs H].
  cbn [fold_left]. rewrite (@title_line_subject s0 r s Hs).
  rewrite (IH _ _ H). f_equal.
  destruct subjects as [|s1 subjects]; [reflexivity|].
  cbn [map]. rewrite (last_default _ (strip s1) (strip s) s0). reflexivity.
Qed.

Lemma title_fold_references (references : list ref_entry) :
  forall (s0 : str) (r : list str),
    fold_left _extract_line (flat_map reference_lines references)
      {| cur := in_references; subject := s0; refs := r |}
    = {| cur := in_references; subject := s0;
         refs := r ++ map (fun ref => strip (ref_title ref)) references |}.
Proof.
  induction references as [|ref references IH]; intros s0 r.
  - cbn [flat_map fold_left map]. now rewrite app_nil_r.
  - cbn [flat_map reference_lines app fold_left].
    rewrite title_line_number, title_line_title, title_line_abstract,
      title_line_blank.
    rewrite IH. cbn [map]. now rewrite <- app_assoc.
Qed.
End TitleReader.


(** X1: the title stage reads back from the corpus text file what the split
    step wrote into it: the last of the subjects and the titles of the
    references, trimmed, one per line and in order.  The subjects and the
    fields of the references hold no newline and no carriage return: either
    one is a line break in the text as [f.read()] returns it. *)
Theorem corpus_file_read_by_title_stage
    (subjects : list str) (references : list ref_entry) :
  forallb plain_subject subjects = true ->
  forallb plain_reference references = true ->
  TitleAgent._extract_content
    (read_text (save_references_and_subject_as_txt subjects references))
  = (last (map strip subjects) [],
     join [nl] (map (fun ref => strip (ref_title ref)) references)).
Proof.
  intros Hs Hr. rewrite (read_saved _ _ Hs Hr).
  unfold TitleAgent._extract_content. cbv zeta.
  rewrite save_as_lines, (split_unlines _ (corpus_lines_no_newline _ _ Hs Hr)).
  unfold corpus_lines. rewrite <- !app_assoc, !fold_left_app.
  cbn [fold_left].
  change (TitleAgent._extract_line
            {| TitleAgent.cur := no_section; TitleAgent.subject := [];
               TitleAgent.refs := [] |} (py "Subjects:"))
    with {| TitleAgent.cur := in_subjects; TitleAgent.subject := [];
            TitleAgent.refs := [] |}.
  rewrite (title_fold_subjects _ _ _ Hs), !title_line_blank.
  change (TitleAgent._extract_line
            {| TitleAgent.cur := in_subjects;
               TitleAgent.subject := last (map strip subjects) [];
               TitleAgent.refs := [] |} (py "References:"))
    with {| TitleAgent.cur := in_references;
            TitleAgent.subject := last (map strip subjects) [];
            TitleAgent.refs := [] |}.
  rewrite title_fold_references. reflexivity.
Qed.

Lemma corpus_file_read_by_title_stage_witness :
  TitleAgent._extract_content
    (read_text
       (save_references_and_subject_as_txt [py "cs.AI"; py " cs.CL "]
          [{| num := py "[1]"; ref_title := py "Attention ";
              ref_abstract := py "On attention." |};
           {| num := py "[2]"; ref_title := py "Transformers";
              ref_abstract := [] |}]))
  = (py "cs.CL", join [nl] [py "Attention"; py "Transformers"]).
Proof.
  exact (@corpus_file_read_by_title_stage [py "cs.AI"; py " cs.CL "]
           [{| num := py "[1]"; ref_title := py "Attention ";
               ref_abstract := py "On attention." |};
            {| num := py "[2]"; ref_title := py "Transformers";
               ref_abstract := [] |}] eq_refl eq_refl).
Defined.

(** *** The reader of outline.py on the lines of the file *)

Section OutlineReader.
Import OutlineAgent.

Lemma extract_lines_app (a b : list str) :
  forall st,
    _extract_lines st (a ++ b)
    = match _extract_lines st a with
      | Ok st' => _extract_lines st' b
      | Raise => Raise
      end.
Proof.
  induction a as [|l a IH]; intros st; [reflexivity|].
  cbn [app _extract_lines]. destruct (_extract_line st l); [apply IH|easy].
Qed.

Lemma append_to_last_snoc (l : list str) (x suffix : str) :
  append_to_last (l ++ [x]) suffix = Ok (l ++ [x ++ suffix]).
Proof.
  induction l as [|y l IH]; [reflexivity|].
  cbn [app append_to_last]. rewrite IH.
  destruct l; reflexivity.
Qed.

Lemma outline_line_subject (s0 : str) (r : list str) (s : str) :
  plain_subject s = true ->
  _extract_line {| cur := in_subjects; subject := s0; refs := r |} s
  = Ok {| cur := in_subjects; subject := strip s; refs := r |}.
Proof.
  unfold plain_subject. intros H.
  apply andb_true_iff in H as [H H4]. apply andb_true_iff in H as [H H3].
  apply andb_true_iff in H as [_ H2].
  apply negb_true_iff in H3, H4.
  unfold _extract_line. cbv zeta. rewrite H3, H4, H2. reflexivity.
Qed.

Lemma outline_line_marked (p x : str) (a : ascii) (p' : str)
    (s0 : str) (r : list str) :
  p = a :: p' ->
  forallb (fun c => negb (isspace c)) p = true ->
  a <> "S"%char -> a <> "R"%char ->
  let line := p ++ rstrip x in
  let st := {| cur := in_references; subject := s0; refs := r |} in
  _extract_line st (p ++ x)
  = if startswith line (py "Title:")
    then Ok {| cur := in_references; subject := s0;
               refs := r ++ [strip (skipn 6 line)] |}
    else if startswith line (py "Abstract:")
    then match append_to_last r
                 ([nl] ++ py "Abstract: " ++ strip (skipn 9 line)) with
         | Ok refs' =>
             Ok {| cur := in_references; subject := s0; refs := refs' |}
         | Raise => Raise
         end
    else Ok st.
Proof.
  intros Hp Hall HS HR line st.
  assert (Hne : p <> []) by (rewrite Hp; discriminate).
  unfold _extract_line. cbv zeta. rewrite (strip_prefixed x Hne Hall).
  subst line st p. cbn [app].
  change (py "Subjects:") with ("S"%char :: py "ubjects:").
  change (py "References:") with ("R"%char :: py "eferences:").
  rewrite (@str_eqb_head a "S" _ _ HS), (@str_eqb_head a "R" _ _ HR).
  reflexivity.
Qed.

Lemma outline_line_number s0 r (x : str) :
  _extract_line {| cur := in_references; subject := s0; refs := r |}
    (py "Number: " ++ x)
  = Ok {| cur := in_references; subject := s0; refs := r |}.
Proof.
  change (py "Number: " ++ x) with (py "Number:" ++ " "%char :: x).
  rewrite (@outline_line_marked (py "Number:") _ "N" (py "umber:"));
    try reflexivity; discriminate.
Qed.

Lemma outline_line_title s0 r (x : str) :
  _extract_line {| cur := in_references; subject := s0; refs := r |}
    (py "Title: " ++ x)
  = Ok {| cur := in_references; subject := s0; refs := r ++ [strip x] |}.
Proof.
  change (py "Title: " ++ x) with (py "Title:" ++ " "%char :: x).
  rewrite (@outline_line_marked (py "Title:") _ "T" (py "itle:"));
    try reflexivity; try discriminate.
  cbv zeta. rewrite startswith_app.
  change (skipn 6 (py "Title:" ++ rstrip (" "%char :: x)))
    with (rstrip (" "%char :: x)).
  now rewrite strip_field.
Qed.

Lemma outline_line_abstract s0 (r : list str) (t x : str) :
  _extract_line {| cur := in_references; subject := s0; refs := r ++ [t] |}
    (py "Abstract: " ++ x)
  = Ok {| cur := in_references; subject := s0;
          refs := r ++ [t ++ [nl] ++ py "Abstract: " ++ strip x] |}.
Proof.
  change (py "Abstract: " ++ x) with (py "Abstract:" ++ " "%char :: x).
  rewrite (@outline_line_marked (py "Abstract:") _ "A" (py "bstract:"));
    try reflexivity; try discriminate.
  cbv zeta.
  change (startswith (py "Abstract:" ++ rstrip (" "%char :: x))
            (py "Title:")) with false.
  cbv iota. rewrite startswith_app.
  change (skipn 9 (py "Abstract:" ++ rstrip (" "%char :: x)))
    with (rstrip (" "%char :: x)).
  rewrite strip_field, append_to_last_snoc. reflexivity.
Qed.

Lemma outline_line_blank (st : scan) : _extract_line st [] = Ok st.
Proof. reflexivity. Qed.

Lemma outline_block (ref : ref_entry) (s0 : str) (r : list str) :
  _extract_lines {| cur := in_references; subject := s0; refs := r |}
    (reference_lines ref)
  = Ok {| cur := in_references; subject := s0;
          refs := r ++ [strip (ref_title ref) ++ [nl] ++ py "Abstract: "
                        ++ strip (ref_abstract ref)] |}.
Proof.
  unfold reference_lines. cbn [_extract_lines].
  rewrite outline_line_number. cbv iota beta.
  rewrite outline_line_title. cbv iota beta.
  rewrite outline_line_abstract. cbv iota beta.
  rewrite outline_line_blank. reflexivity.
Qed.

Lemma outline_fold_subjects (subjects : list str) :
  forall (s0 : str) (r : list str),
    forallb plain_subject subjects = true ->
    _extract_lines {| cur := in_subjects; subject := s0; refs := r |} subjects
    = Ok {| cur := in_subjects; subject := last (map strip subjects) s0;
            refs := r |}.
Proof.
  induction subjects as [|s subjects IH]; intros s0 r H; [reflexivity|].
  cbn [forallb] in H. apply andb_true_iff in H as [Hs H].
  cbn [_extract_lines]. rewrite (@outline_line_subject s0 r s Hs).
  rewrite (IH _ _ H). do 2 f_equal.
  destruct subjects as [|s1 subjects]; [reflexivity|].
  cbn [map]. rewrite (last_default _ (strip s1) (strip s) s0). reflexivity.
Qed.

Lemma outline_fold_references (references : list ref_entry) :
  forall (s0 : str) (r : list str),
    _extract_lines {| cur := in_references; subject := s0; refs := r |}
      (flat_map reference_lines references)
    = Ok {| cur := in_references; subject := s0;
            refs := r ++ map (fun ref => strip (ref_title ref) ++ [nl]
                                         ++ py "Abstract: "
                                         ++ strip (ref_abstract ref))
                           references |}.
Proof.
  induction references as [|ref references IH]; intros s0 r.
  - cbn [flat_map _extract_lines map]. now rewrite app_nil_r.
  - cbn [flat_map]. rewrite extract_lines_app, outline_block, IH.
    cbn [map]. now rewrite <- app_assoc.
Qed.
End OutlineReader.

(** X2: the outline stage reads the same file without an exception, and
    gets each title followed by its abstract line: when the subjects and
    the fields of the references hold no newline and no carriage return,
    the file the split step writes has no abstract line before the first
    title. *)
Theorem corpus_file_read_by_outline_stage
    (subjects : list str) (references : list ref_entry) :
  forallb plain_subject subjects = true ->
  forallb plain_reference references = true ->
  OutlineAgent._extract_content
    (read_text (save_references_and_subject_as_txt subjects references))
  = Ok (last (map strip subjects) [],
        join [nl]
          (map (fun ref => strip (ref_title ref) ++ [nl] ++ py "Abstract: "
                           ++ strip (ref_abstract ref)) references)).
Proof.
  intros Hs Hr. rewrite (read_saved _ _ Hs Hr).
  unfold OutlineAgent._extract_content.
  rewrite save_as_lines, (split_unlines _ (corpus_lines_no_newline _ _ Hs Hr)).
  unfold corpus_lines. rewrite <- !app_assoc.
  cbn [app OutlineAgent._extract_lines].
  change (OutlineAgent._extract_line
            {| OutlineAgent.cur := no_section; OutlineAgent.subject := [];
               OutlineAgent.refs := [] |} (py "Subjects:"))
    with (Ok {| OutlineAgent.cur := in_subjects; OutlineAgent.subject := [];
                OutlineAgent.refs := [] |}).
  cbv iota beta.
  rewrite extract_lines_app, (outline_fold_subjects _ _ _ Hs).
  cbn [app OutlineAgent._extract_lines].
  change (OutlineAgent._extract_line
            {| OutlineAgent.cur := in_subjects;
               OutlineAgent.subject := last (map strip subjects) [];
               OutlineAgent.refs := [] |} [])
    with (Ok {| OutlineAgent.cur := in_subjects;
                OutlineAgent.subject := last (map strip subjects) [];
                OutlineAgent.refs := [] |}).
  cbv iota beta.
  change (OutlineAgent._extract_line
            {| OutlineAgent.cur := in_subjects;
               OutlineAgent.subject := last (map strip subjects) [];
               OutlineAgent.refs := [] |} (py "References:"))
    with (Ok {| OutlineAgent.cur := in_references;
                OutlineAgent.subject := last (map strip subjects) [];
                OutlineAgent.refs := [] |}).
  cbv iota beta.
  rewrite extract_lines_app, outline_fold_references.
  reflexivity.
Qed.

Lemma corpus_file_read_by_outline_stage_witness :
  OutlineAgent._extract_content
    (read_text
       (save_references_and_subject_as_txt [py "cs.CL"]
          [{| num := py "[1]"; ref_title := py "Attention";
              ref_abstract := py "On attention." |}]))
  = Ok (py "cs.CL", py "Attention" ++ [nl] ++ py "Abstract: On attention.").
Proof.
  exact (@corpus_file_read_by_outline_stage [py "cs.CL"]
           [{| num := py "[1]"; ref_title := py "Attention";
               ref_abstract := py "On attention." |}] eq_refl eq_refl).
Defined.

(** *** The paper identifier of a file name *)

Lemma span_digits_app (d r : str) :
  forallb isdigit d = true ->
  match r with [] => True | c :: _ => isdigit c = false end ->
  span_digits (d ++ r) = (d, r).
Proof.
  intros Hd Hr. induction d as [|c d IH].
  - destruct r as [|c r]; [reflexivity|]. cbn [app span_digits].
    now rewrite Hr.
  - cbn [forallb] in Hd. apply andb_true_iff in Hd as [Hc Hd].
    cbn [app span_digits]. now rewrite Hc, (IH Hd).
Qed.

Lemma search_skip (c : ascii) (s : str) :
  isdigit c = false -> search_paper_id (c :: s) = search_paper_id s.
Proof.
  intros Hc. cbn [search_paper_id]. unfold match_id_here at 1.
  cbn [span_digits]. now rewrite Hc.
Qed.

Lemma search_skip_all (pre s : str) :
  forallb (fun c => negb (isdigit c)) pre = true ->
  search_paper_id (pre ++ s) = search_paper_id s.
Proof.
  induction pre as [|c pre IH]; intros H; [reflexivity|].
  cbn [forallb] in H. apply andb_true_iff in H as [Hc H].
  apply negb_true_iff in Hc. cbn [app].
  now rewrite (@search_skip c _ Hc), (IH H).
Qed.

Lemma match_id_found (d1 d2 post : str) :
  d1 <> [] -> d2 <> [] ->
  forallb isdigit d1 = true -> forallb isdigit d2 = true ->
  match post with [] => True | c :: _ => isdigit c = false end ->
  match_id_here (d1 ++ py "." ++ d2 ++ post) = Some (d1 ++ py "." ++ d2).
Proof.
  intros N1 N2 H1 H2 Hp. unfold match_id_here.
  rewrite (@span_digits_app d1 (py "." ++ d2 ++ post) H1) by reflexivity.
  destruct d1 as [|a d1]; [congruence|].
  cbn [py list_ascii_of_string app]. rewrite Ascii.eqb_refl.
  rewrite (@span_digits_app d2 post H2 Hp).
  destruct d2 as [|b d2]; [congruence|]. reflexivity.
Qed.

Lemma train_file_name_id (d1 d2 : str) :
  d1 <> [] -> d2 <> [] ->
  forallb isdigit d1 = true -> forallb isdigit d2 = true ->
  search_paper_id (train_file_name (d1 ++ py "." ++ d2))
  = Some (d1 ++ py "." ++ d2)
  /\ endswith (train_file_name (d1 ++ py "." ++ d2)) (py ".json") = true.
Proof.
  intros N1 N2 H1 H2. split.
  - unfold train_file_name.
    rewrite (@search_skip_all (py "train")) by reflexivity.
    rewrite <- !app_assoc.
    destruct d1 as [|a d1]; [congruence|].
    cbn [app search_paper_id].
    change (a :: d1 ++ py "." ++ d2 ++ py ".content.ref.json")
      with ((a :: d1) ++ py "." ++ d2 ++ py ".content.ref.json").
    now rewrite (@match_id_found _ _ (py ".content.ref.json") N1 N2 H1 H2
                   eq_refl).
  - apply endswith_spec.
    exists (py "train" ++ (d1 ++ py "." ++ d2) ++ py ".content.ref").
    unfold train_file_name. rewrite <- !app_assoc. reflexivity.
Qed.

Lemma process_json_files_app (a b : list (str * RawRecord)) :
  forall test,
    process_json_files test (a ++ b)
    = match process_json_files test a with
      | (test', Ok _) => process_json_files test' b
      | (test', Raise) => (test', Raise)
      end.
Proof.
  induction a as [|file a IH]; intros test; [reflexivity|].
  cbn [app process_json_files].
  destruct (process_json_file test file) as [test1|]; [apply IH|reflexivity].
Qed.

(** The files after the last one written under an identifier leave its
    text alone. *)
Lemma process_json_files_other (paper_id : str)
    (files : list (str * RawRecord)) :
  forall test test',
    (forall name data,
       In (name, data) files -> endswith name (py ".json") = true ->
       search_paper_id name <> Some paper_id) ->
    process_json_files test files = (test', Ok tt) ->
    get test' paper_id = get test paper_id.
Proof.
  induction files as [|[name data] files IH]; intros test test' Hno H.
  - injection H as <-. reflexivity.
  - cbn [process_json_files] in H.
    destruct (process_json_file test (name, data)) as [test1|] eqn:E;
      [|discriminate].
    rewrite (IH test1 test');
      [|intros n d Hin; apply (Hno n d); now right|exact H].
    unfold process_json_file in E.
    destruct (endswith name (py ".json")) eqn:Hend;
      [|now injection E as <-].
    destruct (extract_references_and_subject data) as [[subjects refs]|];
      [|discriminate].
    destruct (search_paper_id name) as [other|] eqn:Hid;
      [|now injection E as <-].
    injection E as <-. apply get_set_other. intros ->.
    now apply (Hno name data (or_introl eq_refl) Hend).
Qed.

(** X3: in a run of the split step that goes through the whole listing, a
    file named [train<id>.content.ref.json], with [id] two runs of digits
    around a dot, is written out under that [id], the identifier under
    which the assembler opens the file; the text is the one under [id]
    when the run is over, unless a later file of the listing has the same
    leftmost match. *)
Theorem split_files_text_under_paper_id
    (test test' : dict str) (earlier later : list (str * RawRecord))
    (data : RawRecord) (d1 d2 : str)
    (subjects : list str) (references : list ref_entry) :
  d1 <> [] -> d2 <> [] ->
  forallb isdigit d1 = true -> forallb isdigit d2 = true ->
  let paper_id := d1 ++ py "." ++ d2 in
  extract_references_and_subject data = Ok (subjects, references) ->
  (forall name data',
     In (name, data') later -> endswith name (py ".json") = true ->
     search_paper_id name <> Some paper_id) ->
  process_json_files test
    (earlier ++ (train_file_name paper_id, data) :: later) = (test', Ok tt) ->
  search_paper_id (train_file_name paper_id) = Some paper_id
  /\ get test' paper_id
     = Some (save_references_and_subject_as_txt subjects references).
Proof.
  intros N1 N2 H1 H2 paper_id He Hno Hrun.
  destruct (train_file_name_id N1 N2 H1 H2) as [Hid Hend].
  fold paper_id in Hid, Hend. split; [exact Hid|].
  rewrite process_json_files_app in Hrun.
  destruct (process_json_files test earlier) as [test0 [[]|]];
    [|discriminate].
  cbn [process_json_files] in Hrun. unfold process_json_file in Hrun.
  rewrite Hend, He, Hid in Hrun.
  rewrite (process_json_files_other _ _ Hno Hrun).
  apply get_set_same.
Qed.

Lemma split_files_text_under_paper_id_witness :
  get (fst (process_json_files [(py "0000.1", py "kept")]
              [(py "notes.txt",
                {| raw_subject := None; raw_reference := None;
                   raw_reference_content := None |});
               (py "train2002.00564.content.ref.json",
                {| raw_subject := Some [py "cs.CL"];
                   raw_reference := Some [ref_str (py "Attention")];
                   raw_reference_content := None |});
               (py "train2003.1.content.ref.json",
                {| raw_subject := None; raw_reference := None;
                   raw_reference_content := None |})]))
    (py "2002.00564")
  = Some (save_references_and_subject_as_txt [py "cs.CL"]
            [{| num := py "[1]"; ref_title := py "Attention";
                ref_abstract := [] |}]).
Proof.
  refine (proj2 (@split_files_text_under_paper_id
                   [(py "0000.1", py "kept")] _
                   [(py "notes.txt",
                     {| raw_subject := None; raw_reference := None;
                        raw_reference_content := None |})]
                   [(py "train2003.1.content.ref.json",
                     {| raw_subject := None; raw_reference := None;
                        raw_reference_content := None |})]
                   {| raw_subject := Some [py "cs.CL"];
                      raw_reference := Some [ref_str (py "Attention")];
                      raw_reference_content := None |}
                   (py "2002") (py "00564") [py "cs.CL"]
                   [{| num := py "[1]"; ref_title := py "Attention";
                       ref_abstract := [] |}]
                   ltac:(discriminate) ltac:(discriminate)
                   eq_refl eq_refl eq_refl _ _)).
  - intros name data' [H|[]] _. injection H as <- _. vm_compute. discriminate.
  - vm_compute. reflexivity.
Defined.

(** A later file of the listing with the same leftmost match replaces the
    text. *)
Example later_version_replaces_text :
  search_paper_id (py "train2002.00564v2.content.ref.json")
  = Some (py "2002.00564")
  /\ get (fst (process_json_files []
                 [(py "train2002.00564.content.ref.json",
                   {| raw_subject := Some [py "cs.CL"];
                      raw_reference := None;
                      raw_reference_content := None |});
                  (py "train2002.00564v2.content.ref.json",
                   {| raw_subject := Some [py "cs.AI"];
                      raw_reference := None;
                      raw_reference_content := None |})]))
       (py "2002.00564")
     = Some (save_references_and_subject_as_txt [py "cs.AI"] []).
Proof. split; vm_compute; reflexivity. Qed.

(** *** Entries of [reference_content] without a number *)

Lemma content_map_of_raise (items : list RefContent) :
  forall acc,
    existsb (fun item => match reference_num item with
                         | None => true
                         | Some _ => false
                         end) items = true ->
    XMLPaperGenerator.content_map_of items acc = Raise.
Proof.
  induction items as [|item items IH]; intros acc H; [discriminate|].
  cbn [existsb] in H. cbn [XMLPaperGenerator.content_map_of].
  destruct (reference_num item); [|reflexivity].
  cbn [orb] in H. now apply IH.
Qed.

(** X4: a record with an entry of [reference_content] that has no
    [reference_num] ends the split step with an exception: nothing is
    written for that file nor for any file after it, whatever they hold. *)
Theorem split_stops_at_unnumbered_entry
    (test : dict str) (file_name : str) (data : RawRecord)
    (items : list RefContent) (later : list (str * RawRecord)) :
  endswith file_name (py ".json") = true ->
  raw_reference_content data = Some items ->
  existsb (fun item => match reference_num item with
                       | None => true
                       | Some _ => false
                       end) items = true ->
  extract_references_and_subject data = Raise
  /\ process_json_files test ((file_name, data) :: later) = (test, Raise).
Proof.
  intros Hend Hitems Hex.
  assert (He : extract_references_and_subject data = Raise).
  { unfold extract_references_and_subject. rewrite Hitems.
    cbn [XMLPaperGenerator.default].
    now rewrite (@content_map_of_raise _ _ Hex). }
  split; [exact He|].
  cbn [process_json_files]. unfold process_json_file.
  now rewrite Hend, He.
Qed.

Lemma split_stops_at_unnumbered_entry_witness :
  process_json_files [(py "0000.1", py "kept")]
    [(py "train2002.00564.content.ref.json",
      {| raw_subject := Some [py "cs.CL"];
         raw_reference := Some [ref_str (py "Attention")];
         raw_reference_content :=
           Some [{| reference_num := None;
                    reference_abstract := Some (py "On attention.") |}] |});
     (py "train2003.1.content.ref.json",
      {| raw_subject := None; raw_reference := None;
         raw_reference_content := None |})]
  = ([(py "0000.1", py "kept")], Raise).
Proof.
  exact (proj2 (@split_stops_at_unnumbered_entry [(py "0000.1", py "kept")]
                  (py "train2002.00564.content.ref.json")
                  {| raw_subject := Some [py "cs.CL"];
                     raw_reference := Some [ref_str (py "Attention")];
                     raw_reference_content :=
                       Some [{| reference_num := None;
                                reference_abstract :=
                                  Some (py "On attention.") |}] |}
                  [{| reference_num := None;
                      reference_abstract := Some (py "On attention.") |}]
                  [(py "train2003.1.content.ref.json",
                    {| raw_subject := None; raw_reference := None;
                       raw_reference_content := None |})]
                  eq_refl eq_refl eq_refl)).
Defined.

End SplitFacts.
(* ------------------------------------------------------------------ *)
(** ** Failure and edge behaviour of the Title and Outline stages *)

Module StageFacts.
Import TextFacts.

(** X5: when the collaborator raises during the Title stage, the paper
    still gets a Title artifact, with the empty string as its title; the
    Abstract stage then finds no title and leaves that paper out without a
    model call. *)
Theorem title_failure_stores_empty_title
    (client : Client) (prompts : Prompts)
    (results : list TitleArtifact) (w w' : World) (fs : FS)
    (paper_id content p : str) (n : nat) :
  let rd := TitleAgent._read_reference_file paper_id content in
  let fs' := TitleAgent._save_title fs paper_id [] in
  TitleAgent.nonempty (TitleAgent.rd_subject rd)
  && TitleAgent.nonempty (TitleAgent.rd_references rd) = true ->
  title_prompt (TitleAgent.rd_subject rd) (TitleAgent.rd_references rd)
    = Ok p ->
  returns TitleAgent._verify_title_format TitleAgent.correction_message None
    w [Message user p] Raise w' n ->
  (forall fuel, n <= fuel ->
     TitleAgent.process_file fuel (results, w, fs) (paper_id, content)
     = Some (results ++ [{| t_paper_id := paper_id; title := [] |}], w', fs'))
  /\ get (title_dir fs') paper_id
     = Some {| t_paper_id := paper_id; title := [] |}
  /\ AbstractAgent._read_title_from_file fs' paper_id = []
  /\ (forall fuel results2 (w2 : World),
        AbstractAgent.process_paper fuel (results2, w2, fs') paper_id
        = Some (results2, w2, fs')).
Proof.
  intros rd fs' Hne Hp Hrun.
  assert (Hid : TitleAgent.rd_id rd = paper_id).
  { subst rd. unfold TitleAgent._read_reference_file.
    now destruct (TitleAgent._extract_content content). }
  assert (Hget : get (title_dir fs') paper_id
                 = Some {| t_paper_id := paper_id; title := [] |}).
  { apply get_set_same. }
  assert (Hread : AbstractAgent._read_title_from_file fs' paper_id = []).
  { unfold AbstractAgent._read_title_from_file, open_file.
    now rewrite Hget. }
  split; [|split; [exact Hget|split; [exact Hread|]]].
  - intros fuel Hle. unfold TitleAgent.process_file. cbn [fst snd].
    fold rd. rewrite Hne.
    unfold TitleAgent._get_title_from_gpt, TitleAgent._get_title_try.
    rewrite Hp, (returns_while_true Hrun Hle). cbn [obind catch].
    now rewrite Hid.
  - intros fuel results2 w2. unfold AbstractAgent.process_paper.
    rewrite Hread. cbn [AbstractAgent.nonempty].
    now rewrite andb_false_r.
Qed.

Lemma title_failure_stores_empty_title_witness :
  TitleAgent.process_file (client := scripted) (prompts := plain_prompts) 1
    ([], [Raise], sample_fs) (py "9901.001", sample_test_file)
  = Some ([{| t_paper_id := py "9901.001"; title := [] |}], [],
          TitleAgent._save_title sample_fs (py "9901.001") []).
Proof.
  refine (proj1 (@title_failure_stores_empty_title scripted plain_prompts []
                   [Raise] [] sample_fs (py "9901.001") sample_test_file _ 1
                   eq_refl eq_refl _) 1 (le_n 1)).
  apply (@returns_raised scripted). reflexivity.
Defined.

(** *** The Outline stage *)

Section OutlineCalls.
Import OutlineAgent.
Variable base : Client.
Context {prompts : Prompts}.

Lemma counting_create (w : @World base) (k : nat) messages max_tokens r w'
    k' :
  create (Client := counting base) (w, k) messages max_tokens = (r, (w', k')) ->
  k' = S k.
Proof.
  simpl. destruct (@create base w messages max_tokens).
  intros H. now injection H as _ _ <-.
Qed.

Lemma outline_try_calls (w : @World base) (k : nat) subject references r w'
    k' :
  _get_outline_try (client := counting base) (w, k) subject references
    = (r, (w', k')) ->
  k <= k' <= k + 2.
Proof.
  unfold _get_outline_try. intros H.
  destruct (outline_prompt subject references) as [p|];
    [|injection H as _ _ <-; lia].
  destruct (create (Client := counting base) (w, k) [Message user p] None)
    as [r1 [w1 k1]] eqn:E1.
  apply counting_create in E1. subst k1.
  destruct r1 as [r1|]; [|injection H as _ _ <-; lia].
  destruct (negb (in_range (length (section_lines (strip r1)))));
    [|injection H as _ _ <-; lia].
  match type of H with
  | context [create ?w0 ?ms None] =>
      destruct (create (Client := counting base) w0 ms None)
        as [r2 [w2 k2]] eqn:E2
  end.
  apply counting_create in E2. subst k2.
  destruct r2; injection H as _ _ <-; lia.
Qed.
End OutlineCalls.

(** X6: the Outline stage makes at most two model calls for a paper, and
    when the collaborator raises at either call the paper still gets an
    Outline artifact, with an empty list of sections. *)
Theorem outline_two_calls_and_failure :
  (forall (base : Client) (prompts : Prompts) results (w : @World base)
          (k : nat) fs file results' w' k' fs',
     OutlineAgent.process_file (client := counting base)
       (results, (w, k), fs) file = (results', (w', k'), fs') ->
     k <= k' <= k + 2)
  /\ (forall (client : Client) (prompts : Prompts) results (w w' : World) fs
             paper_id content rd,
        OutlineAgent._read_reference_file paper_id content = Some rd ->
        TitleAgent.nonempty (OutlineAgent.rd_subject rd)
        && TitleAgent.nonempty (OutlineAgent.rd_references rd) = true ->
        OutlineAgent._get_outline_try w (OutlineAgent.rd_subject rd)
          (OutlineAgent.rd_references rd) = (Raise, w') ->
        let stored := {| o_paper_id := paper_id; sections := [] |} in
        OutlineAgent.process_file (results, w, fs) (paper_id, content)
        = (results ++ [stored], w', write_outline fs paper_id stored)
        /\ AbstractAgent._read_outline_from_file
             (write_outline fs paper_id stored) paper_id = []).
Proof.
  split.
  - intros base prompts results w k fs file results' w' k' fs' H.
    unfold OutlineAgent.process_file in H.
    destruct (OutlineAgent._read_reference_file (fst file) (snd file))
      as [rd|]; [|injection H as _ _ <- _; lia].
    destruct (TitleAgent.nonempty (OutlineAgent.rd_subject rd)
              && TitleAgent.nonempty (OutlineAgent.rd_references rd));
      [|injection H as _ _ <- _; lia].
    unfold OutlineAgent._get_outline_from_gpt in H.
    destruct (OutlineAgent._get_outline_try _ _ _) as [r [w1 k1]] eqn:E.
    injection H as _ _ <- _.
    exact (outline_try_calls _ _ _ _ E).
  - intros client prompts results w w' fs paper_id content rd Hrd Hne Htry
      stored.
    pose proof (OutlineFacts.read_reference_file_id _ _ Hrd) as Hid.
    split.
    + unfold OutlineAgent.process_file. cbn [fst snd]. rewrite Hrd, Hne.
      unfold OutlineAgent._get_outline_from_gpt. rewrite Htry.
      cbn [catch]. unfold OutlineAgent._save_outline. rewrite Hid.
      reflexivity.
    + unfold AbstractAgent._read_outline_from_file, open_file,
        write_outline. cbn [outline_dir]. now rewrite get_set_same.
Qed.

Lemma outline_two_calls_and_failure_witness :
  OutlineAgent.process_file (client := scripted) (prompts := plain_prompts)
    ([], [Ok five_headings; Raise], sample_fs)
    (py "9901.001", sample_test_file)
  = ([{| o_paper_id := py "9901.001"; sections := [] |}], [],
     write_outline sample_fs (py "9901.001")
       {| o_paper_id := py "9901.001"; sections := [] |}).
Proof.
  exact (proj1 (proj2 outline_two_calls_and_failure scripted plain_prompts []
                  [Ok five_headings; Raise] [] sample_fs (py "9901.001")
                  sample_test_file _ eq_refl eq_refl eq_refl)).
Defined.

(** *** The headings of a persisted outline *)

Lemma no_newline_lstrip (s : str) :
  TitleAgent.no_newline s = true -> TitleAgent.no_newline (lstrip s) = true.
Proof.
  unfold TitleAgent.no_newline.
  induction s as [|c s IH]; intros H; [reflexivity|].
  cbn [lstrip]. destruct (isspace c); [|exact H].
  cbn [forallb] in H. apply andb_true_iff in H as [_ H]. now apply IH.
Qed.

Lemma no_newline_rstrip (s : str) :
  TitleAgent.no_newline s = true -> TitleAgent.no_newline (rstrip s) = true.
Proof.
  unfold TitleAgent.no_newline.
  induction s as [|c s IH]; intros H; [reflexivity|].
  cbn [forallb] in H. apply andb_true_iff in H as [Hc H].
  cbn [rstrip]. specialize (IH H).
  destruct (rstrip s) as [|d r].
  - destruct (isspace c); [reflexivity|]. cbn [forallb]. now rewrite Hc.
  - cbn [forallb] in *. now rewrite Hc, IH.
Qed.

Lemma no_newline_strip (s : str) :
  TitleAgent.no_newline s = true -> TitleAgent.no_newline (strip s) = true.
Proof.
  intros H. unfold strip. now apply no_newline_rstrip, no_newline_lstrip.
Qed.

Lemma cons_head_forall (P : str -> Prop) (c : ascii) (l : list str) :
  (forall w ws, l = w :: ws -> P (c :: w)) -> P [c] ->
  Forall P l -> Forall P (cons_head c l).
Proof.
  intros Hw Hc Hl. destruct l as [|w ws]; cbn [cons_head].
  - constructor; [exact Hc|constructor].
  - inversion Hl; subst. constructor; [now apply (Hw w ws)|assumption].
Qed.

(** The pieces between newlines hold no newline. *)
Lemma split_pieces_no_newline (s : str) :
  Forall (fun piece => TitleAgent.no_newline piece = true) (split [nl] s).
Proof.
  unfold split. induction s as [|c s IH].
  - repeat constructor.
  - cbn [split_aux startswith]. rewrite startswith_nil, andb_true_r.
    destruct (Ascii.eqb nl c) eqn:E.
    + constructor; [reflexivity|exact IH].
    + apply cons_head_forall; [| |exact IH].
      * intros w ws Hl. rewrite Hl in IH. inversion IH; subst.
        unfold TitleAgent.no_newline in *. cbn [forallb].
        rewrite Ascii.eqb_sym, E. assumption.
      * unfold TitleAgent.no_newline. cbn [forallb].
        now rewrite Ascii.eqb_sym, E.
Qed.

(** X7: every heading of a persisted outline is non-empty, trimmed and on
    one line, whatever the model answered. *)
Theorem persisted_headings_are_clean
    (fs : FS) (paper_id outline : str) (artifact : OutlineArtifact)
    (heading : str) :
  get (outline_dir (OutlineAgent._save_outline fs paper_id outline)) paper_id
    = Some artifact ->
  In heading (sections artifact) ->
  sections artifact = OutlineAgent.section_lines outline
  /\ heading <> []
  /\ strip heading = heading
  /\ TitleAgent.no_newline heading = true.
Proof.
  intros Hget Hin.
  unfold OutlineAgent._save_outline, write_outline in Hget.
  cbn [outline_dir] in Hget. rewrite get_set_same in Hget.
  injection Hget as <-. cbn [sections] in *.
  split; [reflexivity|].
  unfold OutlineAgent.section_lines in Hin.
  apply in_map_iff in Hin as (piece & <- & Hin).
  apply filter_In in Hin as [Hin Hne].
  split; [|split].
  - destruct (strip piece); [discriminate|discriminate].
  - apply strip_idem.
  - apply no_newline_strip.
    exact (proj1 (Forall_forall _ _) (split_pieces_no_newline outline) _ Hin).
Qed.

Lemma persisted_headings_are_clean_witness :
  strip (py "Methods") = py "Methods".
Proof.
  exact (proj1 (proj2 (proj2
    (@persisted_headings_are_clean sample_fs (py "9901.001")
       (py " Background " ++ [nl; nl] ++ py "  Methods")
       {| o_paper_id := py "9901.001";
          sections := [py "Background"; py "Methods"] |}
       (py "Methods") eq_refl (or_intror (or_introl eq_refl)))))).
Defined.

End StageFacts.
(* ------------------------------------------------------------------ *)
(** ** What the Reference-Selection and Subsection stages persist *)

Module SelectionFacts.
Import TextFacts.
Import AbstractAgent (nonempty).

Lemma get_set_cases {V} (d : dict V) (k k' : str) (v x : V) :
  get (set d k v) k' = Some x -> (k' = k /\ x = v) \/ get d k' = Some x.
Proof.
  intros H. destruct (str_eqb k k') eqn:E.
  - apply str_eqb_eq in E as <-. rewrite get_set_same in H.
    injection H as <-. now left.
  - apply str_eqb_neq in E. rewrite (get_set_other _ _ E) in H. now right.
Qed.

(** A value a correction loop hands on, when it is not the empty string,
    has passed the verifier. *)
Lemma nonempty_result_verified {client : Client} verify correction max_tokens
    fuel (w w' : World) messages (r : exc str) :
  while_true verify correction max_tokens fuel w messages = Some (r, w') ->
  nonempty (catch r []) = true ->
  verify (catch r []) = true.
Proof.
  intros H Hne. destruct r as [x|]; [|discriminate].
  exact (proj1 (while_true_Ok _ _ _ _ _ _ H)).
Qed.

(** *** Reference lines *)

Section References.
Import ReferenceSelectionAgent ReferenceSelectionStage.
Context {client : Client} {prompts : Prompts}.

(** The property of the dictionary the section loop builds. *)
Let selected (outline : list str) (section_refs : dict (list str)) : Prop :=
  forall section lines,
    get section_refs section = Some lines ->
    reserved section = false
    /\ In section outline
    /\ forallb ref_line_ok lines = true.

Lemma process_section_selected fuel info outline d w d' w' section :
  In section outline ->
  selected outline d ->
  process_section fuel info (d, w) section = Some (d', w') ->
  selected outline d'.
Proof.
  intros Hin Hd H. unfold process_section in H.
  destruct (reserved section) eqn:Hres; cbn [negb] in H.
  - injection H as <- _. exact Hd.
  - unfold _get_refs_for_section in H.
    destruct (_get_refs_try fuel w info section) as [[r w1]|] eqn:Et;
      [|discriminate].
    cbn [obind] in H.
    destruct (nonempty (catch r [])) eqn:Hne.
    + injection H as <- _.
      assert (Hv : _verify_refs_format (catch r []) = true).
      { unfold _get_refs_try in Et.
        destruct (reference_selection_prompt _ _ _ _ _).
        - eapply nonempty_result_verified; [exact Et|exact Hne].
        - injection Et as <- _. discriminate. }
      intros s lines Hget. apply get_set_cases in Hget as [[-> ->]|Hget].
      * split; [exact Hres|]. split; [exact Hin|].
        unfold _verify_refs_format in Hv.
        destruct (negb _); [discriminate|]. exact Hv.
      * now apply Hd.
    + injection H as <- _. exact Hd.
Qed.

Lemma process_sections_selected fuel info outline (todo : list str) :
  forall d w d' w',
    incl todo outline ->
    selected outline d ->
    process_sections fuel info (d, w) todo = Some (d', w') ->
    selected outline d'.
Proof.
  induction todo as [|section todo IH]; intros d w d' w' Hincl Hd H.
  - injection H as <- _. exact Hd.
  - cbn [process_sections] in H.
    destruct (process_section fuel info (d, w) section) as [[d1 w1]|] eqn:E;
      [|discriminate].
    cbn [obind] in H.
    apply (IH d1 w1 d' w'); [|  |exact H].
    + intros x Hx. apply Hincl. now right.
    + eapply process_section_selected; [|exact Hd|exact E].
      apply Hincl. now left.
Qed.

(** X8: whenever the Reference-Selection stage of the pipeline finishes a
    paper, every list it has written belongs to a section of the cleaned
    outline that is not reserved, and every line of it starts with [*] and
    holds a citation tag. *)
Theorem persisted_reference_lines_verified
    (fuel : nat) (w w' : World) (fs fs' : FS) (paper_id : str)
    (info : ref_paper_info) :
  _read_paper_info fs paper_id = Some info ->
  process_paper fuel (w, fs) paper_id = Some (w', fs') ->
  exists section_refs,
    get (references_dir fs') paper_id = Some section_refs
    /\ forall section lines,
         get section_refs section = Some lines ->
         reserved section = false
         /\ In section (ri_outline info)
         /\ forallb ref_line_ok lines = true.
Proof.
  intros Hinfo H. unfold process_paper in H. rewrite Hinfo in H.
  destruct (process_sections fuel info ([], w) (ri_outline info))
    as [[d w1]|] eqn:E; [|discriminate].
  cbn [obind] in H. injection H as _ <-.
  exists d. split.
  - unfold _save_refs, write_references. cbn [references_dir].
    apply get_set_same.
  - eapply process_sections_selected; [apply incl_refl| |exact E].
    intros s lines Hget. discriminate.
Qed.
End References.

Lemma persisted_reference_lines_verified_witness :
  exists section_refs,
    get (references_dir
           (write_references titled_fs (py "9901.001")
              [(py "Background", [py "* [1] Attention"; py "* [2] Transformers"])]))
      (py "9901.001") = Some section_refs
    /\ forall section lines,
         get section_refs section = Some lines ->
         reserved section = false
         /\ In section sample_outline
         /\ forallb ref_line_ok lines = true.
Proof.
  refine (@persisted_reference_lines_verified scripted plain_prompts 1
            [Ok good_refs; Raise; Raise; Raise; Raise; Raise] [] titled_fs _
            (py "9901.001") _ eq_refl _).
  vm_compute. reflexivity.
Defined.

(** *** Subsection headings *)

(** A trimmed line that starts with the bullet and a space has text after
    them. *)
Lemma bullet_line_has_text (line : str) :
  strip line = line ->
  startswith line (py "* ") = true ->
  strip (skipn 2 line) <> [].
Proof.
  intros Hs Hb Hnil. apply startswith_spec in Hb as [rest Hline].
  rewrite Hline in Hnil.
  change (skipn 2 (py "* " ++ rest)) with rest in Hnil.
  apply strip_nil_iff in Hnil.
  destruct (@exists_last _ (" "%char :: rest) ltac:(discriminate))
    as (l & c & Hl).
  assert (Hc : isspace c = true).
  { assert (Hall : forallb isspace (" "%char :: rest) = true)
      by (cbn [forallb]; now rewrite Hnil).
    rewrite Hl, forallb_app in Hall.
    apply andb_true_iff in Hall as [_ Hall]. cbn [forallb] in Hall.
    now rewrite andb_true_r in Hall. }
  assert (Hlast : isspace c = false).
  { apply (@strip_fixed_last line ("*"%char :: l) c Hs).
    rewrite Hline. change (py "* " ++ rest) with ("*"%char :: " "%char :: rest).
    now rewrite Hl. }
  congruence.
Qed.

(** The list stored for a response the verifier accepts. *)
Lemma verified_subsection_list (subsections : str) :
  SubsectionAgent._verify_subsections_format subsections = true ->
  3 <= length (SubsectionAgent.subsection_list subsections) <= 5
  /\ Forall (fun heading => heading <> [] /\ strip heading = heading)
       (SubsectionAgent.subsection_list subsections).
Proof.
  unfold SubsectionAgent._verify_subsections_format. intros H.
  destruct (negb (startswith subsections (py "<subsections>")
                  && endswith subsections (py "</subsections>")));
    [discriminate|].
  fold (SubsectionAgent.extract_content subsections) in H.
  set (content := SubsectionAgent.extract_content subsections) in *.
  destruct ((3 <=? length (nonblank_lines content))
            && (length (nonblank_lines content) <=? 5)) eqn:Hlen;
    cbn [negb] in H; [|discriminate].
  destruct (forallb (fun line => startswith line (py "* "))
              (nonblank_lines content)) eqn:Hall;
    cbn [negb] in H; [|discriminate].
  unfold SubsectionAgent.subsection_list. fold content.
  unfold nonblank_lines in Hlen, Hall.
  rewrite length_map in *. split.
  - apply andb_true_iff in Hlen as [H3 H5].
    apply Nat.leb_le in H3. apply Nat.leb_le in H5. lia.
  - apply Forall_forall. intros heading Hin.
    apply in_map_iff in Hin as (piece & <- & Hin).
    assert (Hb : startswith (strip piece) (py "* ") = true).
    { apply (proj1 (forallb_forall _ _) Hall). now apply in_map. }
    split; [|apply strip_idem].
    apply bullet_line_has_text; [apply strip_idem|exact Hb].
Qed.

Section Subsections.
Import SubsectionStage.
Context {client : Client}.
Variable subsection_prompt : str -> str -> str -> str -> str -> exc str.

Let planned (info : paper_info) (d : dict (list str)) : Prop :=
  forall section headings,
    get d section = Some headings ->
    reserved section = false
    /\ In section (pi_outline info)
    /\ (exists refs, get (pi_section_refs info) section = Some refs
                     /\ refs <> [])
    /\ 3 <= length headings <= 5
    /\ Forall (fun heading => heading <> [] /\ strip heading = heading)
         headings.

Lemma process_section_planned fuel info d w d' w' section :
  In section (pi_outline info) ->
  planned info d ->
  process_section subsection_prompt fuel info (d, w) section = Some (d', w') ->
  planned info d'.
Proof.
  intros Hin Hd H. unfold process_section in H.
  destruct (reserved section) eqn:Hres; cbn [negb] in H;
    [injection H as <- _; exact Hd|].
  destruct (get (pi_section_refs info) section) as [refs|] eqn:Hrefs;
    cbn [ContentAgent.default nonempty] in H;
    [|injection H as <- _; exact Hd].
  destruct (nonempty refs) eqn:Hnr; [|injection H as <- _; exact Hd].
  unfold _get_subsections_for_section in H.
  destruct (_get_subsections_try subsection_prompt fuel w info section refs)
    as [[r w1]|] eqn:Et; [|discriminate].
  cbn [obind] in H.
  destruct (nonempty (catch r [])) eqn:Hne;
    [|injection H as <- _; exact Hd].
  injection H as <- _.
  assert (Hv : SubsectionAgent._verify_subsections_format (catch r [])
               = true).
  { unfold _get_subsections_try in Et.
    destruct (subsection_prompt _ _ _ _ _).
    - eapply nonempty_result_verified; [exact Et|exact Hne].
    - injection Et as <- _. discriminate. }
  intros s headings Hget. apply get_set_cases in Hget as [[-> ->]|Hget];
    [|now apply Hd].
  split; [exact Hres|]. split; [exact Hin|]. split.
  - exists refs. split; [exact Hrefs|]. now destruct refs.
  - now apply verified_subsection_list.
Qed.

Lemma process_sections_planned fuel info (todo : list str) :
  forall d w d' w',
    incl todo (pi_outline info) ->
    planned info d ->
    process_sections subsection_prompt fuel info (d, w) todo = Some (d', w') ->
    planned info d'.
Proof.
  induction todo as [|section todo IH]; intros d w d' w' Hincl Hd H.
  - injection H as <- _. exact Hd.
  - cbn [process_sections] in H.
    destruct (process_section subsection_prompt fuel info (d, w) section)
      as [[d1 w1]|] eqn:E; [|discriminate].
    cbn [obind] in H.
    apply (IH d1 w1 d' w'); [| |exact H].
    + intros x Hx. apply Hincl. now right.
    + eapply process_section_planned; [|exact Hd|exact E].
      apply Hincl. now left.
Qed.

(** X9: whenever the Subsection stage finishes a paper, every list it has
    written belongs to a section of the cleaned outline that is not
    reserved and has at least one selected reference, holds between 3 and
    5 headings, and each heading is non-empty and trimmed. *)
Theorem persisted_subsections_verified
    (fuel : nat) (w w' : World) (fs fs' : FS) (paper_id : str)
    (info : paper_info) :
  _read_paper_info fs paper_id = Some info ->
  process_paper subsection_prompt fuel (w, fs) paper_id = Some (w', fs') ->
  exists artifact,
    get (subsections_dir fs') paper_id = Some artifact
    /\ s_paper_id artifact = paper_id
    /\ forall section headings,
         get (s_sections artifact) section = Some headings ->
         reserved section = false
         /\ In section (pi_outline info)
         /\ (exists refs, get (pi_section_refs info) section = Some refs
                          /\ refs <> [])
         /\ 3 <= length headings <= 5
         /\ Forall (fun heading => heading <> [] /\ strip heading = heading)
              headings.
Proof.
  intros Hinfo H. unfold process_paper in H. rewrite Hinfo in H.
  destruct (process_sections subsection_prompt fuel info ([], w)
              (pi_outline info)) as [[d w1]|] eqn:E; [|discriminate].
  cbn [obind] in H. injection H as _ <-.
  exists {| s_paper_id := paper_id; s_sections := d |}. split; [|split].
  - unfold _save_subsections, write_subsections. cbn [subsections_dir].
    apply get_set_same.
  - reflexivity.
  - cbn [s_sections].
    eapply process_sections_planned; [apply incl_refl| |exact E].
    intros s headings Hget. discriminate.
Qed.
End Subsections.

Lemma persisted_subsections_verified_witness :
  exists artifact,
    get (subsections_dir
           (SubsectionStage._save_subsections sectioned_fs (py "9901.001")
              [(py "Methods",
                [py "Attention Heads"; py "Positional Codes";
                 py "Residual Paths"])]))
      (py "9901.001") = Some artifact
    /\ s_paper_id artifact = py "9901.001"
    /\ forall section headings,
         get (s_sections artifact) section = Some headings ->
         reserved section = false
         /\ In section sample_outline
         /\ (exists refs,
               get [(py "Methods", [py "* [1] Attention"])] section
               = Some refs /\ refs <> [])
         /\ 3 <= length headings <= 5
         /\ Forall (fun heading => heading <> [] /\ strip heading = heading)
              headings.
Proof.
  refine (@persisted_subsections_verified scripted plain_subsection_prompt 1
            [Ok good_subsections] [] sectioned_fs _ (py "9901.001") _
            eq_refl _).
  vm_compute. reflexivity.
Defined.

End SelectionFacts.
(* ------------------------------------------------------------------ *)
(** ** The fixed-offset slices and the Content stage *)

Module SliceFacts.
Import TextFacts.

(** The offsets of a slice that are the lengths of the two markers cut out
    exactly what is between them. *)
Lemma slice_wrapped (opening body closing : str) :
  slice (length opening) (length closing) (opening ++ body ++ closing) = body.
Proof.
  unfold slice. rewrite !length_app.
  replace (length opening + (length body + length closing) - length closing)
    with (length (opening ++ body)) by (rewrite length_app; lia).
  rewrite app_assoc, firstn_app, Nat.sub_diag, firstn_all.
  cbn [firstn]. rewrite app_nil_r. apply skipn_app_exact.
Qed.

(** X10: for every body, each of the three slice-based extractions applied
    to the body between its markers returns the body, trimmed. *)
Theorem slice_extraction_of_wrapped_body (body : str) :
  ContentAgent.extract_content (py "<content>" ++ body ++ py "</content>")
    = strip body
  /\ SubsectionAgent.extract_content
       (py "<subsections>" ++ body ++ py "</subsections>") = strip body
  /\ ReferenceSelectionAgent.extract_content
       (py "<refs>" ++ body ++ py "</refs>") = strip body.
Proof.
  unfold ContentAgent.extract_content, SubsectionAgent.extract_content,
    ReferenceSelectionAgent.extract_content.
  repeat split; f_equal.
  - exact (slice_wrapped (py "<content>") body (py "</content>")).
  - exact (slice_wrapped (py "<subsections>") body (py "</subsections>")).
  - exact (slice_wrapped (py "<refs>") body (py "</refs>")).
Qed.

(** A string long enough that starts with one marker and ends with the
    other is a body between the two. *)
Lemma wrapped_shape (opening closing s : str) :
  startswith s opening = true -> endswith s closing = true ->
  length opening + length closing <= length s ->
  exists body, s = opening ++ body ++ closing.
Proof.
  intros Hs He Hlen.
  apply startswith_spec in Hs as [r Hr].
  apply endswith_spec in He as [r' Hr'].
  assert (Heq : opening ++ r = r' ++ closing) by congruence.
  apply app_eq_app in Heq as [l [[H1 H2]|[H1 H2]]].
  - (* opening = r' ++ l, closing = l ++ r *)
    assert (Hl : l = []).
    { destruct l as [|c l]; [reflexivity|exfalso].
      rewrite Hr', H1 in Hlen. rewrite !length_app in Hlen.
      cbn [length] in Hlen. lia. }
    subst l. rewrite app_nil_r in H1. cbn [app] in H2. subst.
    exists []. reflexivity.
  - exists l. now rewrite Hr, H2.
Qed.

(** X11: a response the Content verifier accepts is a body between
    [<content>] and [</content>]; the payload stored for it is that body,
    trimmed, and it has at least 3 paragraphs, at least 500 words and a
    citation tag. *)
Theorem verified_content_payload (content : str) :
  ContentAgent._verify_content_format content = true ->
  exists body,
    content = py "<content>" ++ body ++ py "</content>"
    /\ ContentAgent.extract_content content = strip body
    /\ 3 <= length (ContentAgent.paragraphs (strip body))
    /\ 500 <= length (split_ws (strip body))
    /\ has_citation (strip body) = true.
Proof.
  unfold ContentAgent._verify_content_format. intros H.
  destruct (startswith content (py "<content>")) eqn:Hs;
    [|discriminate].
  destruct (endswith content (py "</content>")) eqn:He;
    [|discriminate].
  cbn [andb negb] in H.
  set (text := ContentAgent.extract_content content) in *.
  destruct (length (ContentAgent.paragraphs text) <? 3) eqn:Hp;
    [discriminate|].
  destruct (length (split_ws text) <? 500) eqn:Hw; [discriminate|].
  destruct (has_citation text) eqn:Hc; [|discriminate].
  apply Nat.ltb_ge in Hp, Hw.
  assert (Hlen : 19 <= length content).
  { destruct (Nat.le_gt_cases 19 (length content)) as [Hl|Hl]; [exact Hl|].
    exfalso.
    assert (Hnil : text = []).
    { subst text. unfold ContentAgent.extract_content.
      assert (Hsl : slice 9 10 content = []).
      { apply length_zero_iff_nil.
        pose proof (ExtractFacts.slice_length 9 10 content) as Hb.
        unfold slice in *. rewrite length_skipn, length_firstn in *. lia. }
      now rewrite Hsl. }
    rewrite Hnil in Hw. cbn in Hw. lia. }
  destruct (@wrapped_shape (py "<content>") (py "</content>") content Hs He
              Hlen) as [body Hbody].
  exists body.
  assert (Hx : text = strip body).
  { subst text. rewrite Hbody.
    apply (slice_extraction_of_wrapped_body body). }
  split; [exact Hbody|]. rewrite <- Hx. auto.
Qed.

Lemma verified_content_payload_witness :
  exists body,
    (py "<content>" ++ words 300 ++ [nl; nl] ++ words 100 ++ py "cited [1]"
     ++ [nl; nl] ++ words 100 ++ py "</content>")
    = py "<content>" ++ body ++ py "</content>"
    /\ 500 <= length (split_ws (strip body)).
Proof.
  destruct (@verified_content_payload
              (py "<content>" ++ words 300 ++ [nl; nl] ++ words 100
               ++ py "cited [1]" ++ [nl; nl] ++ words 100 ++ py "</content>"))
    as (body & H1 & _ & _ & H2 & _).
  - vm_compute. reflexivity.
  - exists body. split; assumption.
Defined.

(** *** Model calls of the Content stage *)

Section ContentCalls.
Import ContentAgent.
Variable base : Client.
Context {prompts : Prompts}.

Lemma content_retry_calls (remaining : nat) :
  forall (w : @World base) (k : nat) messages last r w' k',
    retry_loop (client := counting base) remaining (w, k) messages last
      = (r, (w', k')) ->
    k <= k' <= k + remaining.
Proof.
  induction remaining as [|n IH]; intros w k messages last r w' k' H.
  - cbn [retry_loop] in H. destruct last; injection H as _ _ <-; lia.
  - cbn [retry_loop] in H.
    destruct (create (Client := counting base) (w, k) messages (Some 2000))
      as [r1 [w1 k1]] eqn:E1.
    apply StageFacts.counting_create in E1. subst k1.
    destruct r1 as [response|]; [|injection H as _ _ <-; lia].
    destruct (_verify_content_format (strip response)).
    + injection H as _ _ <-. lia.
    + apply IH in H. lia.
Qed.

Lemma get_content_calls (w : @World base) (k : nat) info section subsection
    c w' k' :
  _get_content (client := counting base) (w, k) info section subsection
    = (c, (w', k')) ->
  k <= k' <= k + 3.
Proof.
  unfold _get_content, _get_content_try. intros H.
  destruct (pi_subject info); [|injection H as _ _ <-; lia].
  destruct (content_prompt _ _ _ _ _ _); [|injection H as _ _ <-; lia].
  destruct (retry_loop _ _ _ _) as [r [w1 k1]] eqn:E.
  injection H as _ _ <-. apply content_retry_calls in E.
  unfold max_retries in E. exact E.
Qed.

Lemma subsections_calls info section (subsections : list str) :
  forall d (w : @World base) k d' w' k',
    fold_left (process_subsection (client := counting base) info section)
      subsections (d, (w, k)) = (d', (w', k')) ->
    k <= k' <= k + 3 * length subsections.
Proof.
  induction subsections as [|s subsections IH]; intros d w k d' w' k' H.
  - injection H as _ _ <-. cbn [length]. lia.
  - cbn [fold_left] in H. unfold process_subsection at 2 in H.
    destruct (_get_content (client := counting base) (w, k) info section s)
      as [c [w1 k1]] eqn:E.
    apply get_content_calls in E.
    destruct (AbstractAgent.nonempty c); apply IH in H; cbn [length]; lia.
Qed.

Lemma subsections_to_write_cons section (subs : list str) items :
  subsections_to_write ((section, subs) :: items)
  = (if reserved section then 0 else length subs)
    + subsections_to_write items.
Proof. reflexivity. Qed.

Lemma sections_calls info (items : dict (list str)) :
  forall d (w : @World base) k d' w' k',
    fold_left (process_section (client := counting base) info) items
      (d, (w, k)) = (d', (w', k')) ->
    k <= k' <= k + 3 * subsections_to_write items.
Proof.
  induction items as [|[section subs] items IH]; intros d w k d' w' k' H.
  - injection H as _ _ <-. cbn. lia.
  - cbn [fold_left] in H. unfold process_section at 2 in H.
    rewrite subsections_to_write_cons.
    destruct (reserved section); cbn [negb] in H.
    + apply IH in H. lia.
    + match type of H with
      | context [fold_left ?f subs ?init] =>
          destruct (fold_left f subs init) as [sc [w1 k1]] eqn:E
      end.
      apply subsections_calls in E.
      destruct (AbstractAgent.nonempty sc); apply IH in H; lia.
Qed.

(** X12: for one paper the Content stage makes at most three model calls
    for each subsection of a section that is not reserved, and none for a
    paper whose files cannot all be read. *)
Theorem content_stage_call_budget (w : @World base) (k : nat) (fs : FS)
    (paper_id : str) w' k' fs' :
  process_paper (client := counting base) ((w, k), fs) paper_id
    = ((w', k'), fs') ->
  match _read_paper_info fs paper_id with
  | Some info =>
      k <= k' <= k + 3 * subsections_to_write (pi_subsections info)
  | None => k' = k /\ fs' = fs
  end.
Proof.
  unfold process_paper. intros H.
  destruct (_read_paper_info fs paper_id) as [info|].
  - match type of H with
    | context [fold_left ?f (pi_subsections info) ?init] =>
        destruct (fold_left f (pi_subsections info) init)
          as [d [w1 k1]] eqn:E
    end.
    injection H as _ <- _. exact (sections_calls _ _ _ _ _ E).
  - injection H as _ <- <-. auto.
Qed.
End ContentCalls.

Lemma content_stage_call_budget_witness :
  0 <= 3 <= 0 + 3 * 1.
Proof.
  exact (@content_stage_call_budget scripted plain_prompts
           [Ok (py "draft"); Ok (py "draft"); Ok short_content] 0
           sectioned_fs (py "9901.001") [] 3
           (ContentAgent._save_content sectioned_fs (py "9901.001")
              [(py "Methods",
                [(py "Attention Heads",
                  ContentAgent.extract_content (strip short_content))])])
           eq_refl).
Defined.

End SliceFacts.
(* ------------------------------------------------------------------ *)
(** ** The bibliography and the output directory of the assembler *)

Module BibliographyFacts.
Import XMLPaperGenerator.

Lemma add_references_spec (content_map : dict str) (references : list str) :
  forall acc : list str,
    fold_left (add_reference content_map) references acc
    = acc ++ map (spec_bibliography_entry content_map)
               (combine (seq (length acc + 1) (length references))
                  references).
Proof.
  induction references as [|ref references IH]; intros acc.
  - cbn. now rewrite app_nil_r.
  - cbn [fold_left length seq combine map]. rewrite IH.
    assert (Hstep : add_reference content_map acc ref
                    = acc ++ [spec_bibliography_entry content_map
                                (length acc + 1, ref)]).
    { unfold add_reference, spec_bibliography_entry.
      destruct (get content_map _) as [a|]; [|reflexivity].
      destruct (AbstractAgent.nonempty a); reflexivity. }
    rewrite Hstep, length_app. cbn [length].
    rewrite <- app_assoc. cbn [app].
    replace (length acc + 1 + 1) with (S (length acc + 1)) by lia.
    reflexivity.
Qed.

(** X13: when every entry of [reference_content] has its number, the
    bibliography of the document keeps all references, in their order, and
    the entry at position [i] is the reference followed by its abstract
    line exactly when the content has a non-empty abstract under [[i]]. *)
Theorem bibliography_is_positional
    (fs : FS) (paper_id : str) (data : TrainRecord)
    (references : list str) (items : list RefContent)
    (content_map : dict str) :
  get (train_dir fs) paper_id = Some data ->
  reference data = Some references ->
  reference_content data = Some items ->
  items <> [] ->
  content_map_of items [] = Ok content_map ->
  _read_references fs paper_id
  = join [nl; nl]
      (map (spec_bibliography_entry content_map) (numbered references))
  /\ length (map (spec_bibliography_entry content_map) (numbered references))
     = length references.
Proof.
  intros Hget Href Hitems Hne Hmap. split.
  - unfold _read_references, open_file. rewrite Hget, Href, Hitems.
    cbn [default]. destruct items as [|item items]; [congruence|].
    cbn [AbstractAgent.nonempty]. rewrite Hmap. cbn [catch].
    now rewrite add_references_spec.
  - unfold numbered. rewrite length_map, length_combine, length_seq. lia.
Qed.

Lemma bibliography_is_positional_witness :
  _read_references assembled_fs (py "9901.001")
  = py "[1] Attention" ++ [nl; nl] ++ py "[2] Transformers" ++ [nl]
    ++ py "Abstract: On transformers.".
Proof.
  exact (proj1 (@bibliography_is_positional assembled_fs (py "9901.001") _
                  [py "[1] Attention"; py "[2] Transformers"]
                  [{| reference_num := Some (py "[2]");
                      reference_abstract := Some (py "On transformers.") |}]
                  [(py "[2]", py "On transformers.")]
                  eq_refl eq_refl eq_refl ltac:(discriminate) eq_refl)).
Defined.

(** X14: one entry of [reference_content] without [reference_num] empties
    the bibliography of the document, whatever references the record
    holds. *)
Theorem unnumbered_entry_empties_bibliography
    (fs : FS) (paper_id : str) (data : TrainRecord)
    (items : list RefContent) :
  get (train_dir fs) paper_id = Some data ->
  reference_content data = Some items ->
  existsb unnumbered items = true ->
  _read_references fs paper_id = []
  /\ exists body,
       xml_lines fs paper_id
       = [xml_header; py "<Literature>";
          py "<Title>" ++ _read_title fs paper_id ++ py "</Title>";
          py "<Abstract>" ++ _read_abstract fs paper_id ++ py "</Abstract>"]
         ++ body
         ++ [py "<References>"; []; py "</References>"; py "</Literature>"].
Proof.
  intros Hget Hitems Hex.
  assert (Hrefs : _read_references fs paper_id = []).
  { unfold _read_references, open_file. rewrite Hget, Hitems.
    cbn [default].
    assert (Hne : AbstractAgent.nonempty items = true).
    { destruct items; [discriminate|reflexivity]. }
    rewrite Hne.
    now rewrite (@SplitFacts.content_map_of_raise items [] Hex). }
  split; [exact Hrefs|].
  eexists. rewrite XMLFacts.xml_lines_shape, Hrefs. reflexivity.
Qed.

Lemma unnumbered_entry_empties_bibliography_witness :
  _read_references unnumbered_fs (py "9901.001") = [].
Proof.
  exact (proj1 (@unnumbered_entry_empties_bibliography unnumbered_fs
                  (py "9901.001") unnumbered_record
                  [{| reference_num := None;
                      reference_abstract := Some (py "On attention.") |}]
                  eq_refl eq_refl eq_refl)).
Defined.

(** X15: after the assembler has run, the output directory holds, for
    every paper with a Title artifact, the document of the store as it was
    before the run; the entries of other papers are left as they were. *)
Theorem assembler_writes_every_titled_paper (fs : FS) (paper_id : str) :
  (In paper_id (map fst (title_dir fs)) ->
   get (final_dir (process_papers fs)) paper_id
   = Some (_generate_xml fs paper_id))
  /\ (~ In paper_id (map fst (title_dir fs)) ->
      get (final_dir (process_papers fs)) paper_id
      = get (final_dir fs) paper_id).
Proof.
  destruct (XMLFacts.process_list_final (map fst (title_dir fs))
              (XMLFacts.same_inputs_refl fs)) as [_ Hfin].
  fold (process_papers fs) in Hfin.
  rewrite Hfin, XMLFacts.get_write_all.
  destruct (existsb (str_eqb paper_id) (map fst (title_dir fs))) eqn:E.
  - split; [reflexivity|].
    intros Hnot. exfalso. apply Hnot.
    apply existsb_exists in E as (k & Hin & Hk).
    apply str_eqb_eq in Hk. now subst.
  - split; [|reflexivity].
    intros Hin. exfalso.
    assert (Ht : existsb (str_eqb paper_id) (map fst (title_dir fs)) = true).
    { apply existsb_exists. exists paper_id. split; [exact Hin|].
      apply str_eqb_refl. }
    congruence.
Qed.

Lemma assembler_writes_every_titled_paper_witness :
  get (final_dir (process_papers assembled_fs)) (py "9901.001")
  = Some (_generate_xml assembled_fs (py "9901.001")).
Proof.
  exact (proj1 (assembler_writes_every_titled_paper assembled_fs
                  (py "9901.001")) (or_introl eq_refl)).
Defined.

End BibliographyFacts.
(* ------------------------------------------------------------------ *)
(** ** The title verifier, and markers read back *)

Module MarkerFacts.
Import TextFacts.

Lemma endswith_app (s p : str) : endswith (s ++ p) p = true.
Proof. apply endswith_spec. now exists s. Qed.

(** X16: the Title verifier accepts exactly the responses that, trimmed,
    are [<title>], a body without a newline, and [</title>]. *)
Theorem verify_title_format_iff (title : str) :
  TitleAgent._verify_title_format title = true
  <-> exists body,
        strip title = py "<title>" ++ body ++ py "</title>"
        /\ TitleAgent.no_newline body = true.
Proof.
  split.
  - intros H. apply TitleFacts.verify_title_shape; [apply strip_idem|].
    unfold TitleAgent._verify_title_format in *. now rewrite strip_idem.
  - intros (body & Hs & Hn).
    unfold TitleAgent._verify_title_format, TitleAgent.re_match_title.
    rewrite Hs, startswith_app.
    change (skipn 7 (py "<title>" ++ body ++ py "</title>"))
      with (body ++ py "</title>").
    assert (He : endswith (body ++ py "</title>") [nl] = false).
    { unfold endswith. rewrite rev_app_distr. reflexivity. }
    rewrite He. cbn [andb].
    rewrite endswith_app, andb_true_r.
    unfold TitleAgent.no_newline in *. rewrite forallb_app, Hn. reflexivity.
Qed.

Lemma verify_title_format_iff_witness :
  TitleAgent._verify_title_format (py "  <title>A Survey of X</title> ") = true.
Proof.
  apply (proj2 (verify_title_format_iff
                  (py "  <title>A Survey of X</title> "))).
  exists (py "A Survey of X"). split; reflexivity.
Defined.

(** *** Removing the markers around a body *)

Lemma startswith_app_split (u c : str) :
  forall p,
    startswith (u ++ c) p = true ->
    startswith u p = true
    \/ exists v, v <> [] /\ p = u ++ v /\ startswith c v = true.
Proof.
  induction u as [|a u IH]; intros p H.
  - destruct p as [|b p]; [left; reflexivity|].
    right. exists (b :: p). repeat split; [discriminate|exact H].
  - destruct p as [|b p]; [left; reflexivity|].
    cbn [app startswith] in H. apply andb_true_iff in H as [Hab H].
    apply Ascii.eqb_eq in Hab as <-.
    destruct (IH _ H) as [Hl|(v & Hv & Hp & Hc)].
    + left. cbn [startswith]. now rewrite Ascii.eqb_refl.
    + right. exists v. repeat split; [exact Hv| |exact Hc].
      now rewrite Hp.
Qed.

Section Wrapped.
Variable pats : list str.
Variable lt : ascii.
Variable closing_tail : str.
Let closing := lt :: closing_tail.

(** Each marker begins with [lt] and has no other [lt]. *)
Hypothesis markers :
  forall p, In p pats -> exists t, p = lt :: t /\ ~ In lt t.

Lemma no_straddle (u : str) :
  u <> [] ->
  existsb (startswith u) pats = false ->
  existsb (startswith (u ++ closing)) pats = false.
Proof.
  intros Hu Hno. apply not_true_iff_false. intros Hex.
  apply existsb_exists in Hex as (p & Hin & Hp).
  destruct (startswith_app_split _ _ _ Hp) as [Hl|(v & Hv & Hpv & Hc)].
  - assert (existsb (startswith u) pats = true)
      by (apply existsb_exists; eauto).
    congruence.
  - destruct (markers p Hin) as (t & Hpt & Hnot).
    destruct u as [|a u]; [congruence|].
    destruct v as [|b v]; [congruence|].
    unfold closing in Hc. cbn [startswith] in Hc.
    apply andb_true_iff in Hc as [Hb _]. apply Ascii.eqb_eq in Hb.
    subst b. rewrite Hpt in Hpv. cbn [app] in Hpv.
    injection Hpv as _ Ht. apply Hnot. rewrite Ht.
    apply in_or_app. right. now left.
Qed.

(** A body without markers, followed by a closing marker that is itself
    removed, comes out unchanged. *)
Lemma re_sub_body_closing (m : str) :
  re_sub pats closing = [] ->
  contains_any pats m = false ->
  re_sub pats (m ++ closing) = m.
Proof.
  intros Hclose. unfold re_sub in *.
  induction m as [|c m IH]; intros Hm; [exact Hclose|].
  cbn [contains_any] in Hm. apply orb_false_iff in Hm as [Hhere Hm].
  cbn [app re_sub_aux].
  pose proof (@no_straddle (c :: m) ltac:(discriminate) Hhere) as Hns.
  cbn [app] in Hns.
  rewrite (ExtractFacts.find_none_existsb _ _ Hns).
  now rewrite (IH Hm).
Qed.
End Wrapped.

Lemma title_markers (p : str) :
  In p [py "<title>"; py "</title>"] ->
  exists t, p = "<"%char :: t /\ ~ In "<"%char t.
Proof.
  intros [<-|[<-|[]]]; eexists; (split; [reflexivity|]);
    cbn [In]; intros H;
    repeat (destruct H as [H|H]; [discriminate H|]); exact H.
Qed.

Lemma abstract_markers (p : str) :
  In p [py "<abstract>"; py "</abstract>"] ->
  exists t, p = "<"%char :: t /\ ~ In "<"%char t.
Proof.
  intros [<-|[<-|[]]]; eexists; (split; [reflexivity|]);
    cbn [In]; intros H;
    repeat (destruct H as [H|H]; [discriminate H|]); exact H.
Qed.

Lemma re_sub_title_wrapped (m : str) :
  contains_any [py "<title>"; py "</title>"] m = false ->
  re_sub [py "<title>"; py "</title>"] (py "<title>" ++ m ++ py "</title>")
  = m.
Proof.
  intros Hm.
  transitivity (re_sub [py "<title>"; py "</title>"] (m ++ py "</title>")).
  - unfold re_sub.
    change (py "<title>" ++ m ++ py "</title>")
      with ("<"%char :: py "title>" ++ m ++ py "</title>").
    cbn [re_sub_aux find].
    change ("<"%char :: py "title>" ++ m ++ py "</title>")
      with (py "<title>" ++ m ++ py "</title>").
    rewrite startswith_app. reflexivity.
  - exact (@re_sub_body_closing [py "<title>"; py "</title>"] "<"
             (py "/title>") title_markers m eq_refl Hm).
Qed.

Lemma re_sub_abstract_wrapped (m : str) :
  contains_any [py "<abstract>"; py "</abstract>"] m = false ->
  re_sub [py "<abstract>"; py "</abstract>"]
    (py "<abstract>" ++ m ++ py "</abstract>") = m.
Proof.
  intros Hm.
  transitivity
    (re_sub [py "<abstract>"; py "</abstract>"] (m ++ py "</abstract>")).
  - unfold re_sub.
    change (py "<abstract>" ++ m ++ py "</abstract>")
      with ("<"%char :: py "abstract>" ++ m ++ py "</abstract>").
    cbn [re_sub_aux find].
    change ("<"%char :: py "abstract>" ++ m ++ py "</abstract>")
      with (py "<abstract>" ++ m ++ py "</abstract>").
    rewrite startswith_app. reflexivity.
  - exact (@re_sub_body_closing [py "<abstract>"; py "</abstract>"] "<"
             (py "/abstract>") abstract_markers m eq_refl Hm).
Qed.

(** X17: a Title or Abstract artifact that holds a body between its
    markers, the body free of markers, is read back as the body, trimmed:
    by the assembler, and for the title by the Abstract stage as well. *)
Theorem tagged_artifacts_read_back (fs : FS) (paper_id body : str) :
  contains_any [py "<title>"; py "</title>"] body = false ->
  contains_any [py "<abstract>"; py "</abstract>"] body = false ->
  (forall stored_id,
     get (title_dir fs) paper_id
     = Some {| t_paper_id := stored_id;
               title := py "<title>" ++ body ++ py "</title>" |} ->
     XMLPaperGenerator._read_title fs paper_id = strip body
     /\ AbstractAgent._read_title_from_file fs paper_id = strip body)
  /\ (forall stored_id,
        get (abstract_dir fs) paper_id
        = Some {| a_paper_id := stored_id;
                  abstract := py "<abstract>" ++ body ++ py "</abstract>" |} ->
        XMLPaperGenerator._read_abstract fs paper_id = strip body
        /\ AbstractAgent.word_count
             (py "<abstract>" ++ body ++ py "</abstract>")
           = length (split_ws (strip body))).
Proof.
  intros Ht Ha. split.
  - intros stored_id Hget.
    unfold XMLPaperGenerator._read_title,
      AbstractAgent._read_title_from_file, open_file.
    rewrite Hget. cbn [catch title].
    now rewrite (re_sub_title_wrapped _ Ht).
  - intros stored_id Hget. split.
    + unfold XMLPaperGenerator._read_abstract, open_file.
      rewrite Hget. cbn [catch abstract].
      now rewrite (re_sub_abstract_wrapped _ Ha).
    + unfold AbstractAgent.word_count, AbstractAgent.abstract_tags.
      now rewrite (re_sub_abstract_wrapped _ Ha).
Qed.

Lemma tagged_artifacts_read_back_witness :
  XMLPaperGenerator._read_title titled_fs (py "9901.001")
  = py "A Survey of X".
Proof.
  exact (proj1 (proj1 (@tagged_artifacts_read_back titled_fs (py "9901.001")
                         (py "A Survey of X") eq_refl eq_refl)
                  (py "9901.001") eq_refl)).
Defined.

End MarkerFacts.
(* ------------------------------------------------------------------ *)
(** ** The extraction of the sibling agent, and the subject a stage uses *)

Module ReaderFacts.
Import TextFacts SplitFacts.
Import TrainTestSplit.

Lemma partition_spec (p : str) (s : str) :
  forall a b, partition p s = Some (a, b) -> s = a ++ p ++ b.
Proof.
  induction s as [|c s IH]; intros a b H.
  - cbn [partition] in H.
    destruct (startswith [] p) eqn:E; [|discriminate].
    injection H as <- <-. apply startswith_spec in E as [r Hr].
    destruct p; [|discriminate]. reflexivity.
  - cbn [partition] in H.
    destruct (startswith (c :: s) p) eqn:E.
    + injection H as <- <-. apply startswith_spec in E as [r Hr].
      rewrite Hr at 2. now rewrite skipn_app_exact.
    + destruct (partition p s) as [[a' b']|]; [|discriminate].
      injection H as <- <-. cbn [app]. f_equal. now apply IH.
Qed.

Lemma partition_none (p : str) (s : str) :
  contains_any [p] s = false -> p <> [] -> partition p s = None.
Proof.
  intros H Hp. induction s as [|c s IH].
  - cbn [partition]. destruct p; [congruence|reflexivity].
  - cbn [contains_any existsb] in H. rewrite orb_false_r in H.
    apply orb_false_iff in H as [Hh Ht].
    cbn [partition]. rewrite Hh. now rewrite (IH Ht).
Qed.

Lemma strip_app_space (s : str) (c : ascii) :
  isspace c = true -> strip (s ++ [c]) = strip s.
Proof.
  intros Hc. unfold strip. rewrite <- !lstrip_rstrip_comm.
  now rewrite (rstrip_app_space s c Hc).
Qed.

(** X18: what [_extract_final_refs] returns is either the empty string, or
    the text between a [<refs>] and a [</refs>] of the response, trimmed
    and put on lines of its own between the two markers; such a result
    always passes the marker test of the verifier, and a response without
    [<refs>] gives the empty string. *)
Theorem extract_final_refs_shape (response : str) :
  let refs := CoTReferenceSelectionAgent._extract_final_refs response in
  (refs = []
   \/ exists before inner after,
        response = before ++ py "<refs>" ++ inner ++ py "</refs>" ++ after
        /\ refs = py "<refs>" ++ [nl] ++ strip inner ++ [nl] ++ py "</refs>"
        /\ startswith refs (py "<refs>") = true
        /\ endswith refs (py "</refs>") = true
        /\ ReferenceSelectionAgent.extract_content refs = strip inner)
  /\ (contains_any [py "<refs>"] response = false -> refs = []).
Proof.
  cbv zeta. unfold CoTReferenceSelectionAgent._extract_final_refs. split.
  - destruct (partition (py "<refs>") response) as [[before rest]|] eqn:E1;
      [|now left].
    destruct (partition (py "</refs>") rest) as [[inner after]|] eqn:E2;
      [|now left].
    right. exists before, inner, after.
    apply partition_spec in E1, E2. split; [now rewrite E1, E2|].
    split; [reflexivity|]. split; [apply startswith_app|].
    split.
    + apply endswith_spec.
      exists (py "<refs>" ++ [nl] ++ strip inner ++ [nl]).
      now rewrite <- !app_assoc.
    + replace (py "<refs>" ++ [nl] ++ strip inner ++ [nl] ++ py "</refs>")
        with (py "<refs>" ++ ([nl] ++ strip inner ++ [nl]) ++ py "</refs>")
        by (now rewrite <- !app_assoc).
      rewrite (proj2 (proj2
                 (SliceFacts.slice_extraction_of_wrapped_body
                    ([nl] ++ strip inner ++ [nl])))).
      cbn [app]. rewrite (@strip_cons_space nl _ eq_refl).
      rewrite (@strip_app_space (strip inner) nl eq_refl).
      apply strip_idem.
  - intros H. now rewrite (partition_none _ H) by discriminate.
Qed.

Lemma extract_final_refs_shape_witness :
  CoTReferenceSelectionAgent._extract_final_refs bad_refs = [].
Proof.
  exact (proj2 (extract_final_refs_shape bad_refs) eq_refl).
Defined.

(** *** Which subject a stage reads *)

(** X19: on a corpus file with several subjects the stages do not agree:
    the readers of the Abstract, Subsection and Content stages take the
    first subject line, the reader of the Title stage the last one.  The
    text is the one [f.read()] returns; the subjects and the fields of the
    references hold no newline and no carriage return. *)
Theorem stages_read_different_subjects
    (first : str) (more : list str) (references : list ref_entry) :
  forallb plain_subject (first :: more) = true ->
  forallb plain_reference references = true ->
  AbstractAgent.startswith_any first
    [py "References:"; py "Number:"; py "Title:"; py "Abstract:"] = false ->
  let text :=
    read_text (save_references_and_subject_as_txt (first :: more) references)
  in
  AbstractAgent.first_subject_line (split [nl] text) = strip first
  /\ ContentAgent.find_subject (split [nl] text) = Some (strip first)
  /\ fst (TitleAgent._extract_content text)
     = last (map strip more) (strip first).
Proof.
  intros Hs Hr Hpre text. subst text. rewrite (read_saved _ _ Hs Hr).
  pose proof (split_unlines _ (corpus_lines_no_newline _ _ Hs Hr)) as Hsplit.
  rewrite <- save_as_lines in Hsplit.
  cbn [forallb] in Hs. apply andb_true_iff in Hs as [Hfirst Hmore].
  assert (Hplain := Hfirst). unfold plain_subject in Hplain.
  apply andb_true_iff in Hplain as [Hplain H4].
  apply andb_true_iff in Hplain as [Hplain H3].
  apply andb_true_iff in Hplain as [_ H2].
  split; [|split].
  - rewrite Hsplit. unfold corpus_lines.
    cbn [app AbstractAgent.first_subject_line].
    change (strip (py "Subjects:")) with (py "Subjects:").
    rewrite str_eqb_refl. cbn [negb andb].
    change (AbstractAgent.nonempty (strip first))
      with (TitleAgent.nonempty (strip first)).
    now rewrite H2, H3, Hpre.
  - rewrite Hsplit. unfold corpus_lines.
    cbn [app ContentAgent.find_subject].
    change (strip (py "Subjects:")) with (py "Subjects:").
    rewrite str_eqb_refl. cbn [negb andb].
    change (AbstractAgent.nonempty (strip first))
      with (TitleAgent.nonempty (strip first)).
    now rewrite H2, H3, Hpre.
  - unfold TitleAgent._extract_content. cbv zeta. cbn [fst].
    rewrite Hsplit. unfold corpus_lines.
    rewrite <- !app_assoc, !fold_left_app. cbn [fold_left].
    change (TitleAgent._extract_line
              {| TitleAgent.cur := TitleAgent.no_section;
                 TitleAgent.subject := []; TitleAgent.refs := [] |}
              (py "Subjects:"))
      with {| TitleAgent.cur := TitleAgent.in_subjects;
              TitleAgent.subject := []; TitleAgent.refs := [] |}.
    rewrite (@title_line_subject [] [] first Hfirst).
    rewrite (title_fold_subjects _ _ _ Hmore), !title_line_blank.
    change (TitleAgent._extract_line
              {| TitleAgent.cur := TitleAgent.in_subjects;
                 TitleAgent.subject := last (map strip more) (strip first);
                 TitleAgent.refs := [] |} (py "References:"))
      with {| TitleAgent.cur := TitleAgent.in_references;
              TitleAgent.subject := last (map strip more) (strip first);
              TitleAgent.refs := [] |}.
    rewrite title_fold_references. reflexivity.
Qed.

Lemma stages_read_different_subjects_witness :
  let text :=
    read_text
      (save_references_and_subject_as_txt [py "cs.AI"; py "cs.CL"]
         [{| num := py "[1]"; ref_title := py "Attention";
             ref_abstract := [] |}])
  in
  AbstractAgent.first_subject_line (split [nl] text) = py "cs.AI"
  /\ ContentAgent.find_subject (split [nl] text) = Some (py "cs.AI")
  /\ fst (TitleAgent._extract_content text) = py "cs.CL".
Proof.
  exact (@stages_read_different_subjects (py "cs.AI") [py "cs.CL"]
           [{| num := py "[1]"; ref_title := py "Attention";
               ref_abstract := [] |}] eq_refl eq_refl eq_refl).
Defined.

End ReaderFacts.
(* ------------------------------------------------------------------ *)
(** ** What a stage returns and what it writes *)

Module ResultFacts.

Section Results.
Context {client : Client} {prompts : Prompts}.

Lemma title_files_results fuel (files : list (str * str)) :
  forall results0 w fs0 results w' fs',
    TitleAgent.process_files fuel (results0, w, fs0) files
      = Some (results, w', fs') ->
    exists new,
      results = results0 ++ new /\ fs' = written_titles fs0 new.
Proof.
  induction files as [|file files IH]; intros results0 w fs0 results w' fs' H.
  - injection H as <- _ <-. exists []. now rewrite app_nil_r.
  - cbn [TitleAgent.process_files] in H.
    destruct (TitleAgent.process_file fuel (results0, w, fs0) file)
      as [[[results1 w1] fs1]|] eqn:E; [|discriminate].
    cbn [obind] in H. apply IH in H as (new & -> & ->).
    unfold TitleAgent.process_file in E.
    destruct (TitleAgent.nonempty _ && TitleAgent.nonempty _).
    + destruct (TitleAgent._get_title_from_gpt _ _ _ _) as [[t w2]|];
        [|discriminate].
      cbn [obind] in E. injection E as <- _ <-.
      eexists (_ :: new). split; [now rewrite <- app_assoc|].
      reflexivity.
    + injection E as <- _ <-. now exists new.
Qed.

Lemma outline_files_results (files : list (str * str)) :
  forall results0 w fs0 results w' fs',
    fold_left OutlineAgent.process_file files (results0, w, fs0)
      = (results, w', fs') ->
    exists new,
      results = results0 ++ new /\ fs' = written_outlines fs0 new.
Proof.
  induction files as [|file files IH]; intros results0 w fs0 results w' fs' H.
  - injection H as <- _ <-. exists []. now rewrite app_nil_r.
  - cbn [fold_left] in H.
    destruct (OutlineAgent.process_file (results0, w, fs0) file)
      as [[results1 w1] fs1] eqn:E.
    apply IH in H as (new & -> & ->).
    unfold OutlineAgent.process_file in E.
    destruct (OutlineAgent._read_reference_file _ _) as [rd|].
    + destruct (TitleAgent.nonempty _ && TitleAgent.nonempty _).
      * destruct (OutlineAgent._get_outline_from_gpt _ _ _) as [outline w2].
        injection E as <- _ <-.
        eexists (_ :: new). split; [now rewrite <- app_assoc|].
        reflexivity.
      * injection E as <- _ <-. now exists new.
    + injection E as <- _ <-. now exists new.
Qed.

Lemma abstract_list_results fuel (ids : list str) :
  forall results0 w fs0 results w' fs',
    AbstractAgent.process_list fuel (results0, w, fs0) ids
      = Some (results, w', fs') ->
    exists new,
      results = results0 ++ new /\ fs' = written_abstracts fs0 new.
Proof.
  induction ids as [|paper_id ids IH];
    intros results0 w fs0 results w' fs' H.
  - injection H as <- _ <-. exists []. now rewrite app_nil_r.
  - cbn [AbstractAgent.process_list] in H.
    destruct (AbstractAgent.process_paper fuel (results0, w, fs0) paper_id)
      as [[[results1 w1] fs1]|] eqn:E; [|discriminate].
    cbn [obind] in H. apply IH in H as (new & -> & ->).
    unfold AbstractAgent.process_paper in E.
    destruct (AbstractAgent.nonempty _ && AbstractAgent.nonempty _
              && AbstractAgent.nonempty _).
    + destruct (AbstractAgent._get_abstract_from_gpt _ _ _ _ _)
        as [[a w2]|]; [|discriminate].
      cbn [obind] in E. destruct (AbstractAgent.nonempty a).
      * injection E as <- _ <-.
        eexists (_ :: new). split; [now rewrite <- app_assoc|].
        reflexivity.
      * injection E as <- _ <-. now exists new.
    + injection E as <- _ <-. now exists new.
Qed.

Lemma written_titles_frame (results : list TitleArtifact) :
  forall fs,
    let fs' := written_titles fs results in
    test_dir fs' = test_dir fs /\ outline_dir fs' = outline_dir fs
    /\ abstract_dir fs' = abstract_dir fs
    /\ references_dir fs' = references_dir fs
    /\ subsections_dir fs' = subsections_dir fs
    /\ content_dir fs' = content_dir fs /\ train_dir fs' = train_dir fs
    /\ final_dir fs' = final_dir fs.
Proof.
  induction results as [|r results IH]; intros fs; [now repeat split|].
  cbv zeta in *. unfold written_titles in *. cbn [fold_left].
  destruct (IH (write_title fs (t_paper_id r) r))
    as (H1 & H2 & H3 & H4 & H5 & H6 & H7 & H8).
  now rewrite H1, H2, H3, H4, H5, H6, H7, H8.
Qed.

(** X20: the list a run of the Title, Outline or Abstract stage returns is
    the sequence of artifacts it has written: the store after the run is
    the store before it with each returned artifact written under its paper
    identifier, in order; for the Title stage, every other directory is
    therefore as it was. *)
Theorem stage_results_are_the_writes :
  (forall fuel w fs results w' fs',
     TitleAgent.process_folder fuel w fs = Some (results, w', fs') ->
     fs' = written_titles fs results
     /\ test_dir fs' = test_dir fs /\ outline_dir fs' = outline_dir fs
     /\ abstract_dir fs' = abstract_dir fs
     /\ references_dir fs' = references_dir fs
     /\ subsections_dir fs' = subsections_dir fs
     /\ content_dir fs' = content_dir fs /\ train_dir fs' = train_dir fs
     /\ final_dir fs' = final_dir fs)
  /\ (forall w fs results w' fs',
        OutlineAgent.process_folder w fs = (results, w', fs') ->
        fs' = written_outlines fs results)
  /\ (forall fuel w fs results w' fs',
        AbstractAgent.process_papers fuel w fs = Some (results, w', fs') ->
        fs' = written_abstracts fs results).
Proof.
  split; [|split].
  - intros fuel w fs results w' fs' H.
    apply title_files_results in H as (new & -> & ->).
    split; [reflexivity|]. apply written_titles_frame.
  - intros w fs results w' fs' H.
    apply outline_files_results in H as (new & -> & ->). reflexivity.
  - intros fuel w fs results w' fs' H.
    apply abstract_list_results in H as (new & -> & ->). reflexivity.
Qed.
End Results.

Lemma stage_results_are_the_writes_witness :
  written_titles sample_fs
    [{| t_paper_id := py "9901.001";
        title := py "<title>A Survey of X</title>" |}]
  = TitleAgent._save_title sample_fs (py "9901.001")
      (py "<title>A Survey of X</title>").
Proof.
  symmetry.
  exact (proj1 (proj1 (@stage_results_are_the_writes scripted plain_prompts)
                  1 [Ok (py "<title>A Survey of X</title>")] sample_fs _ []
                  _ eq_refl)).
Defined.

End ResultFacts.
